(** * Chronos: the XER parsing and analysis engine

    A shallow embedding of the parts of the repository that parse a
    tab-delimited XER export (XERParser), build the typed collections
    (Reader), derive the analytics (critical activities, summary
    statistics, weekly resource curves) and run the DCMA 14-point
    assessment (IntegrityChecker).

    Modelling conventions, used throughout:
    - a JavaScript number is [number]: NaN, a signed infinity, or an exact
      rational.  Arithmetic on finite numbers is exact, binary64 rounding
      is not modelled, and -0 is identified with +0;
    - a Date object is its time value, [time]: [None] is the Invalid Date,
      [Some t] is [t] milliseconds since the epoch.  The range limit of
      Date (8.64e15 ms) is not modelled;
    - a JavaScript string is a [string] of 8-bit code units;
    - an object used as a record or as a dictionary is a [gmap] from
      property names to values; an absent property reads as [VUndefined];
    - what the JavaScript engine supplies for strings (numeric and date
      parsing, fixed-point formatting) is a parameter, the class [Host]. *)

From Stdlib Require Import Ascii QArith Qcanon Qround.
From stdpp Require Import gmap strings list fin_maps numbers pretty.

Local Open Scope Z_scope.

(** ** Numbers *)

Inductive number :=
| NaN
| Infty (neg : bool)
| Num (q : Qc).

Definition Qc_ltb (p q : Qc) : bool :=
  match (p ?= q)%Qc with Lt => true | _ => false end.
Definition Qc_leb (p q : Qc) : bool :=
  match (p ?= q)%Qc with Gt => false | _ => true end.
Definition Qc_eqb (p q : Qc) : bool :=
  match (p ?= q)%Qc with Eq => true | _ => false end.

Definition num_of_Z (z : Z) : number := Num (Qc_of_Z z).
Definition num_of_nat (n : nat) : number := num_of_Z (Z.of_nat n).
Definition num_zero : number := num_of_Z 0.

Definition isNaN (n : number) : bool :=
  match n with NaN => true | _ => false end.

Definition num_neg (a : number) : number :=
  match a with
  | NaN => NaN
  | Infty s => Infty (negb s)
  | Num q => Num (- q)%Qc
  end.

Definition num_add (a b : number) : number :=
  match a, b with
  | NaN, _ | _, NaN => NaN
  | Infty s, Infty s' => if Bool.eqb s s' then Infty s else NaN
  | Infty s, Num _ | Num _, Infty s => Infty s
  | Num p, Num q => Num (p + q)%Qc
  end.

Definition num_sub (a b : number) : number := num_add a (num_neg b).

Definition num_mul (a b : number) : number :=
  match a, b with
  | NaN, _ | _, NaN => NaN
  | Infty s, Infty s' => Infty (xorb s s')
  | Infty s, Num q | Num q, Infty s =>
      if Qc_eqb q 0 then NaN else Infty (xorb s (Qc_ltb q 0))
  | Num p, Num q => Num (p * q)%Qc
  end.

Definition num_div (a b : number) : number :=
  match a, b with
  | NaN, _ | _, NaN => NaN
  | Infty _, Infty _ => NaN
  | Infty s, Num q => Infty (xorb s (Qc_ltb q 0))
  | Num _, Infty _ => num_zero
  | Num p, Num q =>
      if Qc_eqb q 0
      then (if Qc_eqb p 0 then NaN else Infty (Qc_ltb p 0))
      else Num (p / q)%Qc
  end.

(** [a < b]; false as soon as one side is NaN. *)
Definition num_lt (a b : number) : bool :=
  match a, b with
  | NaN, _ | _, NaN => false
  | Infty s, Infty s' => s && negb s'
  | Infty s, Num _ => s
  | Num _, Infty s => negb s
  | Num p, Num q => Qc_ltb p q
  end.

(** [a === b] on numbers. *)
Definition num_eq (a b : number) : bool :=
  match a, b with
  | NaN, _ | _, NaN => false
  | Infty s, Infty s' => Bool.eqb s s'
  | Num p, Num q => Qc_eqb p q
  | _, _ => false
  end.

Definition num_le (a b : number) : bool := num_lt a b || num_eq a b.
Definition num_gt (a b : number) : bool := num_lt b a.
Definition num_ge (a b : number) : bool := num_le b a.

(** [Math.max(a, b)] and [Math.min(a, b)]. *)
Definition num_max (a b : number) : number :=
  match a, b with
  | NaN, _ | _, NaN => NaN
  | _, _ => if num_lt a b then b else a
  end.

Definition num_min (a b : number) : number :=
  match a, b with
  | NaN, _ | _, NaN => NaN
  | _, _ => if num_lt b a then b else a
  end.

(** [Math.max(...l)] and [Math.min(...l)]. *)
Definition Math_max (l : list number) : number := foldr num_max (Infty true) l.
Definition Math_min (l : list number) : number := foldr num_min (Infty false) l.

(** [Math.round(a)]: the integer nearest to [a], ties towards +infinity. *)
Definition Math_round (a : number) : number :=
  match a with
  | Num q => num_of_Z (Qfloor (q + Q2Qc (1 # 2))%Qc)
  | _ => a
  end.

(** The integer part, as used when a number becomes a time value. *)
Definition Qc_trunc (q : Qc) : Z :=
  if Qc_ltb q 0 then Qceiling q else Qfloor q.

(** ** Values, records and the host *)

(** The time value of a Date object. *)
Definition time := option Z.

Inductive value :=
| VUndefined
| VNull
| VBool (b : bool)
| VNum (n : number)
| VStr (s : string)
| VDate (t : time).

(** A record (one row of a table): property name to value. *)
Abbreviation record := (gmap string value).

(** [o.k], [o[k]]. *)
Definition get (o : record) (k : string) : value := default VUndefined (o !! k).

(** [o[k] = v] on an ordinary object.  The name [__proto__] is the
    accessor inherited from Object.prototype: assigning to it creates no
    own property. *)
Definition set_prop (k : string) (v : value) (o : record) : record :=
  if decide (k = "__proto__") then o else <[k := v]> o.

(** What the engine supplies for strings. *)
Class Host := {
  (** [Number(s)] *)
  StringToNumber : string -> number;
  (** [parseFloat(s)] *)
  parseFloat_string : string -> number;
  (** the time value of [new Date(s)] *)
  Date_parse : string -> time;
  (** [n.toFixed(digits)] *)
  toFixed : number -> nat -> string
}.

(** [d.getTime()], [+d]. *)
Definition getTime (t : time) : number :=
  match t with Some z => num_of_Z z | None => NaN end.

(** [new Date(n)] for a number [n]. *)
Definition Date_of_number (n : number) : time :=
  match n with Num q => Some (Qc_trunc q) | _ => None end.

(** Truthiness: [!!v]. *)
Definition truthy (v : value) : bool :=
  match v with
  | VUndefined | VNull => false
  | VBool b => b
  | VNum NaN => false
  | VNum (Infty _) => true
  | VNum (Num q) => negb (Qc_eqb q 0)
  | VStr s => negb (String.eqb s "")
  | VDate _ => true
  end.

(** [a || b] *)
Definition js_or (a b : value) : value := if truthy a then a else b.

(** [a === b].  Date objects are compared by identity, and the Dates held
    by two properties are two objects. *)
Definition strict_eq (a b : value) : bool :=
  match a, b with
  | VUndefined, VUndefined | VNull, VNull => true
  | VBool x, VBool y => Bool.eqb x y
  | VNum x, VNum y => num_eq x y
  | VStr x, VStr y => String.eqb x y
  | _, _ => false
  end.

(** The comparison used by [Set.prototype.has]: as [===], but NaN equals
    NaN. *)
Definition same_value_zero (a b : value) : bool :=
  match a, b with
  | VNum NaN, VNum NaN => true
  | _, _ => strict_eq a b
  end.

Section WithHost.
Context `{Host}.

(** [Number(v)] *)
Definition ToNumber (v : value) : number :=
  match v with
  | VUndefined => NaN
  | VNull => num_zero
  | VBool b => if b then num_of_Z 1 else num_zero
  | VNum n => n
  | VStr s => StringToNumber s
  | VDate t => getTime t
  end.

(** [parseFloat(v)]: the argument is first turned into a string.  The
    string of a number reads back as that number; the strings of the other
    non-string values start with no numeral. *)
Definition parseFloat (v : value) : number :=
  match v with
  | VNum n => n
  | VStr s => parseFloat_string s
  | _ => NaN
  end.

(** The time value of [new Date(v)]. *)
Definition Date_new (v : value) : time :=
  match v with
  | VUndefined => None
  | VNull => Some 0
  | VBool b => Some (if b then 1 else 0)
  | VNum n => Date_of_number n
  | VStr s => Date_parse s
  | VDate t => t
  end.

(** *** src/unnamed/part_002: convertToNumber, convertToDate *)

Definition convertToNumber (v : value) : number :=
  if strict_eq v VNull || strict_eq v VUndefined || strict_eq v (VStr "")
  then num_zero
  else
    let num := ToNumber v in
    if isNaN num then num_zero else num.

Definition convertToDate (v : value) : value :=
  if negb (truthy v) || strict_eq v (VStr "")
  then VNull
  else
    let date := Date_new v in
    if isNaN (getTime date) then VNull else VDate date.

End WithHost.

(** ** Strings *)

Definition TAB : ascii := "009"%char.
Definition LF : ascii := "010"%char.

(** The white space that [trim] removes, among the 8-bit code units: TAB,
    LF, VT, FF, CR, space and the no-break space. *)
Definition is_white_space (c : ascii) : bool :=
  existsb (Ascii.eqb c)
    ["009"; "010"; "011"; "012"; "013"; " "; "160"]%char.

Fixpoint trimStart (s : string) : string :=
  match s with
  | String c r => if is_white_space c then trimStart r else s
  | EmptyString => EmptyString
  end.

Fixpoint trimEnd (s : string) : string :=
  match s with
  | String c r =>
      let r' := trimEnd r in
      if is_white_space c && String.eqb r' "" then EmptyString else String c r'
  | EmptyString => EmptyString
  end.

(** [s.trim()] *)
Definition trim (s : string) : string := trimEnd (trimStart s).

(** [s.split(sep)] for a one-character separator: never the empty list. *)
Fixpoint split (sep : ascii) (s : string) : list string :=
  match s with
  | EmptyString => [EmptyString]
  | String c r =>
      if Ascii.eqb c sep then EmptyString :: split sep r
      else match split sep r with
           | h :: t => String c h :: t
           | [] => [String c EmptyString]
           end
  end.

(** [s.startsWith(p)] *)
Definition startsWith (s p : string) : bool := String.prefix p s.

(** [s.substring(n)] *)
Fixpoint substring_from (n : nat) (s : string) : string :=
  match n, s with
  | S n', String _ r => substring_from n' r
  | _, _ => s
  end.

(** The three markers, each followed by a TAB. *)
Definition marker (c : ascii) : string :=
  String "%" (String c (String TAB EmptyString)).
Definition marker_T : string := marker "T".
Definition marker_F : string := marker "F".
Definition marker_R : string := marker "R".

(** ** src/unnamed/part_002: XERParser.parseContent *)

(** How a statement ends: normally, or by throwing. *)
Inductive completion (A : Type) :=
| Normal (a : A)
| Throw (error : string).
Arguments Normal {A} a.
Arguments Throw {A} error.

Definition bind {A B} (c : completion A) (k : A -> completion B) : completion B :=
  match c with
  | Normal a => k a
  | Throw e => Throw e
  end.

(** The table map: table name to the rows collected so far.  Assigning an
    array to the name [__proto__] installs it as the prototype of [data],
    and reading that name returns it, so that the reads and writes of
    [parseContent] see every name as an entry. *)
Abbreviation tables := (gmap string (list record)).

Record parser_state := {
  data : tables;
  currentTable : option string;   (* [None] is [null] *)
  currentFields : list string
}.

Definition initial_state : parser_state :=
  {| data := ∅; currentTable := None; currentFields := [] |}.

(** [values[i] || ''] on a string. *)
Definition or_empty (v : string) : string :=
  if String.eqb v "" then "" else v.

(** The loop [for (i = 0; i < currentFields.length && i < values.length; i++)
    record[currentFields[i]] = values[i] || '']. *)
Fixpoint fill_record (fields values : list string) (rec : record) : record :=
  match fields, values with
  | f :: fields', v :: values' =>
      fill_record fields' values' (set_prop f (VStr (or_empty v)) rec)
  | _, _ => rec
  end.

(** [data[table].push(rec)]: a TypeError when [data[table]] is undefined. *)
Definition push_row (table : string) (rec : record) (d : tables) : completion tables :=
  match d !! table with
  | Some rows => Normal (<[table := rows ++ [rec]]> d)
  | None => Throw "TypeError"
  end.

(** [currentTable && currentFields.length > 0] *)
Definition row_accepted (st : parser_state) : option string :=
  match currentTable st with
  | Some t =>
      if negb (String.eqb t "") && (0 <? Z.of_nat (length (currentFields st)))
      then Some t else None
  | None => None
  end.

(** One iteration of the loop over the lines. *)
Definition parse_line (st : parser_state) (line : string) : completion parser_state :=
  if startsWith line marker_T then
    let table := substring_from 3 line in
    Normal {| data := <[table := []]> (data st);
              currentTable := Some table;
              currentFields := [] |}
  else if startsWith line marker_F then
    let fields := split TAB (substring_from 3 line) in
    Normal {| data := data st;
              currentTable := currentTable st;
              currentFields := fields |}
  else if startsWith line marker_R then
    match row_accepted st with
    | Some table =>
        let values := split TAB (substring_from 3 line) in
        let rec := fill_record (currentFields st) values ∅ in
        bind (push_row table rec (data st)) (fun d =>
        Normal {| data := d;
                  currentTable := currentTable st;
                  currentFields := currentFields st |})
    | None => Normal st
    end
  else Normal st.

Fixpoint parse_lines (st : parser_state) (lines : list string) : completion parser_state :=
  match lines with
  | [] => Normal st
  | line :: rest => bind (parse_line st line) (fun st' => parse_lines st' rest)
  end.

(** [content.split('\n').map(line => line.trim()).filter(line => line)] *)
Definition content_lines (content : string) : list string :=
  filter (fun line => line ≠ "") (trim <$> split LF content).

Definition parseContent (content : string) : completion tables :=
  bind (parse_lines initial_state (content_lines content)) (fun st =>
  Normal (data st)).

(** ** src/unnamed/part_002: XERParser.convertTypes and SCHEMAS *)

Record field_schema := { type : string }.

(** A table schema: field name to its declared type. *)
Abbreviation schema := (gmap string field_schema).

Definition SCHEMAS_PROJECT : schema :=
  list_to_map
    [("proj_id", {| type := "string" |});
     ("proj_short_name", {| type := "string" |});
     ("proj_name", {| type := "string" |});
     ("proj_mgr", {| type := "string" |});
     ("status_code", {| type := "string" |})].

Definition SCHEMAS_TASK : schema :=
  list_to_map
    [("task_id", {| type := "string" |});
     ("proj_id", {| type := "string" |});
     ("wbs_id", {| type := "string" |});
     ("task_code", {| type := "string" |});
     ("task_name", {| type := "string" |});
     ("status_code", {| type := "string" |});
     ("phys_complete_pct", {| type := "number" |});
     ("target_drtn_hr_cnt", {| type := "number" |});
     ("total_float_hr_cnt", {| type := "number" |});
     ("driving_path_flag", {| type := "string" |});
     ("act_start_date", {| type := "date" |});
     ("act_end_date", {| type := "date" |});
     ("early_start_date", {| type := "date" |});
     ("early_end_date", {| type := "date" |});
     ("late_start_date", {| type := "date" |});
     ("late_end_date", {| type := "date" |})].

Definition SCHEMAS_PROJWBS : schema :=
  list_to_map
    [("wbs_id", {| type := "string" |});
     ("proj_id", {| type := "string" |});
     ("obs_id", {| type := "string" |});
     ("seq_num", {| type := "number" |});
     ("est_wt", {| type := "number" |});
     ("proj_node_flag", {| type := "string" |});
     ("sum_data_flag", {| type := "string" |});
     ("status_code", {| type := "string" |});
     ("wbs_name", {| type := "string" |});
     ("wbs_short_name", {| type := "string" |});
     ("parent_wbs_id", {| type := "string" |})].

Definition SCHEMAS_RSRC : schema :=
  list_to_map
    [("rsrc_id", {| type := "string" |});
     ("rsrc_name", {| type := "string" |});
     ("rsrc_type", {| type := "string" |})].

Definition SCHEMAS_TASKPRED : schema :=
  list_to_map
    [("task_pred_id", {| type := "string" |});
     ("task_id", {| type := "string" |});
     ("pred_task_id", {| type := "string" |});
     ("pred_type", {| type := "string" |});
     ("lag_hr_cnt", {| type := "number" |})].

Definition SCHEMAS_TASKRSRC : schema :=
  list_to_map
    [("taskrsrc_id", {| type := "string" |});
     ("task_id", {| type := "string" |});
     ("rsrc_id", {| type := "string" |});
     ("proj_id", {| type := "string" |});
     ("target_qty", {| type := "number" |});
     ("target_cost", {| type := "number" |});
     ("act_reg_qty", {| type := "number" |});
     ("act_ot_qty", {| type := "number" |});
     ("act_reg_cost", {| type := "number" |});
     ("act_ot_cost", {| type := "number" |});
     ("remain_qty", {| type := "number" |});
     ("remain_cost", {| type := "number" |})].

Section Projector.
Context `{Host}.

(** The [switch (fieldSchema.type)] of [convertTypes]. *)
Definition convert_value (fieldType : string) (v : value) : value :=
  if String.eqb fieldType "number" then VNum (convertToNumber v)
  else if String.eqb fieldType "date" then convertToDate v
  else if String.eqb fieldType "boolean" then
    VBool (strict_eq v (VStr "Y") || strict_eq v (VStr "true")
           || strict_eq v (VStr "1"))
  else v.

(** The body of the loop over [Object.entries(record)].  A name that the
    schema does not declare is skipped; a name that the schema object only
    inherits has no [type] and is assigned its own value again. *)
Definition convert_entry (tableSchema : schema)
    (field : string) (v : value) (converted : record) : record :=
  match tableSchema !! field with
  | None => converted
  | Some fieldSchema => <[field := convert_value (type fieldSchema) v]> converted
  end.

(** [tableSchema] is [None] when the caller passes no schema. *)
Definition convertTypes (rec : record) (tableSchema : option schema) : record :=
  match tableSchema with
  | None => rec
  | Some sch => map_fold (convert_entry sch) rec rec
  end.

(** ** src/unnamed/part_002: Reader *)

Record Reader := {
  projects : list record;
  activities : list record;
  wbs : list record;
  resources : list record;
  relationships : list record;
  activityResources : list record;
  rawData : tables
}.

(** The constructor. *)
Definition new_Reader : Reader :=
  {| projects := []; activities := []; wbs := []; resources := [];
     relationships := []; activityResources := []; rawData := ∅ |}.

(** [if (rawData.T) collection = rawData.T.map(r => convertTypes(r, S))] *)
Definition build_collection (raw : tables) (table : string) (sch : schema)
    (old : list record) : list record :=
  match raw !! table with
  | Some rows => (fun rec => convertTypes rec (Some sch)) <$> rows
  | None => old
  end.

Definition buildCollections (r : Reader) : Reader :=
  let raw := rawData r in
  {| projects := build_collection raw "PROJECT" SCHEMAS_PROJECT (projects r);
     activities := build_collection raw "TASK" SCHEMAS_TASK (activities r);
     wbs := build_collection raw "PROJWBS" SCHEMAS_PROJWBS (wbs r);
     resources := build_collection raw "RSRC" SCHEMAS_RSRC (resources r);
     relationships :=
       build_collection raw "TASKPRED" SCHEMAS_TASKPRED (relationships r);
     activityResources :=
       build_collection raw "TASKRSRC" SCHEMAS_TASKRSRC (activityResources r);
     rawData := raw |}.

(** [Reader.parseContent] *)
Definition Reader_parseContent (r : Reader) (content : string) : completion Reader :=
  bind (parseContent content) (fun raw =>
  Normal (buildCollections
    {| projects := projects r; activities := activities r; wbs := wbs r;
       resources := resources r; relationships := relationships r;
       activityResources := activityResources r; rawData := raw |})).

Definition getActivitiesByProject (r : Reader) (projectId : value) : list record :=
  filter (fun activity => strict_eq (get activity "proj_id") projectId = true)
         (activities r).

Definition is_critical (activity : record) : bool :=
  num_eq (convertToNumber (get activity "total_float_hr_cnt")) num_zero
  || strict_eq (get activity "driving_path_flag") (VStr "Y").

Definition getCriticalActivities (r : Reader) : list record :=
  filter (fun activity => is_critical activity = true) (activities r).

Definition getResourceAssignmentsByResource (r : Reader) (resourceId : value)
    : list record :=
  filter (fun ar => strict_eq (get ar "rsrc_id") resourceId = true)
         (activityResources r).

(** [array.find(p)]: the first element that satisfies [p], or undefined. *)
Definition find_record (p : record -> bool) (l : list record) : option record :=
  List.find p l.

End Projector.

(** ** src/unnamed/part_002: Reader.getResourceCurve *)

(** An element of [activityData]. *)
Record activity_datum := {
  activityId : value;
  activityName : value;
  taskCode : value;
  startDate : time;
  endDate : time;
  targetQty : number;
  actualQty : number;
  targetCost : number;
  actualCost : number;
  remainingQty : number;
  remainingCost : number;
  activityStatus : value;
  activityCompletion : number;
  duration : number
}.

(** An element of [activeActivities]: the datum and its share of the week. *)
Record active_activity := {
  active_datum : activity_datum;
  weeklyActivityTargetQty : number;
  weeklyActivityActualQty : number;
  weeklyActivityTargetCost : number;
  weeklyActivityActualCost : number;
  overlapRatio : number
}.

(** An element of [timeBasedData]: one weekly bucket. *)
Record time_point := {
  date : time;
  weekEnd : time;
  weeklyTargetQty : number;
  weeklyActualQty : number;
  weeklyTargetCost : number;
  weeklyActualCost : number;
  activeActivities : list active_activity
}.

Module DataPoint.
(** An element of [dataPoints]. *)
Record t := {
  activityId : value;
  activityName : value;
  taskCode : value;
  targetQty : number;
  actualQty : number;
  targetCost : number;
  actualCost : number;
  remainingQty : number;
  remainingCost : number;
  activityStatus : value;
  activityCompletion : number;
  startDate : value;
  endDate : value
}.
End DataPoint.

Record curve := {
  resourceId : value;
  resource : option record;
  dataPoints : list DataPoint.t;
  timeBasedData : list time_point
}.

Definition weekInMs : number := num_of_Z (7 * 24 * 60 * 60 * 1000).

(** [activityData.sort((a, b) => a.startDate - b.startDate)]: the sort is
    stable, [b] goes before [a] when the comparator is positive. *)
Definition sorts_after (a b : activity_datum) : bool :=
  num_gt (num_sub (getTime (startDate a)) (getTime (startDate b))) num_zero.

Fixpoint insert_sorted (a : activity_datum) (l : list activity_datum)
    : list activity_datum :=
  match l with
  | [] => [a]
  | b :: l' => if sorts_after a b then b :: insert_sorted a l' else a :: l
  end.

Definition sort_by_start (l : list activity_datum) : list activity_datum :=
  foldr insert_sorted [] l.

(** The body of [activityData.forEach] inside the loop over the weeks: the
    bucket [tp] under construction receives the share of [activity]. *)
Definition add_activity (weekStart weekEnd_ : time) (tp : time_point)
    (activity : activity_datum) : time_point :=
  if num_le (getTime (startDate activity)) (getTime weekEnd_)
     && num_ge (getTime (endDate activity)) (getTime weekStart)
  then
    let overlapStart :=
      Date_of_number (Math_max [getTime (startDate activity); getTime weekStart]) in
    let overlapEnd :=
      Date_of_number (Math_min [getTime (endDate activity); getTime weekEnd_]) in
    let overlapDuration :=
      Math_max [num_zero; num_sub (getTime overlapEnd) (getTime overlapStart)] in
    let activityDuration :=
      num_sub (getTime (endDate activity)) (getTime (startDate activity)) in
    let overlapRatio_ :=
      if num_gt activityDuration num_zero
      then num_div overlapDuration activityDuration else num_zero in
    let weeklyActivityTargetQty_ := num_mul (targetQty activity) overlapRatio_ in
    let weeklyActivityActualQty_ := num_mul (actualQty activity) overlapRatio_ in
    let weeklyActivityTargetCost_ := num_mul (targetCost activity) overlapRatio_ in
    let weeklyActivityActualCost_ := num_mul (actualCost activity) overlapRatio_ in
    {| date := date tp;
       weekEnd := weekEnd tp;
       weeklyTargetQty := num_add (weeklyTargetQty tp) weeklyActivityTargetQty_;
       weeklyActualQty := num_add (weeklyActualQty tp) weeklyActivityActualQty_;
       weeklyTargetCost := num_add (weeklyTargetCost tp) weeklyActivityTargetCost_;
       weeklyActualCost := num_add (weeklyActualCost tp) weeklyActivityActualCost_;
       activeActivities := activeActivities tp ++
         [{| active_datum := activity;
             weeklyActivityTargetQty := weeklyActivityTargetQty_;
             weeklyActivityActualQty := weeklyActivityActualQty_;
             weeklyActivityTargetCost := weeklyActivityTargetCost_;
             weeklyActivityActualCost := weeklyActivityActualCost_;
             overlapRatio := overlapRatio_ |}] |}
  else tp.

(** One iteration of the [while]: the bucket that starts at [weekStart]. *)
Definition week_point (activityData : list activity_datum)
    (weekStart weekEnd_ : time) : time_point :=
  foldl (add_activity weekStart weekEnd_)
    {| date := weekStart; weekEnd := weekEnd_;
       weeklyTargetQty := num_zero; weeklyActualQty := num_zero;
       weeklyTargetCost := num_zero; weeklyActualCost := num_zero;
       activeActivities := [] |}
    activityData.

(** [while (currentDate <= projectEndDate) { ...;
    currentDate.setTime(currentDate.getTime() + weekInMs) }], with the
    number of iterations bounded by [fuel]. *)
Fixpoint weekly_points (fuel : nat) (activityData : list activity_datum)
    (projectEndDate currentDate : time) : list time_point :=
  match fuel with
  | O => []
  | S fuel' =>
      if num_le (getTime currentDate) (getTime projectEndDate) then
        let weekStart := currentDate in
        let weekEnd_ := Date_of_number (num_add (getTime currentDate) weekInMs) in
        week_point activityData weekStart weekEnd_
        :: weekly_points fuel' activityData projectEndDate
             (Date_of_number (num_add (getTime currentDate) weekInMs))
      else []
  end.

(** The iterations the loop can make from [currentDate]: none when a date
    is invalid, and one per started week up to [projectEndDate]. *)
Definition weeks_left (projectEndDate currentDate : time) : nat :=
  match projectEndDate, currentDate with
  | Some e, Some c => Z.to_nat ((e - c) / (7 * 24 * 60 * 60 * 1000) + 1)
  | _, _ => O
  end.

Section ResourceCurve.
Context `{Host}.

(** [activity.act_start_date || activity.early_start_date], and the same
    for the end. *)
Definition start_of (activity : record) : value :=
  js_or (get activity "act_start_date") (get activity "early_start_date").
Definition end_of (activity : record) : value :=
  js_or (get activity "act_end_date") (get activity "early_end_date").

(** [this.activities.find(a => a.task_id === assignment.task_id)] *)
Definition activity_of (r : Reader) (assignment : record) : option record :=
  find_record
    (fun a => strict_eq (get a "task_id") (get assignment "task_id"))
    (activities r).

(** The body of the first [assignments.forEach]: what the assignment
    pushes on [activityData]. *)
Definition collect_activity (r : Reader) (assignment : record)
    : list activity_datum :=
  match activity_of r assignment with
  | Some activity =>
      let startDate_ := start_of activity in
      let endDate_ := end_of activity in
      if truthy startDate_ && truthy endDate_ then
        [{| activityId := get activity "task_id";
            activityName := get activity "task_name";
            taskCode := get activity "task_code";
            startDate := Date_new startDate_;
            endDate := Date_new endDate_;
            targetQty := convertToNumber (get assignment "target_qty");
            actualQty :=
              num_add (convertToNumber (get assignment "act_reg_qty"))
                      (convertToNumber (get assignment "act_ot_qty"));
            targetCost := convertToNumber (get assignment "target_cost");
            actualCost :=
              num_add (convertToNumber (get assignment "act_reg_cost"))
                      (convertToNumber (get assignment "act_ot_cost"));
            remainingQty := convertToNumber (get assignment "remain_qty");
            remainingCost := convertToNumber (get assignment "remain_cost");
            activityStatus := get activity "status_code";
            activityCompletion := convertToNumber (get activity "phys_complete_pct");
            duration := convertToNumber (get activity "target_drtn_hr_cnt") |}]
      else []
  | None => []
  end.

(** The body of the second [assignments.forEach]. *)
Definition collect_data_point (r : Reader) (assignment : record)
    : list DataPoint.t :=
  match activity_of r assignment with
  | Some activity =>
      [{| DataPoint.activityId := get activity "task_id";
          DataPoint.activityName := get activity "task_name";
          DataPoint.taskCode := get activity "task_code";
          DataPoint.targetQty := convertToNumber (get assignment "target_qty");
          DataPoint.actualQty :=
            num_add (convertToNumber (get assignment "act_reg_qty"))
                    (convertToNumber (get assignment "act_ot_qty"));
          DataPoint.targetCost := convertToNumber (get assignment "target_cost");
          DataPoint.actualCost :=
            num_add (convertToNumber (get assignment "act_reg_cost"))
                    (convertToNumber (get assignment "act_ot_cost"));
          DataPoint.remainingQty := convertToNumber (get assignment "remain_qty");
          DataPoint.remainingCost := convertToNumber (get assignment "remain_cost");
          DataPoint.activityStatus := get activity "status_code";
          DataPoint.activityCompletion :=
            convertToNumber (get activity "phys_complete_pct");
          DataPoint.startDate := start_of activity;
          DataPoint.endDate := end_of activity |}]
  | None => []
  end.

Definition getResourceCurve (r : Reader) (resourceId_ : value) : curve :=
  let assignments := getResourceAssignmentsByResource r resourceId_ in
  let resource_ :=
    find_record (fun x => strict_eq (get x "rsrc_id") resourceId_) (resources r) in
  let activityData := sort_by_start (assignments ≫= collect_activity r) in
  if Nat.eqb (length activityData) 0 then
    {| resourceId := resourceId_; resource := resource_;
       dataPoints := []; timeBasedData := [] |}
  else
    let projectStartDate :=
      Date_of_number (Math_min ((fun a => getTime (startDate a)) <$> activityData)) in
    let projectEndDate :=
      Date_of_number (Math_max ((fun a => getTime (endDate a)) <$> activityData)) in
    let timePoints :=
      weekly_points (weeks_left projectEndDate projectStartDate)
        activityData projectEndDate projectStartDate in
    {| resourceId := resourceId_; resource := resource_;
       dataPoints := assignments ≫= collect_data_point r;
       timeBasedData := timePoints |}.

End ResourceCurve.

(** ** src/unnamed/part_002: Reader.getSummaryStats *)

Module DurationStats.
Record t := {
  total : number;
  average : number;
  min : number;
  max : number
}.
End DurationStats.

(** The result of [getSummaryStats], without its two histograms
    ([statusBreakdown] and [resourceBreakdown]).  [durationStats] is [None]
    when the property is not set. *)
Record summary_stats := {
  totalProjects : nat;
  totalActivities : nat;
  totalResources : nat;
  totalRelationships : nat;
  totalResourceAssignments : nat;
  durationStats : option DurationStats.t
}.

(** [l.reduce((sum, d) => sum + d, 0)] *)
Definition sum_numbers (l : list number) : number := foldl num_add num_zero l.

Section SummaryStats.
Context `{Host}.

(** [activities.map(a => convertToNumber(a.target_drtn_hr_cnt)).filter(d => d > 0)] *)
Definition positive_durations (r : Reader) : list number :=
  filter (fun d => num_gt d num_zero = true)
    ((fun a => convertToNumber (get a "target_drtn_hr_cnt")) <$> activities r).

Definition getSummaryStats (r : Reader) : summary_stats :=
  let durations := positive_durations r in
  {| totalProjects := length (projects r);
     totalActivities := length (activities r);
     totalResources := length (resources r);
     totalRelationships := length (relationships r);
     totalResourceAssignments := length (activityResources r);
     durationStats :=
       if (0 <? length durations)%nat then
         Some {| DurationStats.total := sum_numbers durations;
                 DurationStats.average :=
                   num_div (sum_numbers durations) (num_of_nat (length durations));
                 DurationStats.min := Math_min durations;
                 DurationStats.max := Math_max durations |}
       else None |}.

End SummaryStats.

(** ** src/js/integrityChecker.js *)

(** What [runDCMA14Assessment] reads of the application. *)
Record App := {
  allActivities : list record;
  currentReader : Reader
}.

(** The result of one check: its number, title, status and numeric
    details.  The texts ([description], [message]) and the drill-down lists
    ([failedItems]) are left out. *)
Record check_result := {
  number_ : nat;
  title : string;
  status : string;
  details : list (string * value)
}.

Record assessment_summary := {
  totalPoints : nat;
  passedPoints : nat;
  failedPoints : nat;
  warningPoints : nat;
  score : number;
  grade : string
}.

Record assessment := {
  points : list check_result;
  summary : assessment_summary
}.

(** A [Set] of values: the values added so far. *)
Definition set_has (s : list value) (v : value) : bool :=
  existsb (same_value_zero v) s.

(** [l.length] as a number, and as a value. *)
Definition len {A} (l : list A) : number := num_of_nat (length l).
Definition vlen {A} (l : list A) : value := VNum (len l).

(** [l.filter(p)] *)
Definition filterb {A} (p : A -> bool) (l : list A) : list A :=
  filter (fun x => p x = true) l.

(** [(part / whole) * 100] *)
Definition percent (part whole : number) : number :=
  num_mul (num_div part whole) (num_of_Z 100).

Definition num_0_05 : number := Num (Q2Qc (5 # 100)).
Definition num_0_1 : number := Num (Q2Qc (1 # 10)).

Section IntegrityChecker.
Context `{Host}.

(** [parseFloat(v || 0)] *)
Definition parseFloat_or0 (v : value) : number :=
  parseFloat (js_or v (VNum num_zero)).

(** [a.target_drtn_hr_cnt === 0 || !a.target_drtn_hr_cnt] *)
Definition no_duration (a : record) : bool :=
  strict_eq (get a "target_drtn_hr_cnt") (VNum num_zero)
  || negb (truthy (get a "target_drtn_hr_cnt")).

Definition checkLogic (activities_ relationships_ : list record) : check_result :=
  let activitiesWithPred := (fun rel => get rel "task_id") <$> relationships_ in
  let activitiesWithSucc := (fun rel => get rel "pred_task_id") <$> relationships_ in
  let startMilestones :=
    filterb (fun a => negb (set_has activitiesWithPred (get a "task_id"))
                      && no_duration a) activities_ in
  let finishMilestones :=
    filterb (fun a => negb (set_has activitiesWithSucc (get a "task_id"))
                      && no_duration a) activities_ in
  let danglingActivities :=
    filterb (fun a => negb (set_has activitiesWithPred (get a "task_id"))
                      && negb (set_has activitiesWithSucc (get a "task_id")))
            activities_ in
  let activitiesWithoutPred :=
    filterb (fun a => negb (set_has activitiesWithPred (get a "task_id"))
                      && num_gt (parseFloat_or0 (get a "target_drtn_hr_cnt")) num_zero)
            activities_ in
  let activitiesWithoutSucc :=
    filterb (fun a => negb (set_has activitiesWithSucc (get a "task_id"))
                      && num_gt (parseFloat_or0 (get a "target_drtn_hr_cnt")) num_zero)
            activities_ in
  let status_ :=
    if Nat.eqb (length danglingActivities) 0
       && (1 <=? length startMilestones)%nat
       && (1 <=? length finishMilestones)%nat
    then "pass" else "fail" in
  {| number_ := 1; title := "Logic"; status := status_;
     details :=
       [("danglingActivities", vlen danglingActivities);
        ("startMilestones", vlen startMilestones);
        ("finishMilestones", vlen finishMilestones);
        ("totalActivities", vlen activities_);
        ("activitiesWithoutPred", vlen activitiesWithoutPred);
        ("activitiesWithoutSucc", vlen activitiesWithoutSucc)] |}.

(** [whole.length > 0 ? (part.length / whole.length * 100).toFixed(1) : 0] *)
Definition percentage_or0 {A B} (part : list A) (whole : list B) : value :=
  if num_gt (len whole) num_zero
  then VStr (toFixed (percent (len part) (len whole)) 1)
  else VNum num_zero.

Definition checkLeads (relationships_ : list record) : check_result :=
  let leadRelationships :=
    filterb (fun rel => truthy (get rel "lag_hr_cnt")
                        && num_lt (parseFloat (get rel "lag_hr_cnt")) num_zero)
            relationships_ in
  let status_ :=
    if num_eq (len leadRelationships) num_zero then "pass"
    else if num_le (len leadRelationships) (num_mul (len relationships_) num_0_05)
    then "warning" else "fail" in
  {| number_ := 2; title := "Leads"; status := status_;
     details :=
       [("leadsCount", vlen leadRelationships);
        ("totalRelationships", vlen relationships_);
        ("percentage", percentage_or0 leadRelationships relationships_)] |}.

Definition checkLags (relationships_ : list record) : check_result :=
  let lagRelationships :=
    filterb (fun rel => truthy (get rel "lag_hr_cnt")
                        && num_gt (parseFloat (get rel "lag_hr_cnt")) num_zero)
            relationships_ in
  let status_ :=
    if num_le (len lagRelationships) (num_mul (len relationships_) num_0_1)
    then "pass" else "warning" in
  {| number_ := 3; title := "Lags"; status := status_;
     details :=
       [("lagsCount", vlen lagRelationships);
        ("totalRelationships", vlen relationships_);
        ("percentage", percentage_or0 lagRelationships relationships_)] |}.

Definition checkRelationshipTypes (relationships_ : list record) : check_result :=
  let fsRelationships :=
    filterb (fun rel => negb (truthy (get rel "pred_type"))
                        || strict_eq (get rel "pred_type") (VStr "PR_FS"))
            relationships_ in
  let percentage :=
    if num_gt (len relationships_) num_zero
    then percent (len fsRelationships) (len relationships_)
    else num_of_Z 100 in
  let status_ :=
    if num_ge percentage (num_of_Z 90) then "pass"
    else if num_ge percentage (num_of_Z 80) then "warning" else "fail" in
  {| number_ := 4; title := "Relationship Types"; status := status_;
     details :=
       [("fsRelationships", vlen fsRelationships);
        ("totalRelationships", vlen relationships_);
        ("percentage", VStr (toFixed percentage 1))] |}.

Definition checkHardConstraints (activities_ : list record) : check_result :=
  let constrainedActivities :=
    filterb (fun a => truthy (get a "cstr_type")
                      && negb (strict_eq (get a "cstr_type") (VStr "CS_ALAP"))
                      && negb (strict_eq (get a "cstr_type") (VStr "CS_ASAP")))
            activities_ in
  let status_ :=
    if num_eq (len constrainedActivities) num_zero then "pass"
    else if num_le (len constrainedActivities) (num_mul (len activities_) num_0_05)
    then "warning" else "fail" in
  {| number_ := 5; title := "Hard Constraints"; status := status_;
     details :=
       [("constrainedActivities", vlen constrainedActivities);
        ("totalActivities", vlen activities_);
        ("percentage", percentage_or0 constrainedActivities activities_)] |}.

(** [whole.length > 0 ? (part.length / whole.length) * 100 : otherwise] *)
Definition percentage_of {A B} (part : list A) (whole : list B)
    (otherwise : number) : number :=
  if num_gt (len whole) num_zero
  then percent (len part) (len whole) else otherwise.

(** [percentage <= 5 ? 'pass' : percentage <= 10 ? 'warning' : 'fail'] *)
Definition status_at_most_5_10 (percentage : number) : string :=
  if num_le percentage (num_of_Z 5) then "pass"
  else if num_le percentage (num_of_Z 10) then "warning" else "fail".

Definition checkHighFloat (activities_ : list record) : check_result :=
  let highFloatActivities :=
    filterb (fun a => num_gt (parseFloat_or0 (get a "total_float_hr_cnt"))
                             (num_of_Z 168)) activities_ in
  let percentage := percentage_of highFloatActivities activities_ num_zero in
  {| number_ := 6; title := "High Float";
     status := status_at_most_5_10 percentage;
     details :=
       [("highFloatActivities", vlen highFloatActivities);
        ("totalActivities", vlen activities_);
        ("percentage", VStr (toFixed percentage 1))] |}.

Definition checkNegativeFloat (activities_ : list record) : check_result :=
  let negativeFloatActivities :=
    filterb (fun a => num_lt (parseFloat_or0 (get a "total_float_hr_cnt")) num_zero)
            activities_ in
  let status_ :=
    if num_eq (len negativeFloatActivities) num_zero then "pass" else "fail" in
  {| number_ := 7; title := "Negative Float"; status := status_;
     details :=
       [("negativeFloatActivities", vlen negativeFloatActivities);
        ("totalActivities", vlen activities_)] |}.

Definition checkHighDuration (activities_ : list record) : check_result :=
  let highDurationActivities :=
    filterb (fun a => num_gt (parseFloat_or0 (get a "target_drtn_hr_cnt"))
                             (num_of_Z 960)) activities_ in
  let percentage := percentage_of highDurationActivities activities_ num_zero in
  {| number_ := 8; title := "High Duration";
     status := status_at_most_5_10 percentage;
     details :=
       [("highDurationActivities", vlen highDurationActivities);
        ("totalActivities", vlen activities_);
        ("percentage", VStr (toFixed percentage 1))] |}.

Definition checkInvalidDates (activities_ : list record) : check_result :=
  let invalidDateActivities :=
    filterb (fun a =>
      let startDate_ := start_of a in
      let endDate_ := end_of a in
      negb (truthy startDate_) || negb (truthy endDate_)
      || num_gt (getTime (Date_new startDate_)) (getTime (Date_new endDate_)))
      activities_ in
  let status_ :=
    if num_eq (len invalidDateActivities) num_zero then "pass" else "fail" in
  {| number_ := 9; title := "Invalid Dates"; status := status_;
     details :=
       [("invalidDateActivities", vlen invalidDateActivities);
        ("totalActivities", vlen activities_)] |}.

Definition checkResources (activities_ assignments : list record) : check_result :=
  let activitiesWithResources := (fun a => get a "task_id") <$> assignments in
  let workActivities :=
    filterb (fun a => num_gt (parseFloat_or0 (get a "target_drtn_hr_cnt")) num_zero)
            activities_ in
  let resourcedActivities :=
    filterb (fun a => set_has activitiesWithResources (get a "task_id"))
            workActivities in
  let percentage :=
    percentage_of resourcedActivities workActivities (num_of_Z 100) in
  let status_ :=
    if num_ge percentage (num_of_Z 95) then "pass"
    else if num_ge percentage (num_of_Z 80) then "warning" else "fail" in
  {| number_ := 10; title := "Resources"; status := status_;
     details :=
       [("resourcedActivities", vlen resourcedActivities);
        ("workActivities", vlen workActivities);
        ("percentage", VStr (toFixed percentage 1))] |}.

Definition checkIncompleteActivities (activities_ : list record) : check_result :=
  let incompleteActivities :=
    filterb (fun a => strict_eq (get a "status_code") (VStr "TK_Active")
                      && num_eq (parseFloat_or0 (get a "phys_complete_pct")) num_zero)
            activities_ in
  let activeActivities_ :=
    filterb (fun a => strict_eq (get a "status_code") (VStr "TK_Active"))
            activities_ in
  let percentage := percentage_of incompleteActivities activeActivities_ num_zero in
  {| number_ := 11; title := "Incomplete Activities";
     status := status_at_most_5_10 percentage;
     details :=
       [("incompleteActivities", vlen incompleteActivities);
        ("activeActivities", vlen activeActivities_);
        ("percentage", VStr (toFixed percentage 1))] |}.

Definition checkCriticalPath (activities_ : list record) : check_result :=
  let criticalActivities :=
    filterb (fun a => num_eq (parseFloat_or0 (get a "total_float_hr_cnt")) num_zero
                      || strict_eq (get a "driving_path_flag") (VStr "Y"))
            activities_ in
  let percentage := percentage_of criticalActivities activities_ num_zero in
  let status_ :=
    if num_ge percentage (num_of_Z 5) && num_le percentage (num_of_Z 15)
    then "pass" else "warning" in
  {| number_ := 12; title := "Critical Path Test"; status := status_;
     details :=
       [("criticalActivities", vlen criticalActivities);
        ("totalActivities", vlen activities_);
        ("percentage", VStr (toFixed percentage 1))] |}.

Definition checkCD1 : check_result :=
  {| number_ := 13; title := "CD-1 Baseline"; status := "pass";
     details := [("applicable", VBool false)] |}.

Definition checkCD234 : check_result :=
  {| number_ := 14; title := "CD-2/3/4 Requirements"; status := "pass";
     details := [("applicable", VBool false)] |}.

(** The body of [results.points.forEach] that counts the statuses. *)
Definition count_point (s : assessment_summary) (point : check_result)
    : assessment_summary :=
  if String.eqb (status point) "pass" then
    {| totalPoints := totalPoints s; passedPoints := S (passedPoints s);
       failedPoints := failedPoints s; warningPoints := warningPoints s;
       score := score s; grade := grade s |}
  else if String.eqb (status point) "fail" then
    {| totalPoints := totalPoints s; passedPoints := passedPoints s;
       failedPoints := S (failedPoints s); warningPoints := warningPoints s;
       score := score s; grade := grade s |}
  else if String.eqb (status point) "warning" then
    {| totalPoints := totalPoints s; passedPoints := passedPoints s;
       failedPoints := failedPoints s; warningPoints := S (warningPoints s);
       score := score s; grade := grade s |}
  else s.

(** The chain of [if (score >= 90) ... else ...]. *)
Definition grade_of (score_ : number) : string :=
  if num_ge score_ (num_of_Z 90) then "A"
  else if num_ge score_ (num_of_Z 80) then "B"
  else if num_ge score_ (num_of_Z 70) then "C"
  else if num_ge score_ (num_of_Z 60) then "D"
  else "F".

(** The part of [runDCMA14Assessment] after the checks have run. *)
Definition summarize (points_ : list check_result) : assessment :=
  let counted :=
    foldl count_point
      {| totalPoints := 14; passedPoints := 0; failedPoints := 0;
         warningPoints := 0; score := num_zero; grade := "F" |}
      points_ in
  let score_ :=
    Math_round (num_mul (num_div (num_of_nat (passedPoints counted))
                                 (num_of_nat (totalPoints counted)))
                        (num_of_Z 100)) in
  {| points := points_;
     summary :=
       {| totalPoints := totalPoints counted;
          passedPoints := passedPoints counted;
          failedPoints := failedPoints counted;
          warningPoints := warningPoints counted;
          score := score_;
          grade := grade_of score_ |} |}.

Definition run_checks (app : App) : list check_result :=
  let activities_ := allActivities app in
  let relationships_ := relationships (currentReader app) in
  let assignments := activityResources (currentReader app) in
  [ checkLogic activities_ relationships_;
    checkLeads relationships_;
    checkLags relationships_;
    checkRelationshipTypes relationships_;
    checkHardConstraints activities_;
    checkHighFloat activities_;
    checkNegativeFloat activities_;
    checkHighDuration activities_;
    checkInvalidDates activities_;
    checkResources activities_ assignments;
    checkIncompleteActivities activities_;
    checkCriticalPath activities_;
    checkCD1;
    checkCD234 ].

Definition runDCMA14Assessment (app : App) : assessment :=
  summarize (run_checks app).

End IntegrityChecker.

(** ** src/unnamed/part_002: the other filters of Reader *)

Definition getActivitiesByStatus (r : Reader) (status_ : value) : list record :=
  filter (fun activity => strict_eq (get activity "status_code") status_ = true)
         (activities r).

Definition getResourcesByType (r : Reader) (resourceType : value) : list record :=
  filter (fun resource_ => strict_eq (get resource_ "rsrc_type") resourceType = true)
         (resources r).

Definition getRelationshipsByActivity (r : Reader) (activityId_ : value)
    : list record :=
  filter (fun rel => (strict_eq (get rel "task_id") activityId_
                      || strict_eq (get rel "pred_task_id") activityId_) = true)
         (relationships r).

Definition getResourceAssignments (r : Reader) (activityId_ : value) : list record :=
  filter (fun ar => strict_eq (get ar "task_id") activityId_ = true)
         (activityResources r).

(** ** src/unnamed/part_002: ScheduleAnalyzer *)

Record critical_path_analysis := {
  cp_totalActivities : number;
  cp_criticalActivities : number;
  criticalPercentage : number;
  cp_activities : list record
}.

(** The result of [analyzeScheduleHealth], without [statusBreakdown]. *)
Record schedule_health := {
  sh_totalActivities : number;
  sh_criticalActivities : number;
  healthScore : number
}.

Record earned_value_metrics := {
  plannedValue : number;
  earnedValue : number;
  actualCost_ : number;
  scheduleVariance : number;
  costVariance : number;
  schedulePerformanceIndex : number;
  costPerformanceIndex : number
}.

Section ScheduleAnalyzer.
Context `{Host}.

Definition analyzeCriticalPath (r : Reader) : critical_path_analysis :=
  let criticalActivities := getCriticalActivities r in
  {| cp_totalActivities := len (activities r);
     cp_criticalActivities := len criticalActivities;
     criticalPercentage :=
       num_mul (num_div (len criticalActivities) (len (activities r)))
               (num_of_Z 100);
     cp_activities := criticalActivities |}.

(** [calculateHealthScore(statusCounts, criticalCount, totalActivities)];
    [notStarted] is [statusCounts.TK_NotStart]. *)
Definition calculateHealthScore (notStarted : value)
    (criticalCount totalActivities_ : number) : number :=
  let score0 := num_of_Z 100 in
  let criticalPercentage_ :=
    num_mul (num_div criticalCount totalActivities_) (num_of_Z 100) in
  let score1 :=
    if num_gt criticalPercentage_ (num_of_Z 30)
    then num_sub score0 (num_of_Z 20)
    else if num_gt criticalPercentage_ (num_of_Z 20)
    then num_sub score0 (num_of_Z 10)
    else score0 in
  let notStartedPercentage :=
    num_mul (num_div (ToNumber (js_or notStarted (VNum num_zero))) totalActivities_)
            (num_of_Z 100) in
  let score2 :=
    if num_gt notStartedPercentage (num_of_Z 80)
    then num_sub score1 (num_of_Z 15)
    else if num_gt notStartedPercentage (num_of_Z 60)
    then num_sub score1 (num_of_Z 10)
    else score1 in
  Math_max [num_zero; score2].

(** [statusCounts.TK_NotStart] after the loop that counts the activities
    by [status_code || 'Unknown']: only a status that is the string
    "TK_NotStart" is counted under that name, and the property is absent
    when there is none. *)
Definition count_TK_NotStart (l : list record) : value :=
  let n := length (filterb (fun a => strict_eq (get a "status_code")
                                               (VStr "TK_NotStart")) l) in
  if Nat.eqb n 0 then VUndefined else VNum (num_of_nat n).

Definition analyzeScheduleHealth (r : Reader) : schedule_health :=
  let criticalCount := len (getCriticalActivities r) in
  {| sh_totalActivities := len (activities r);
     sh_criticalActivities := criticalCount;
     healthScore :=
       calculateHealthScore (count_TK_NotStart (activities r)) criticalCount
         (len (activities r)) |}.

(** The accumulators of [getEarnedValueMetrics]: planned value, earned
    value, actual cost. *)
Definition add_earned_value (acc : number * number * number) (activity : record)
    : number * number * number :=
  let '(pv, ev, ac) := acc in
  let duration_ := convertToNumber (get activity "target_drtn_hr_cnt") in
  let completion :=
    num_div (convertToNumber (get activity "phys_complete_pct")) (num_of_Z 100) in
  (num_add pv duration_,
   num_add ev (num_mul duration_ completion),
   num_add ac (num_mul duration_ completion)).

Definition getEarnedValueMetrics (r : Reader) : earned_value_metrics :=
  let '(pv, ev, ac) :=
    foldl add_earned_value (num_zero, num_zero, num_zero) (activities r) in
  {| plannedValue := pv;
     earnedValue := ev;
     actualCost_ := ac;
     scheduleVariance := num_sub ev pv;
     costVariance := num_sub ev ac;
     schedulePerformanceIndex :=
       if num_gt pv num_zero then num_div ev pv else num_zero;
     costPerformanceIndex :=
       if num_gt ac num_zero then num_div ev ac else num_zero |}.

End ScheduleAnalyzer.

(** ** src/js/app.js: ChronosApp.loadProject, as far as the model goes *)

Section Application.
Context `{Host}.

Definition loadProject (content : string) : completion App :=
  bind (Reader_parseContent new_Reader content) (fun reader =>
  Normal {| allActivities :=
              match projects reader with
              | currentProject :: _ =>
                  getActivitiesByProject reader (get currentProject "proj_id")
              | [] => []
              end;
            currentReader := reader |}).
End Application.


(** ** A host for the examples

    [decimal_host] reads decimal numerals (sign, integer part, fraction,
    exponent, [Infinity]) and the date form [YYYY-MM-DD], taken as UTC.
    Numerals with a radix prefix and every other date form are not read.
    Only the concrete examples below use it; the theorems hold for every
    host. *)
Module DecimalHost.

Definition digit (c : ascii) : option Z :=
  let n := Z.of_N (N_of_ascii c) in
  if (48 <=? n) && (n <=? 57) then Some (n - 48) else None.

(** The value of the leading digits of [s] on top of [acc], how many
    they are, and the rest of [s]. *)
Fixpoint digits (s : string) (acc : Z) (count : nat) : Z * nat * string :=
  match s with
  | String c r =>
      match digit c with
      | Some d => digits r (10 * acc + d) (S count)
      | None => (acc, count, s)
      end
  | EmptyString => (acc, count, s)
  end.

Definition sign (s : string) : bool * string :=
  match s with
  | String "-" r => (true, r)
  | String "+" r => (false, r)
  | _ => (false, s)
  end.

Definition with_sign (neg : bool) (q : Q) : number :=
  Num (Q2Qc (if neg then - q else q)).

(** An unsigned numeral at the start of [s]: its value and the rest. *)
Definition unsigned_decimal (s : string) : option (Q * string) :=
  let '(ip, ni, s1) := digits s 0 0 in
  let '(fp, nf, s2) :=
    match s1 with
    | String "." r => digits r 0 0
    | _ => (0, O, s1)
    end in
  if Nat.eqb (ni + nf) 0 then None
  else
    let mantissa :=
      (inject_Z ip + inject_Z fp / inject_Z (10 ^ Z.of_nat nf))%Q in
    match s2 with
    | String c r =>
        if Ascii.eqb c "e" || Ascii.eqb c "E" then
          let '(eneg, r1) := sign r in
          let '(ev, ne, r2) := digits r1 0 0 in
          if Nat.eqb ne 0 then Some (mantissa, s2)
          else Some ((mantissa * Qpower (inject_Z 10) (if eneg then - ev else ev))%Q, r2)
        else Some (mantissa, s2)
    | EmptyString => Some (mantissa, s2)
    end.

Definition StringToNumber (s : string) : number :=
  let t := trim s in
  if String.eqb t "" then num_zero
  else
    let '(neg, u) := sign t in
    if String.eqb u "Infinity" then Infty neg
    else match unsigned_decimal u with
         | Some (q, EmptyString) => with_sign neg q
         | _ => NaN
         end.

Definition parseFloat_string (s : string) : number :=
  let '(neg, u) := sign (trimStart s) in
  if String.prefix "Infinity" u then Infty neg
  else match unsigned_decimal u with
       | Some (q, _) => with_sign neg q
       | None => NaN
       end.

Definition is_leap (y : Z) : bool :=
  (y mod 4 =? 0) && (negb (y mod 100 =? 0) || (y mod 400 =? 0)).

Definition days_in_month (y m : Z) : Z :=
  if m =? 2 then (if is_leap y then 29 else 28)
  else if (m =? 4) || (m =? 6) || (m =? 9) || (m =? 11) then 30 else 31.

(** Days from 1970-01-01 to the civil date [y]-[m]-[d]. *)
Definition days_from_civil (y m d : Z) : Z :=
  let y' := if m <=? 2 then y - 1 else y in
  let era := y' / 400 in
  let yoe := y' - era * 400 in
  let doy := (153 * (if m <=? 2 then m + 9 else m - 3) + 2) / 5 + d - 1 in
  let doe := yoe * 365 + yoe / 4 - yoe / 100 + doy in
  era * 146097 + doe - 719468.

Definition Date_parse (s : string) : time :=
  match digits s 0 0 with
  | (y, 4%nat, String "-" r1) =>
      match digits r1 0 0 with
      | (m, 2%nat, String "-" r2) =>
          match digits r2 0 0 with
          | (d, 2%nat, EmptyString) =>
              if (1 <=? m) && (m <=? 12) && (1 <=? d) && (d <=? days_in_month y m)
              then Some (days_from_civil y m d * 86400000) else None
          | _ => None
          end
      | _ => None
      end
  | _ => None
  end.

(** [s] with zeros in front, up to the length [n]. *)
Fixpoint pad_zeros (n : nat) (s : string) : string :=
  match n with
  | O => s
  | S n' => if (String.length s <? n)%nat then pad_zeros n' (String "0" s) else s
  end.

(** ["."] before the last [d] characters of [s], when [d] is positive. *)
Definition point_before_last (d : nat) (s : string) : string :=
  if Nat.eqb d 0 then s
  else
    let k := (String.length s - d)%nat in
    String.substring 0 k s +:+ "." +:+ substring_from k s.

(** The nearest multiple of [10^-d], the larger one on a tie, printed
    with [d] decimals.  Numbers from 1e21 on print in the same way. *)
Definition toFixed (n : number) (d : nat) : string :=
  match n with
  | NaN => "NaN"
  | Infty neg => if neg then "-Infinity" else "Infinity"
  | Num q =>
      let neg := Qc_ltb q 0 in
      let x := (if neg then - q else q)%Qc in
      let m := Qfloor (x * inject_Z (10 ^ Z.of_nat d) + (1 # 2))%Q in
      (if neg then "-" else "") +:+
      point_before_last d (pad_zeros (S d) (pretty m))
  end.

End DecimalHost.

Definition decimal_host : Host := {|
  StringToNumber := DecimalHost.StringToNumber;
  parseFloat_string := DecimalHost.parseFloat_string;
  Date_parse := DecimalHost.Date_parse;
  toFixed := DecimalHost.toFixed
|}.

(** ** Data for the examples *)

Definition sample_assignment_row : record :=
  list_to_map [("taskrsrc_id", VStr "9"); ("target_qty", VStr "n/a");
               ("note", VStr "raw")].

(** Tab-separated cells behind a marker, and lines joined into a file. *)
Definition join_with (sep : ascii) (l : list string) : string :=
  match l with
  | [] => ""
  | s :: l' => foldl (fun acc t => acc +:+ String sep t) s l'
  end.
Definition xer_line (mark : string) (cells : list string) : string :=
  join_with TAB (mark :: cells).
Definition xer_file (lines : list string) : string := join_with LF lines.

Definition reader_of (h : Host) (content : string) : Reader :=
  match @Reader_parseContent h new_Reader content with
  | Normal r => r
  | Throw _ => new_Reader
  end.

Definition tasks_with_float : string :=
  xer_file
    [xer_line "%T" ["TASK"];
     xer_line "%F" ["task_id"; "total_float_hr_cnt"; "driving_path_flag"];
     xer_line "%R" ["1"; "-5"; "N"];
     xer_line "%R" ["2"; "0"; "N"];
     xer_line "%R" ["3"; "16"; "Y"]].

Definition tasks_without_float : string :=
  xer_file
    [xer_line "%T" ["TASK"];
     xer_line "%F" ["task_id"; "task_name"; "target_drtn_hr_cnt"];
     xer_line "%R" ["1"; "Start"; "0"];
     xer_line "%R" ["2"; "Finish"; ""]].

Definition milestones_only : string :=
  xer_file
    [xer_line "%T" ["TASK"];
     xer_line "%F" ["task_id"; "task_name"; "target_drtn_hr_cnt"];
     xer_line "%R" ["1"; "Start"; "0"];
     xer_line "%R" ["2"; "Finish"; ""]].


(** The invariant of the loop of [parseContent]: the current table has an
    entry in [data]. *)
Definition table_present (st : parser_state) : Prop :=
  ∀ t, currentTable st = Some t → is_Some (data st !! t).

Definition short_row_file : string :=
  xer_file
    [xer_line "%T" ["TASK"];
     xer_line "%F" ["task_id"; "task_name"; "status_code"];
     xer_line "%R" ["1"]].


Definition orphan_row_lines : list string :=
  [xer_line "%R" ["1"; "2"];
   "ERMHDR 8.0";
   xer_line "%T" ["TASK"];
   xer_line "%F" ["task_id"];
   xer_line "%R" ["7"]].


(** How many of the points have the status [pass]. *)
Definition count_pass (l : list check_result) : nat :=
  length (filter (fun point => status point = "pass") l).

(** [a / b] rounded to the nearest integer, a tie going up. *)
Definition round_div (a b : Z) : Z := (2 * a + b) / (2 * b).

Definition app_of (h : Host) (content : string) : App :=
  match @loadProject h content with
  | Normal app => app
  | Throw _ => {| allActivities := []; currentReader := new_Reader |}
  end.

Definition sound_schedule : string :=
  xer_file
    [xer_line "%T" ["PROJECT"];
     xer_line "%F" ["proj_id"; "proj_short_name"];
     xer_line "%R" ["P1"; "Bridge"];
     xer_line "%T" ["TASK"];
     xer_line "%F" ["task_id"; "proj_id"; "task_code"; "status_code";
                    "target_drtn_hr_cnt"; "total_float_hr_cnt";
                    "driving_path_flag"; "early_start_date"; "early_end_date"];
     xer_line "%R" ["1"; "P1"; "A1"; "TK_NotStart"; "0"; "8"; "N"; "2024-01-01"; "2024-01-01"];
     xer_line "%R" ["2"; "P1"; "A2"; "TK_NotStart"; "40"; "8"; "N"; "2024-01-01"; "2024-01-05"];
     xer_line "%R" ["3"; "P1"; "A3"; "TK_NotStart"; "40"; "8"; "N"; "2024-01-08"; "2024-01-12"];
     xer_line "%R" ["4"; "P1"; "A4"; "TK_NotStart"; "40"; "0"; "N"; "2024-01-15"; "2024-01-19"];
     xer_line "%R" ["5"; "P1"; "A5"; "TK_NotStart"; "40"; "8"; "N"; "2024-01-22"; "2024-01-26"];
     xer_line "%R" ["6"; "P1"; "A6"; "TK_NotStart"; "40"; "8"; "N"; "2024-01-29"; "2024-02-02"];
     xer_line "%R" ["7"; "P1"; "A7"; "TK_NotStart"; "0"; "8"; "N"; "2024-02-02"; "2024-02-02"];
     xer_line "%T" ["TASKPRED"];
     xer_line "%F" ["task_pred_id"; "task_id"; "pred_task_id"; "pred_type"; "lag_hr_cnt"];
     xer_line "%R" ["1"; "2"; "1"; "PR_FS"; "0"];
     xer_line "%R" ["2"; "3"; "2"; "PR_FS"; "0"];
     xer_line "%R" ["3"; "4"; "3"; "PR_FS"; "0"];
     xer_line "%R" ["4"; "5"; "4"; "PR_FS"; "0"];
     xer_line "%R" ["5"; "6"; "5"; "PR_FS"; "0"];
     xer_line "%R" ["6"; "7"; "6"; "PR_FS"; "0"];
     xer_line "%T" ["TASKRSRC"];
     xer_line "%F" ["taskrsrc_id"; "task_id"; "rsrc_id"; "target_qty"];
     xer_line "%R" ["1"; "2"; "R1"; "40"];
     xer_line "%R" ["2"; "3"; "R1"; "40"];
     xer_line "%R" ["3"; "4"; "R1"; "40"];
     xer_line "%R" ["4"; "5"; "R1"; "40"];
     xer_line "%R" ["5"; "6"; "R1"; "40"]].

Definition no_relationships_schedule : string :=
  xer_file
    [xer_line "%T" ["PROJECT"];
     xer_line "%F" ["proj_id"];
     xer_line "%R" ["P1"];
     xer_line "%T" ["TASK"];
     xer_line "%F" ["task_id"; "proj_id"; "target_drtn_hr_cnt"];
     xer_line "%R" ["1"; "P1"; "40"]].


(** ** Notions for the resource curve *)

(** The dates of a datum as integers and its target quantity as a
    fraction. *)
Definition datum_start (d : activity_datum) : Z := default 0 (startDate d).
Definition datum_end (d : activity_datum) : Z := default 0 (endDate d).
Definition datum_qty (d : activity_datum) : Qc :=
  match targetQty d with Num q => q | _ => Q2Qc 0 end.

(** The datum has valid dates, a positive span and a finite target
    quantity. *)
Definition usable (d : activity_datum) : Prop :=
  startDate d = Some (datum_start d)
  ∧ endDate d = Some (datum_end d)
  ∧ datum_start d < datum_end d
  ∧ targetQty d = Num (datum_qty d).

(** Seven days, in milliseconds. *)
Definition week : Z := 7 * 24 * 60 * 60 * 1000.

(** The overlap, in milliseconds, of the span from [s] to [e] with the
    week from [c] to [c']. *)
Definition overlap (s e c c' : Z) : Z :=
  if (s <=? c') && (c <=? e) then Z.max 0 (Z.min e c' - Z.max s c) else 0.

Definition Qc_sum (l : list Qc) : Qc := foldr Qcplus (Q2Qc 0) l.

(** The part of the target quantity of [d] that the week from [c] to [c']
    receives, and the part that lies after [c]. *)
Definition week_share (c c' : Z) (d : activity_datum) : Qc :=
  (datum_qty d *
   (Qc_of_Z (overlap (datum_start d) (datum_end d) c c')
    / Qc_of_Z (datum_end d - datum_start d)))%Qc.

Definition rest_share (c : Z) (d : activity_datum) : Qc :=
  (datum_qty d *
   (Qc_of_Z (Z.max 0 (datum_end d - Z.max (datum_start d) c))
    / Qc_of_Z (datum_end d - datum_start d)))%Qc.

Section Contributions.
Context `{Host}.

(** An assignment whose activity has usable dates and which carries a
    finite target quantity. *)
Definition contributes (r : Reader) (assignment : record) : Prop :=
  ∃ activity s e q,
    activity_of r assignment = Some activity
    ∧ truthy (start_of activity) = true
    ∧ truthy (end_of activity) = true
    ∧ Date_new (start_of activity) = Some s
    ∧ Date_new (end_of activity) = Some e
    ∧ s < e
    ∧ convertToNumber (get assignment "target_qty") = Num q.

End Contributions.

Definition fortnight_schedule : string :=
  xer_file
    [xer_line "%T" ["TASK"];
     xer_line "%F" ["task_id"; "task_name"; "early_start_date"; "early_end_date"];
     xer_line "%R" ["1"; "Pour deck"; "2024-01-01"; "2024-01-15"];
     xer_line "%T" ["TASKRSRC"];
     xer_line "%F" ["taskrsrc_id"; "task_id"; "rsrc_id"; "target_qty"];
     xer_line "%R" ["1"; "1"; "R1"; "70"]].

Definition fortnight_reader : Reader := reader_of decimal_host fortnight_schedule.

Definition fortnight_curve : curve :=
  @getResourceCurve decimal_host fortnight_reader (VStr "R1").

Definition two_activity_schedule : string :=
  xer_file
    [xer_line "%T" ["TASK"];
     xer_line "%F" ["task_id"; "task_name"; "act_start_date"; "act_end_date";
                    "early_start_date"; "early_end_date"];
     xer_line "%R" ["1"; "Pour deck"; ""; ""; "2024-01-01"; "2024-01-15"];
     xer_line "%R" ["2"; "Cure deck"; "2024-01-10"; "2024-02-03"; "2024-01-08"; "2024-02-01"];
     xer_line "%R" ["3"; "Strip forms"; ""; ""; "2024-02-05"; "2024-02-06"];
     xer_line "%T" ["TASKRSRC"];
     xer_line "%F" ["taskrsrc_id"; "task_id"; "rsrc_id"; "target_qty"];
     xer_line "%R" ["1"; "1"; "R1"; "70"];
     xer_line "%R" ["2"; "2"; "R1"; "30.5"];
     xer_line "%R" ["3"; "3"; "R2"; "8"]].

Definition two_activity_reader : Reader :=
  reader_of decimal_host two_activity_schedule.

(** The row at position [i] of a collection, the empty record when there is
    none; the tables of a parse that ended normally. *)
Definition row_at (i : nat) (l : list record) : record := default ∅ (l !! i).

Definition tables_of (c : completion tables) : tables :=
  match c with Normal d => d | Throw _ => ∅ end.

Definition float_reader : Reader := reader_of decimal_host tasks_with_float.
Definition no_float_reader : Reader := reader_of decimal_host tasks_without_float.
Definition milestone_reader : Reader := reader_of decimal_host milestones_only.
Definition sound_app : App := app_of decimal_host sound_schedule.
Definition no_relationships_app : App :=
  app_of decimal_host no_relationships_schedule.

Definition short_row_record : record :=
  row_at 0 (default [] (tables_of (parseContent short_row_file) !! "TASK")).

Definition fortnight_assignment : record :=
  row_at 0 (getResourceAssignmentsByResource fortnight_reader (VStr "R1")).
Definition fortnight_activity : record :=
  default ∅ (activity_of fortnight_reader fortnight_assignment).

Abbreviation two_activity_assignments :=
  (getResourceAssignmentsByResource two_activity_reader (VStr "R1")).

(** ** Notions for the typed model *)

(** What a number-typed and a date-typed property can hold after the
    projection: a number that is not NaN; null or a valid Date.  A
    property that the row did not have reads as undefined. *)
Definition typed_number (v : value) : Prop :=
  v = VUndefined ∨ ∃ n, v = VNum n ∧ isNaN n = false.

Definition typed_date (v : value) : Prop :=
  v = VUndefined ∨ v = VNull ∨ ∃ t, v = VDate (Some t).

(** The status of a check is one of the three the summary counts. *)
Definition known_status (s : string) : Prop :=
  s = "pass" ∨ s = "fail" ∨ s = "warning".

(** The test of [checkCriticalPath] on one activity. *)
Definition check_is_critical `{Host} (a : record) : bool :=
  num_eq (parseFloat_or0 (get a "total_float_hr_cnt")) num_zero
  || strict_eq (get a "driving_path_flag") (VStr "Y").

(** 1 for a point that failed, 0 for another. *)
Definition fail_bit (point : check_result) : nat :=
  if String.eqb (status point) "fail" then 1%nat else 0%nat.

Definition progress_schedule : string :=
  xer_file
    [xer_line "%T" ["TASK"];
     xer_line "%F" ["task_id"; "status_code"; "target_drtn_hr_cnt";
                    "phys_complete_pct"];
     xer_line "%R" ["1"; "TK_Active"; "40"; "50"];
     xer_line "%R" ["2"; "TK_Complete"; "20"; "100"]].

Definition progress_reader : Reader := reader_of decimal_host progress_schedule.

Definition empty_app : App := app_of decimal_host "".

Definition linked_work_only : list record :=
  [ {[ "task_id" := VStr "1"; "target_drtn_hr_cnt" := VNum (num_of_Z 40) ]};
    {[ "task_id" := VStr "2"; "target_drtn_hr_cnt" := VNum (num_of_Z 16) ]} ].

Definition one_link : list record :=
  [ {[ "task_id" := VStr "2"; "pred_task_id" := VStr "1" ]} ].

(** A string of white space only. *)
Fixpoint all_white_space (w : string) : bool :=
  match w with
  | EmptyString => true
  | String c r => is_white_space c && all_white_space r
  end.


Definition undated_schedule : string :=
  xer_file
    [xer_line "%T" ["TASK"];
     xer_line "%F" ["task_id"; "task_name"];
     xer_line "%R" ["1"; "Pour deck"];
     xer_line "%T" ["TASKRSRC"];
     xer_line "%F" ["taskrsrc_id"; "task_id"; "rsrc_id"; "target_qty"];
     xer_line "%R" ["1"; "1"; "R1"; "70"]].

Definition undated_reader : Reader := reader_of decimal_host undated_schedule.



(** A ratio between 0 and 1. *)
Definition unit_ratio (n : number) : Prop :=
  ∃ q : Qc, n = Num q ∧ (Q2Qc 0 <= q)%Qc ∧ (q <= Q2Qc 1)%Qc.

Definition ratios_in_unit (tp : time_point) : Prop :=
  Forall (fun a => unit_ratio (overlapRatio a)) (activeActivities tp).


(** The datum has a valid start date and a valid end date. *)
Definition dated (d : activity_datum) : Prop :=
  startDate d = Some (datum_start d) ∧ endDate d = Some (datum_end d).

Definition datedb (d : activity_datum) : bool :=
  match startDate d, endDate d with
  | Some _, Some _ => true
  | _, _ => false
  end.

(** [P] is the earliest start and [E] the latest end among [l]. *)
Definition window_of (l : list activity_datum) (P E : Z) : Prop :=
  (∃ d, d ∈ l ∧ datum_start d = P)
  ∧ (∀ d, d ∈ l → P ≤ datum_start d)
  ∧ (∃ d, d ∈ l ∧ datum_end d = E)
  ∧ (∀ d, d ∈ l → datum_end d ≤ E).

(** The character [c] does not occur in [s]. *)
Fixpoint free_of (c : ascii) (s : string) : bool :=
  match s with
  | EmptyString => true
  | String a r => negb (Ascii.eqb a c) && free_of c r
  end.

(** A line of a file and the white space that follows it on the line. *)
Definition padded_line (p : string * string) : Prop :=
  free_of LF p.1 = true ∧ free_of LF p.2 = true ∧ all_white_space p.2 = true.

(** Three lines as a file with CR LF line ends has them; the row ends in
    two empty cells. *)
Definition crlf_lines : list (string * string) :=
  [(xer_line "%T" ["TASK"], String "013" "");
   (xer_line "%F" ["task_id"; "task_name"; "task_code"], String "013" "");
   (xer_line "%R" ["1"], String TAB (String TAB (String "013" "")))].
(** * Properties *)

(** ** Facts about numbers *)

Lemma Qc_of_Z_compare a b : (Qc_of_Z a ?= Qc_of_Z b)%Qc = (a ?= b).
Proof.
  unfold Qccompare, Qcompare. simpl. by rewrite !Z.mul_1_r.
Qed.

Lemma Qc_eqb_true p q : Qc_eqb p q = true ↔ p = q.
Proof.
  unfold Qc_eqb. rewrite Qceq_alt. destruct (p ?= q)%Qc; split; congruence.
Qed.

Lemma Qc_eqb_refl p : Qc_eqb p p = true.
Proof. by apply Qc_eqb_true. Qed.

Lemma Qc_ltb_true p q : Qc_ltb p q = true ↔ (p < q)%Qc.
Proof.
  unfold Qc_ltb. rewrite Qclt_alt. destruct (p ?= q)%Qc; split; congruence.
Qed.

Lemma Qc_of_Z_add a b : (Qc_of_Z a + Qc_of_Z b)%Qc = Qc_of_Z (a + b).
Proof.
  apply Qc_is_canon. simpl. rewrite Qred_correct, inject_Z_plus. reflexivity.
Qed.

Lemma Qc_of_Z_opp a : (- Qc_of_Z a)%Qc = Qc_of_Z (- a).
Proof.
  apply Qc_is_canon. simpl. rewrite Qred_correct, inject_Z_opp. reflexivity.
Qed.

Lemma Qc_of_Z_inj a b : Qc_of_Z a = Qc_of_Z b → a = b.
Proof.
  intros E. apply Z.compare_eq. rewrite <- Qc_of_Z_compare.
  by apply Qceq_alt.
Qed.

Lemma Qc_trunc_of_Z a : Qc_trunc (Qc_of_Z a) = a.
Proof.
  unfold Qc_trunc. destruct (Qc_ltb _ _).
  - unfold Qceiling. simpl. rewrite Z.div_1_r. lia.
  - simpl. apply Z.div_1_r.
Qed.

Lemma num_lt_of_Z a b : num_lt (num_of_Z a) (num_of_Z b) = (a <? b).
Proof.
  unfold num_of_Z, num_lt, Qc_ltb, Z.ltb. by rewrite Qc_of_Z_compare.
Qed.

Lemma num_eq_of_Z a b : num_eq (num_of_Z a) (num_of_Z b) = (a =? b).
Proof.
  unfold num_of_Z, num_eq, Qc_eqb. rewrite Qc_of_Z_compare.
  destruct (Z.eqb_spec a b) as [->|Hne].
  - by rewrite Z.compare_refl.
  - destruct (Z.compare_spec a b); done.
Qed.

Lemma num_le_of_Z a b : num_le (num_of_Z a) (num_of_Z b) = (a <=? b).
Proof.
  unfold num_le. rewrite num_lt_of_Z, num_eq_of_Z.
  destruct (Z.ltb_spec a b), (Z.eqb_spec a b), (Z.leb_spec a b); simpl; lia.
Qed.

Lemma num_gt_of_Z a b : num_gt (num_of_Z a) (num_of_Z b) = (b <? a).
Proof. apply num_lt_of_Z. Qed.

Lemma num_ge_of_Z a b : num_ge (num_of_Z a) (num_of_Z b) = (b <=? a).
Proof. apply num_le_of_Z. Qed.

Lemma num_add_of_Z a b : num_add (num_of_Z a) (num_of_Z b) = num_of_Z (a + b).
Proof. unfold num_of_Z. simpl. by rewrite Qc_of_Z_add. Qed.

Lemma num_sub_of_Z a b : num_sub (num_of_Z a) (num_of_Z b) = num_of_Z (a - b).
Proof.
  unfold num_sub, num_of_Z. simpl. by rewrite Qc_of_Z_opp, Qc_of_Z_add.
Qed.

Lemma num_max_of_Z a b : num_max (num_of_Z a) (num_of_Z b) = num_of_Z (Z.max a b).
Proof.
  unfold num_max. rewrite num_lt_of_Z. unfold num_of_Z at 1 2.
  destruct (Z.ltb_spec a b); f_equal; lia.
Qed.

Lemma num_min_of_Z a b : num_min (num_of_Z a) (num_of_Z b) = num_of_Z (Z.min a b).
Proof.
  unfold num_min. rewrite num_lt_of_Z. unfold num_of_Z at 1 2.
  destruct (Z.ltb_spec b a); f_equal; lia.
Qed.

Lemma Date_of_number_of_Z a : Date_of_number (num_of_Z a) = Some a.
Proof. unfold num_of_Z. simpl. by rewrite Qc_trunc_of_Z. Qed.

Lemma num_eq_true a b : num_eq a b = true → a = b.
Proof.
  destruct a as [|s|p], b as [|s'|q]; simpl; try discriminate.
  - intros E. by apply Bool.eqb_prop in E as ->.
  - intros E. by apply Qc_eqb_true in E as ->.
Qed.

Lemma num_eq_refl a : isNaN a = false → num_eq a a = true.
Proof.
  destruct a as [|s|p]; simpl; try done.
  - intros _. by destruct s.
  - intros _. apply Qc_eqb_refl.
Qed.

Lemma num_add_comm a b : num_add a b = num_add b a.
Proof.
  destruct a as [|s|p], b as [|s'|q]; simpl; try done.
  - by destruct s, s'.
  - by rewrite Qcplus_comm.
Qed.

Lemma num_add_assoc a b c : num_add a (num_add b c) = num_add (num_add a b) c.
Proof.
  destruct a as [|[]|p], b as [|[]|q], c as [|[]|r]; simpl; try done.
  by rewrite Qcplus_assoc.
Qed.

Lemma num_add_0_l a : num_add num_zero a = a.
Proof.
  destruct a as [|s|p]; simpl; try done.
  f_equal. apply Qcplus_0_l.
Qed.

Lemma num_add_0_r a : num_add a num_zero = a.
Proof. by rewrite num_add_comm, num_add_0_l. Qed.

Lemma sum_numbers_from a l : foldl num_add a l = num_add a (sum_numbers l).
Proof.
  unfold sum_numbers. revert a. induction l as [|b l IH]; intros a; cbn [foldl].
  - by rewrite num_add_0_r.
  - rewrite IH, (IH (num_add num_zero b)), num_add_0_l.
    by rewrite num_add_assoc.
Qed.

Lemma sum_numbers_cons a l : sum_numbers (a :: l) = num_add a (sum_numbers l).
Proof.
  unfold sum_numbers at 1. cbn [foldl]. by rewrite sum_numbers_from, num_add_0_l.
Qed.

Lemma sum_numbers_app l1 l2 :
  sum_numbers (l1 ++ l2) = num_add (sum_numbers l1) (sum_numbers l2).
Proof.
  induction l1 as [|a l1 IH]; cbn [app].
  - change (sum_numbers []) with num_zero. by rewrite num_add_0_l.
  - by rewrite !sum_numbers_cons, IH, num_add_assoc.
Qed.

Lemma sum_numbers_perm l1 l2 : l1 ≡ₚ l2 → sum_numbers l1 = sum_numbers l2.
Proof.
  induction 1 as [|a l1 l2 _ IH|a b l|l1 l2 l3 _ IH1 _ IH2].
  - done.
  - by rewrite !sum_numbers_cons, IH.
  - rewrite !sum_numbers_cons, !num_add_assoc. f_equal. apply num_add_comm.
  - by rewrite IH1.
Qed.

(** ** Facts about values *)

Lemma strict_eq_str v s : strict_eq v (VStr s) = true ↔ v = VStr s.
Proof.
  destruct v; simpl; try (split; [discriminate | congruence]).
  rewrite String.eqb_eq. split; congruence.
Qed.

Lemma strict_eq_null v : strict_eq v VNull = true ↔ v = VNull.
Proof. destruct v; simpl; split; congruence. Qed.

Lemma strict_eq_undefined v : strict_eq v VUndefined = true ↔ v = VUndefined.
Proof. destruct v; simpl; split; congruence. Qed.

Section ConversionFacts.
Context `{Host}.

Lemma convertToNumber_not_NaN v : isNaN (convertToNumber v) = false.
Proof.
  unfold convertToNumber.
  destruct (_ || _); [done|].
  by destruct (isNaN (ToNumber v)) eqn:E.
Qed.

Lemma convertToNumber_default v :
  v = VNull ∨ v = VUndefined ∨ v = VStr "" ∨ isNaN (ToNumber v) = true →
  convertToNumber v = num_zero.
Proof.
  unfold convertToNumber.
  intros [-> | [-> | [-> | E]]]; try done.
  rewrite E. by destruct (_ || _).
Qed.

Lemma convertToNumber_number n :
  isNaN n = false → convertToNumber (VNum n) = n.
Proof. unfold convertToNumber. simpl. by intros ->. Qed.

Lemma convertToDate_default v :
  v = VStr "" ∨ isNaN (getTime (Date_new v)) = true → convertToDate v = VNull.
Proof.
  unfold convertToDate.
  intros [-> | E]; [done|].
  rewrite E. by destruct (_ || _).
Qed.

End ConversionFacts.

(** ** The schema-typed projection *)

Section ProjectorFacts.
Context `{Host}.

(** What the loop of [convertTypes] leaves in each property. *)
Lemma convertTypes_lookup (rec : record) (sch : schema) (field : string) :
  convertTypes rec (Some sch) !! field =
  match rec !! field with
  | Some v =>
      match sch !! field with
      | Some fieldSchema => Some (convert_value (type fieldSchema) v)
      | None => Some v
      end
  | None => None
  end.
Proof.
  unfold convertTypes.
  cut (∀ m : record, m ⊆ rec →
        ∀ k, map_fold (convert_entry sch) rec m !! k =
             match m !! k with
             | Some v =>
                 match sch !! k with
                 | Some fieldSchema => Some (convert_value (type fieldSchema) v)
                 | None => Some v
                 end
             | None => rec !! k
             end).
  { intros C. rewrite (C rec); [|done]. by destruct (rec !! field). }
  intros m.
  apply (map_fold_weak_ind (λ (r m0 : record), m0 ⊆ rec → ∀ k, r !! k =
           match m0 !! k with
           | Some v =>
               match sch !! k with
               | Some fieldSchema => Some (convert_value (type fieldSchema) v)
               | None => Some v
               end
           | None => rec !! k
           end)).
  - intros _ k. by rewrite lookup_empty.
  - intros i x m' r Hi IH Hsub k.
    assert (rec !! i = Some x) as Hrec.
    { eapply lookup_weaken; [|exact Hsub]. apply lookup_insert_eq. }
    assert (m' ⊆ rec) as Hsub'.
    { etrans; [|exact Hsub]. by apply insert_subseteq. }
    specialize (IH Hsub'). cbv beta in *. unfold convert_entry.
    destruct (decide (k = i)) as [->|Hne].
    + rewrite lookup_insert_eq.
      destruct (sch !! i) as [fs|] eqn:Es.
      * by rewrite lookup_insert_eq.
      * by rewrite IH, Hi.
    + rewrite (lookup_insert_ne m') by done.
      destruct (sch !! i) as [fs|] eqn:Es.
      * rewrite lookup_insert_ne by done. apply IH.
      * apply IH.
Qed.

Lemma convert_value_number v : convert_value "number" v = VNum (convertToNumber v).
Proof. done. Qed.
Lemma convert_value_date v : convert_value "date" v = convertToDate v.
Proof. done. Qed.
Lemma convert_value_boolean v :
  convert_value "boolean" v =
  VBool (strict_eq v (VStr "Y") || strict_eq v (VStr "true") || strict_eq v (VStr "1")).
Proof. done. Qed.
Lemma convert_value_string v : convert_value "string" v = v.
Proof. done. Qed.

(** C6. [convertTypes] projects a record through a schema: a number-typed
    field becomes a number that is never NaN, and 0 when the raw value is
    null, undefined, empty or unparsable; a date-typed field with an empty
    or unparsable value becomes null; a boolean-typed field becomes true
    exactly for "Y", "true" and "1"; a string-typed field and a field that
    the schema does not declare keep their raw value. *)
Theorem convertTypes_schema_typed (rec : record) (sch : schema)
    (field : string) (v : value) :
  rec !! field = Some v →
  (∀ fs, sch !! field = Some fs → type fs = "number" →
     ∃ n, convertTypes rec (Some sch) !! field = Some (VNum n)
          ∧ isNaN n = false
          ∧ (v = VNull ∨ v = VUndefined ∨ v = VStr "" ∨ isNaN (ToNumber v) = true →
             n = num_zero))
  ∧ (∀ fs, sch !! field = Some fs → type fs = "date" →
       v = VStr "" ∨ isNaN (getTime (Date_new v)) = true →
       convertTypes rec (Some sch) !! field = Some VNull)
  ∧ (∀ fs, sch !! field = Some fs → type fs = "boolean" →
       ∃ b, convertTypes rec (Some sch) !! field = Some (VBool b)
            ∧ (b = true ↔ v = VStr "Y" ∨ v = VStr "true" ∨ v = VStr "1"))
  ∧ (∀ fs, sch !! field = Some fs → type fs = "string" →
       convertTypes rec (Some sch) !! field = Some v)
  ∧ (sch !! field = None → convertTypes rec (Some sch) !! field = Some v).
Proof.
  intros Hv. rewrite convertTypes_lookup, Hv.
  repeat split.
  - intros fs -> ->. exists (convertToNumber v).
    rewrite convert_value_number. split; [done|].
    split; [apply convertToNumber_not_NaN | apply convertToNumber_default].
  - intros fs -> -> Hbad. rewrite convert_value_date.
    f_equal. by apply convertToDate_default.
  - intros fs -> ->. rewrite convert_value_boolean. eexists. split; [done|].
    rewrite !orb_true_iff, !strict_eq_str. tauto.
  - by intros fs -> ->.
  - by intros ->.
Qed.

End ProjectorFacts.

(** ** Critical activities *)

(** Closes an equation between computed data, numbers compared at their
    canonical fractions. *)
Ltac by_computation :=
  vm_compute;
  repeat first [reflexivity | apply Qc_is_canon; reflexivity | f_equal].

Section ReaderFacts.
Context `{Host}.

Lemma is_critical_true (a : record) :
  is_critical a = true ↔
  convertToNumber (get a "total_float_hr_cnt") = num_zero
  ∨ get a "driving_path_flag" = VStr "Y".
Proof.
  unfold is_critical. rewrite orb_true_iff, strict_eq_str.
  split; (intros [E|E]; [left|by right]).
  - by apply num_eq_true.
  - rewrite E. by apply num_eq_refl.
Qed.

(** C3. An activity is among [getCriticalActivities] exactly when it is an
    activity of the model and its total float is 0 or its driving-path
    flag is "Y"; an activity with total float -5 and the flag not set is
    not critical. *)
Theorem getCriticalActivities_iff (r : Reader) :
  (∀ a, a ∈ getCriticalActivities r ↔
        a ∈ activities r
        ∧ (convertToNumber (get a "total_float_hr_cnt") = num_zero
           ∨ get a "driving_path_flag" = VStr "Y"))
  ∧ (∀ a, get a "total_float_hr_cnt" = VNum (num_of_Z (-5)) →
          get a "driving_path_flag" ≠ VStr "Y" →
          a ∉ getCriticalActivities r).
Proof.
  assert (∀ a, a ∈ getCriticalActivities r ↔
        a ∈ activities r
        ∧ (convertToNumber (get a "total_float_hr_cnt") = num_zero
           ∨ get a "driving_path_flag" = VStr "Y")) as Hiff.
  { intros a. unfold getCriticalActivities.
    rewrite list_elem_of_filter, is_critical_true. tauto. }
  split; [exact Hiff|].
  intros a Hfloat Hflag [_ [Hzero|Hy]]%Hiff; [|done].
  rewrite Hfloat, convertToNumber_number in Hzero by done.
  apply (f_equal (λ n, match n with Num q => q | _ => Qc_of_Z 0 end)) in Hzero.
  by apply Qc_of_Z_inj in Hzero.
Qed.

(** C9. An activity whose [total_float_hr_cnt] is absent, null or the empty
    string has its float coerced to 0 and is among the critical
    activities. *)
Theorem missing_float_is_critical (r : Reader) (a : record) :
  a ∈ activities r →
  a !! "total_float_hr_cnt" = None
  ∨ a !! "total_float_hr_cnt" = Some VNull
  ∨ a !! "total_float_hr_cnt" = Some (VStr "") →
  convertToNumber (get a "total_float_hr_cnt") = num_zero
  ∧ a ∈ getCriticalActivities r.
Proof.
  intros Ha Hmissing.
  assert (convertToNumber (get a "total_float_hr_cnt") = num_zero) as Hzero.
  { apply convertToNumber_default. unfold get.
    destruct Hmissing as [-> | [-> | ->]]; simpl; auto. }
  split; [done|].
  apply getCriticalActivities_iff. auto.
Qed.

End ReaderFacts.

(** ** Summary statistics *)

Section SummaryFacts.
Context `{Host}.

Lemma positive_durations_nil (r : Reader) :
  positive_durations r = [] ↔
  ∀ a, a ∈ activities r →
       num_gt (convertToNumber (get a "target_drtn_hr_cnt")) num_zero = false.
Proof.
  unfold positive_durations. split.
  - intros Hnil a Ha.
    destruct (num_gt _ _) eqn:E; [|done].
    assert (convertToNumber (get a "target_drtn_hr_cnt") ∈ ([] : list number)) as Hin.
    { rewrite <- Hnil. apply list_elem_of_filter. split; [done|].
      apply list_elem_of_fmap. eauto. }
    by apply not_elem_of_nil in Hin.
  - intros Hall.
    destruct (filter _ _) as [|d l] eqn:E; [done|].
    assert (d ∈ d :: l) as Hd by apply list_elem_of_here.
    rewrite <- E in Hd.
    apply list_elem_of_filter in Hd as [Hpos (a & -> & Ha)%list_elem_of_fmap].
    by rewrite (Hall a Ha) in Hpos.
Qed.

(** C10. [getSummaryStats] sets [durationStats] only when some activity has
    a positive duration: the property is absent exactly when no activity
    has one, and when present it holds the total, average, minimum and
    maximum of the positive durations. *)
Theorem getSummaryStats_durationStats (r : Reader) :
  (durationStats (getSummaryStats r) = None ↔
   ∀ a, a ∈ activities r →
        num_gt (convertToNumber (get a "target_drtn_hr_cnt")) num_zero = false)
  ∧ (∀ ds, durationStats (getSummaryStats r) = Some ds →
       positive_durations r ≠ []
       ∧ DurationStats.total ds = sum_numbers (positive_durations r)
       ∧ DurationStats.average ds =
           num_div (sum_numbers (positive_durations r))
                   (num_of_nat (length (positive_durations r)))
       ∧ DurationStats.min ds = Math_min (positive_durations r)
       ∧ DurationStats.max ds = Math_max (positive_durations r)).
Proof.
  rewrite <- positive_durations_nil. unfold getSummaryStats. simpl.
  destruct (positive_durations r) as [|d l] eqn:E; simpl.
  - split; [done|]. intros ds [=].
  - split; [split; intros [=]|].
    intros ds [= <-]. simpl. by repeat split.
Qed.

End SummaryFacts.

(** ** The tokenizer *)

Lemma or_empty_id v : or_empty v = v.
Proof. unfold or_empty. by destruct (String.eqb_spec v "") as [->|]. Qed.

Lemma bind_Normal {A B} (c : completion A) (k : A → completion B) a :
  c = Normal a → bind c k = k a.
Proof. by intros ->. Qed.

Lemma marker_R_exclusive line :
  startsWith line marker_R = true →
  startsWith line marker_T = false ∧ startsWith line marker_F = false.
Proof.
  unfold startsWith, marker_R, marker_T, marker_F, marker.
  destruct line as [|a [|b line]]; cbn -[ascii_dec]; try done.
  - by destruct (ascii_dec "%" a).
  - destruct (ascii_dec "%" a); [|done].
    destruct (ascii_dec "R" b) as [<-|]; [|done]. done.
Qed.

Lemma initial_state_table_present : table_present initial_state.
Proof. by intros t. Qed.

Lemma parse_line_total st line :
  table_present st →
  ∃ st', parse_line st line = Normal st' ∧ table_present st'.
Proof.
  intros Hst. unfold parse_line.
  destruct (startsWith line marker_T).
  { eexists. split; [done|]. intros t [= <-]. simpl.
    rewrite lookup_insert_eq. by eexists. }
  destruct (startsWith line marker_F).
  { eexists. split; [done|]. exact Hst. }
  destruct (startsWith line marker_R); [|by eauto].
  destruct (row_accepted st) as [table|] eqn:Hrow; [|by eauto].
  assert (currentTable st = Some table) as Hcur.
  { unfold row_accepted in Hrow. destruct (currentTable st); [|done].
    by destruct (_ && _); simplify_eq. }
  destruct (Hst _ Hcur) as [rows Hrows].
  unfold push_row. rewrite Hrows. simpl.
  eexists. split; [done|]. intros t Ht. simpl in *.
  destruct (decide (t = table)) as [->|Hne].
  - rewrite lookup_insert_eq. by eexists.
  - rewrite lookup_insert_ne by done. by apply Hst.
Qed.

Lemma parse_lines_total st lines :
  table_present st →
  ∃ st', parse_lines st lines = Normal st' ∧ table_present st'.
Proof.
  revert st. induction lines as [|line lines IH]; intros st Hst; simpl.
  - eauto.
  - destruct (parse_line_total st line Hst) as (st1 & -> & Hst1). simpl.
    by apply IH.
Qed.

Lemma parse_lines_app st l1 l2 :
  parse_lines st (l1 ++ l2) =
  bind (parse_lines st l1) (fun st' => parse_lines st' l2).
Proof.
  revert st. induction l1 as [|line l1 IH]; intros st; simpl; [done|].
  destruct (parse_line st line); simpl; [apply IH | done].
Qed.

Lemma parse_line_unrecognized st line :
  startsWith line marker_T = false →
  startsWith line marker_F = false →
  startsWith line marker_R = false →
  parse_line st line = Normal st.
Proof. unfold parse_line. by intros -> -> ->. Qed.

Lemma parse_line_row_without_table st line :
  startsWith line marker_R = true →
  currentTable st = None →
  parse_line st line = Normal st.
Proof.
  intros HR Hnone. destruct (marker_R_exclusive _ HR) as [HT HF].
  unfold parse_line, row_accepted. by rewrite HT, HF, HR, Hnone.
Qed.

Lemma parse_lines_no_table st lines :
  currentTable st = None →
  Forall (fun l => startsWith l marker_T = false) lines →
  ∃ st', parse_lines st lines = Normal st' ∧ currentTable st' = None
         ∧ data st' = data st.
Proof.
  intros Hnone Hall. revert st Hnone.
  induction Hall as [|line lines HT _ IH]; intros st Hnone; simpl; [by eauto|].
  assert (∃ st1, parse_line st line = Normal st1 ∧ currentTable st1 = None
                 ∧ data st1 = data st) as (st1 & -> & Hnone1 & Hdata1).
  { unfold parse_line, row_accepted. rewrite HT, Hnone.
    destruct (startsWith line marker_F); [by eauto|].
    destruct (startsWith line marker_R); by eauto. }
  simpl. destruct (IH st1 Hnone1) as (st' & -> & ? & ?).
  eexists. split; [done|]. split; congruence.
Qed.

(** C7. [parseContent] returns a table map for every input string and
    never throws.  A data row that arrives while no table is active leaves
    the state as it is, so it contributes no record, and a line that
    carries none of the three markers is ignored: dropping such a line
    from the input does not change the result. *)
Theorem parseContent_never_throws :
  (∀ content, ∃ d, parseContent content = Normal d)
  ∧ (∀ st line,
       startsWith line marker_R = true → currentTable st = None →
       parse_line st line = Normal st)
  ∧ (∀ before line after,
       Forall (fun l => startsWith l marker_T = false) before →
       startsWith line marker_R = true →
       parse_lines initial_state (before ++ line :: after) =
       parse_lines initial_state (before ++ after))
  ∧ (∀ st before line after,
       startsWith line marker_T = false →
       startsWith line marker_F = false →
       startsWith line marker_R = false →
       parse_lines st (before ++ line :: after) =
       parse_lines st (before ++ after)).
Proof.
  split; [|split; [|split]].
  - intros content. unfold parseContent.
    destruct (parse_lines_total initial_state (content_lines content)
                initial_state_table_present) as (st & -> & _).
    simpl. eauto.
  - apply parse_line_row_without_table.
  - intros before line after Hbefore HR.
    rewrite !parse_lines_app.
    destruct (parse_lines_no_table initial_state before eq_refl Hbefore)
      as (st & -> & Hnone & _).
    simpl. by rewrite parse_line_row_without_table.
  - intros st before line after HT HF HR.
    rewrite !parse_lines_app.
    destruct (parse_lines st before); simpl; [|done].
    by rewrite parse_line_unrecognized.
Qed.

Lemma set_prop_lookup_ne f g v (rec : record) :
  f ≠ g → set_prop g v rec !! f = rec !! f.
Proof.
  intros Hne. unfold set_prop. destruct (decide (g = "__proto__")); [done|].
  by rewrite lookup_insert_ne.
Qed.

Lemma set_prop_lookup_eq f v (rec : record) :
  f ≠ "__proto__" → set_prop f v rec !! f = Some v.
Proof.
  intros Hne. unfold set_prop. destruct (decide (f = "__proto__")); [done|].
  by rewrite lookup_insert_eq.
Qed.

(** A name that is not among the fields paired with a value keeps what it
    had. *)
Lemma fill_record_untouched fields values (rec : record) f :
  f ∉ take (length values) fields →
  fill_record fields values rec !! f = rec !! f.
Proof.
  revert values rec. induction fields as [|g fields IH]; intros values rec Hf.
  - done.
  - destruct values as [|v values]; [done|]. simpl in *.
    apply not_elem_of_cons in Hf as [Hne Hf].
    rewrite IH by done. by apply set_prop_lookup_ne.
Qed.

(** The field at position [i] holds the value at position [i], unless the
    same name comes again further on. *)
Lemma fill_record_paired fields values (rec : record) i f v :
  fields !! i = Some f → values !! i = Some v → f ≠ "__proto__" →
  (∀ j, (i < j < length values)%nat → fields !! j ≠ Some f) →
  fill_record fields values rec !! f = Some (VStr v).
Proof.
  revert values rec i. induction fields as [|g fields IH];
    intros values rec i Hf Hv Hproto Hlast; [done|].
  destruct values as [|w values]; [done|].
  destruct i as [|i]; simpl in *.
  - injection Hf as ->. injection Hv as ->.
    rewrite fill_record_untouched.
    + rewrite or_empty_id. by apply set_prop_lookup_eq.
    + intros (j & Hj)%list_elem_of_lookup_1.
      apply lookup_take_Some in Hj as [Hj Hlt].
      apply (Hlast (S j)); [lia | done].
  - apply (IH values _ i); try done.
    intros j Hj. apply (Hlast (S j)). lia.
Qed.

(** C4, as amended. A data row accepted by the parser adds one record that
    pairs the fields with the values position by position and stops at
    the shorter list: a field paired with a value holds that value, and a
    field beyond the supplied values is absent from the record (it reads
    as undefined), not bound to the empty string. *)
Theorem short_row_is_truncated (st : parser_state) (line table : string)
    (rows : list record) :
  startsWith line marker_R = true →
  row_accepted st = Some table →
  data st !! table = Some rows →
  let fields := currentFields st in
  let values := split TAB (substring_from 3 line) in
  ∃ rec,
    parse_line st line =
      Normal {| data := <[table := rows ++ [rec]]> (data st);
                currentTable := currentTable st;
                currentFields := fields |}
    ∧ (∀ i f v,
         fields !! i = Some f → values !! i = Some v → f ≠ "__proto__" →
         (∀ j, (i < j < length values)%nat → fields !! j ≠ Some f) →
         rec !! f = Some (VStr v))
    ∧ (∀ f, f ∉ take (length values) fields →
            rec !! f = None ∧ get rec f = VUndefined).
Proof.
  intros HR Hrow Hrows fields values.
  destruct (marker_R_exclusive _ HR) as [HT HF].
  exists (fill_record fields values ∅).
  split; [|split].
  - unfold parse_line, push_row. rewrite HT, HF, HR, Hrow, Hrows. done.
  - intros i f v. apply fill_record_paired.
  - intros f Hf. unfold get. by rewrite fill_record_untouched, lookup_empty.
Qed.

(** ** The DCMA assessment *)

Section IntegrityFacts.
Context `{Host}.

Lemma count_point_passed (s : assessment_summary) (point : check_result) :
  passedPoints (count_point s point) =
    (if String.eqb (status point) "pass" then S (passedPoints s) else passedPoints s)
  ∧ totalPoints (count_point s point) = totalPoints s.
Proof.
  unfold count_point.
  destruct (String.eqb (status point) "pass"); [done|].
  destruct (String.eqb (status point) "fail"); [done|].
  by destruct (String.eqb (status point) "warning").
Qed.

Lemma counted_passed (l : list check_result) (s : assessment_summary) :
  passedPoints (foldl count_point s l) = (passedPoints s + count_pass l)%nat
  ∧ totalPoints (foldl count_point s l) = totalPoints s.
Proof.
  revert s. induction l as [|point l IH]; intros s; simpl.
  - unfold count_pass. simpl. split; [lia|done].
  - destruct (IH (count_point s point)) as [-> ->].
    destruct (count_point_passed s point) as [-> ->].
    split; [|done]. unfold count_pass.
    destruct (String.eqb_spec (status point) "pass") as [E|E].
    + rewrite filter_cons_True by done. simpl. lia.
    + by rewrite filter_cons_False by done.
Qed.

Lemma count_pass_le (l : list check_result) : (count_pass l ≤ length l)%nat.
Proof. apply length_filter. Qed.

(** The score and the grade for [n] passed points out of 14. *)
Lemma score_of_passed (n : nat) :
  (n ≤ 14)%nat →
  let score_ :=
    Math_round (num_mul (num_div (num_of_nat n) (num_of_nat 14)) (num_of_Z 100)) in
  let s := round_div (100 * Z.of_nat n) 14 in
  score_ = num_of_Z s
  ∧ grade_of score_ =
      (if 90 <=? s then "A" else if 80 <=? s then "B"
       else if 70 <=? s then "C" else if 60 <=? s then "D" else "F").
Proof.
  intros Hn.
  do 15 (destruct n as [|n];
         [split; [vm_compute; f_equal; apply Qc_is_canon; reflexivity
                 | vm_compute; reflexivity]|]).
  lia.
Qed.

(** What [summarize] computes from any list of 14 points. *)
Lemma summarize_14 (l : list check_result) :
  length l = 14%nat →
  let s := round_div (100 * Z.of_nat (count_pass l)) 14 in
  passedPoints (summary (summarize l)) = count_pass l
  ∧ score (summary (summarize l)) = num_of_Z s
  ∧ grade (summary (summarize l)) =
      (if 90 <=? s then "A" else if 80 <=? s then "B"
       else if 70 <=? s then "C" else if 60 <=? s then "D" else "F").
Proof.
  intros Hlen s.
  assert (count_pass l ≤ 14)%nat as HN by (rewrite <- Hlen; apply count_pass_le).
  destruct (counted_passed l
              {| totalPoints := 14; passedPoints := 0; failedPoints := 0;
                 warningPoints := 0; score := num_zero; grade := "F" |})
    as [Hpassed Htotal].
  cbn [passedPoints totalPoints] in Hpassed, Htotal.
  rewrite Nat.add_0_l in Hpassed.
  destruct (score_of_passed (count_pass l) HN) as [Hscore Hgrade].
  unfold summarize. cbn [summary passedPoints score grade].
  rewrite Hpassed, Htotal. by repeat split.
Qed.

(** C2. [runDCMA14Assessment] runs 14 checks; when N of them return the
    status [pass], the summary counts N passed points, its score is
    100 * N / 14 rounded to the nearest integer, and its grade is A from
    90, B from 80, C from 70, D from 60 and F below; when all 14 pass the
    score is 100 and the grade is A. *)
Theorem assessment_score_and_grade (app : App) :
  let a := runDCMA14Assessment app in
  let N := count_pass (points a) in
  let s := round_div (100 * Z.of_nat N) 14 in
  length (points a) = 14%nat
  ∧ passedPoints (summary a) = N
  ∧ score (summary a) = num_of_Z s
  ∧ grade (summary a) =
      (if 90 <=? s then "A" else if 80 <=? s then "B"
       else if 70 <=? s then "C" else if 60 <=? s then "D" else "F")
  ∧ (N = 14%nat → score (summary a) = num_of_Z 100 ∧ grade (summary a) = "A").
Proof.
  intros a N s.
  assert (length (run_checks app) = 14%nat) as Hlen by done.
  destruct (summarize_14 (run_checks app) Hlen) as (Hp & Hs & Hg).
  change (points a) with (run_checks app) in *.
  change (summary a) with (summary (summarize (run_checks app))).
  split; [done|]. split; [exact Hp|]. split; [exact Hs|]. split; [exact Hg|].
  intros HN14. rewrite Hs, Hg. fold N. rewrite HN14. done.
Qed.

(** C8. With no relationships, the checks 2 (Leads), 3 (Lags) and
    4 (Relationship Types) return the status [pass]; their percentage
    detail is the number 0 for the first two and the formatted 100 for the
    third, never NaN. *)
Theorem no_relationships_checks_pass (app : App) :
  relationships (currentReader app) = [] →
  ∃ leads lags types,
    points (runDCMA14Assessment app) !! 1%nat = Some leads
    ∧ points (runDCMA14Assessment app) !! 2%nat = Some lags
    ∧ points (runDCMA14Assessment app) !! 3%nat = Some types
    ∧ number_ leads = 2%nat ∧ status leads = "pass"
    ∧ details leads =
        [("leadsCount", VNum num_zero); ("totalRelationships", VNum num_zero);
         ("percentage", VNum num_zero)]
    ∧ number_ lags = 3%nat ∧ status lags = "pass"
    ∧ details lags =
        [("lagsCount", VNum num_zero); ("totalRelationships", VNum num_zero);
         ("percentage", VNum num_zero)]
    ∧ number_ types = 4%nat ∧ status types = "pass"
    ∧ details types =
        [("fsRelationships", VNum num_zero); ("totalRelationships", VNum num_zero);
         ("percentage", VStr (toFixed (num_of_Z 100) 1))].
Proof.
  intros Hnone.
  exists (checkLeads []), (checkLags []), (checkRelationshipTypes []).
  unfold runDCMA14Assessment, summarize, run_checks. cbn [points].
  rewrite Hnone. repeat split.
Qed.

End IntegrityFacts.

(** ** The resource curve *)

Lemma Qc_of_Z_0 : Qc_of_Z 0 = Q2Qc 0.
Proof. by apply Qc_is_canon. Qed.

Lemma Qc_of_Z_nonzero z : z ≠ 0 → Qc_of_Z z ≠ Q2Qc 0.
Proof. intros Hz E. rewrite <- Qc_of_Z_0 in E. by apply Qc_of_Z_inj in E. Qed.

Lemma Qc_eqb_false p q : p ≠ q → Qc_eqb p q = false.
Proof.
  intros Hne. destruct (Qc_eqb p q) eqn:E; [|done].
  by apply Qc_eqb_true in E.
Qed.

Lemma num_div_of_Z a b :
  b ≠ 0 → num_div (num_of_Z a) (num_of_Z b) = Num (Qc_of_Z a / Qc_of_Z b).
Proof.
  intros Hb. unfold num_of_Z. cbn [num_div].
  by rewrite (Qc_eqb_false (Qc_of_Z b)) by by apply Qc_of_Z_nonzero.
Qed.

Lemma Math_max_pair a b :
  Math_max [num_of_Z a; num_of_Z b] = num_of_Z (Z.max a b).
Proof.
  unfold Math_max. cbn [foldr].
  replace (num_max (num_of_Z b) (Infty true)) with (num_of_Z b) by done.
  apply num_max_of_Z.
Qed.

Lemma Math_min_pair a b :
  Math_min [num_of_Z a; num_of_Z b] = num_of_Z (Z.min a b).
Proof.
  unfold Math_min. cbn [foldr].
  replace (num_min (num_of_Z b) (Infty false)) with (num_of_Z b) by done.
  apply num_min_of_Z.
Qed.

Lemma num_add_Num_0 a : num_add a (Num (Q2Qc 0)) = a.
Proof. rewrite <- Qc_of_Z_0. apply num_add_0_r. Qed.

(** What one activity adds to the target quantity of a bucket. *)
Lemma add_activity_qty (c c' : Z) (tp : time_point) (d : activity_datum) :
  usable d →
  weeklyTargetQty (add_activity (Some c) (Some c') tp d) =
  num_add (weeklyTargetQty tp) (Num (week_share c c' d)).
Proof.
  intros (Hs & He & Hlt & Hq). unfold add_activity, week_share, overlap.
  rewrite Hs, He, Hq. cbn [getTime].
  rewrite num_le_of_Z, num_ge_of_Z.
  destruct ((datum_start d <=? c') && (c <=? datum_end d)).
  - cbn [weeklyTargetQty].
    rewrite Math_max_pair, Math_min_pair, !Date_of_number_of_Z.
    cbn [getTime]. rewrite !num_sub_of_Z.
    change num_zero with (num_of_Z 0). rewrite Math_max_pair, num_gt_of_Z.
    destruct (Z.ltb_spec 0 (datum_end d - datum_start d)); [|lia].
    rewrite num_div_of_Z by lia. done.
  - rewrite Qc_of_Z_0.
    replace (datum_qty d * (Q2Qc 0 / Qc_of_Z (datum_end d - datum_start d)))%Qc
      with (Q2Qc 0) by (unfold Qcdiv; ring).
    by rewrite num_add_Num_0.
Qed.

Lemma add_activity_dates (ws we : time) (tp : time_point) (d : activity_datum) :
  date (add_activity ws we tp d) = date tp
  ∧ weekEnd (add_activity ws we tp d) = weekEnd tp.
Proof. unfold add_activity. by destruct (_ && _). Qed.

Lemma Qc_sum_cons q l : Qc_sum (q :: l) = (q + Qc_sum l)%Qc.
Proof. done. Qed.

Lemma fold_add_activity_qty (c c' : Z) (l : list activity_datum) (tp : time_point) :
  Forall usable l →
  weeklyTargetQty (foldl (add_activity (Some c) (Some c')) tp l) =
  num_add (weeklyTargetQty tp) (Num (Qc_sum (week_share c c' <$> l))).
Proof.
  intros Hl. revert tp. induction Hl as [|d l Hd _ IH]; intros tp; cbn [foldl fmap list_fmap].
  - by rewrite num_add_Num_0.
  - rewrite IH, add_activity_qty by done.
    rewrite Qc_sum_cons, <- num_add_assoc. done.
Qed.

Lemma week_point_qty (c c' : Z) (l : list activity_datum) :
  Forall usable l →
  weeklyTargetQty (week_point l (Some c) (Some c')) =
  Num (Qc_sum (week_share c c' <$> l)).
Proof.
  intros Hl. unfold week_point. rewrite fold_add_activity_qty by done.
  cbn [weeklyTargetQty]. apply num_add_0_l.
Qed.

Lemma fold_add_activity_dates (ws we : time) (l : list activity_datum)
    (tp : time_point) :
  date (foldl (add_activity ws we) tp l) = date tp
  ∧ weekEnd (foldl (add_activity ws we) tp l) = weekEnd tp.
Proof.
  revert tp. induction l as [|d l IH]; intros tp; cbn [foldl]; [done|].
  destruct (IH (add_activity ws we tp d)) as [-> ->].
  apply add_activity_dates.
Qed.

Lemma week_point_dates (ws we : time) (l : list activity_datum) :
  date (week_point l ws we) = ws ∧ weekEnd (week_point l ws we) = we.
Proof. unfold week_point. apply fold_add_activity_dates. Qed.

Lemma weekInMs_week : weekInMs = num_of_Z week.
Proof. done. Qed.

Lemma week_positive : 0 < week.
Proof. done. Qed.

Lemma next_week (c : Z) :
  Date_of_number (num_add (getTime (Some c)) weekInMs) = Some (c + week).
Proof.
  cbn [getTime]. by rewrite weekInMs_week, num_add_of_Z, Date_of_number_of_Z.
Qed.

Lemma weeks_left_week (E c : Z) :
  weeks_left (Some E) (Some c) = Z.to_nat ((E - c) / week + 1).
Proof. done. Qed.

Lemma weeks_left_zero (E c : Z) :
  weeks_left (Some E) (Some c) = 0%nat → E < c.
Proof.
  rewrite weeks_left_week. pose proof week_positive as Hw. intros H0.
  destruct (Z.le_gt_cases 0 (E - c)) as [Hpos|Hneg]; [|lia].
  pose proof (Z.div_pos (E - c) week Hpos Hw). lia.
Qed.

Lemma weeks_left_succ (E c : Z) (n : nat) :
  weeks_left (Some E) (Some c) = S n →
  c ≤ E ∧ weeks_left (Some E) (Some (c + week)) = n.
Proof.
  rewrite !weeks_left_week. pose proof week_positive as Hw. intros HS.
  assert (0 ≤ (E - c) / week) as Hk by lia.
  assert (0 ≤ E - c) as Hpos.
  { destruct (Z.le_gt_cases 0 (E - c)) as [|Hlt]; [done|].
    apply (Z.div_lt_upper_bound _ week 0) in Hlt; lia. }
  split; [lia|].
  replace (E - (c + week)) with ((E - c) + (-1) * week) by lia.
  rewrite Z.div_add by lia. lia.
Qed.

Lemma Qc_sum_pointwise (f g h : activity_datum → Qc) (l : list activity_datum) :
  Forall (fun d => (f d + g d)%Qc = h d) l →
  (Qc_sum (f <$> l) + Qc_sum (g <$> l))%Qc = Qc_sum (h <$> l).
Proof.
  induction 1 as [|d l Hd _ IH]; cbn [fmap list_fmap]; rewrite ?Qc_sum_cons.
  - unfold Qc_sum. cbn [foldr]. ring.
  - rewrite <- Hd, <- IH. ring.
Qed.

Lemma Qc_sum_zero (f : activity_datum → Qc) (l : list activity_datum) :
  Forall (fun d => f d = Q2Qc 0) l → Qc_sum (f <$> l) = Q2Qc 0.
Proof.
  induction 1 as [|d l Hd _ IH]; cbn [fmap list_fmap]; rewrite ?Qc_sum_cons.
  - done.
  - rewrite Hd, IH. ring.
Qed.

Lemma Qc_sum_ext (f g : activity_datum → Qc) (l : list activity_datum) :
  Forall (fun d => f d = g d) l → Qc_sum (f <$> l) = Qc_sum (g <$> l).
Proof.
  induction 1 as [|d l Hd _ IH]; cbn [fmap list_fmap]; rewrite ?Qc_sum_cons.
  - done.
  - by rewrite Hd, IH.
Qed.

(** The week from [c] takes from the remainder after [c] exactly what is
    not left after the end of the week. *)
Lemma share_step (c : Z) (d : activity_datum) :
  (week_share c (c + week) d + rest_share (c + week) d)%Qc = rest_share c d.
Proof.
  unfold week_share, rest_share.
  replace (Z.max 0 (datum_end d - Z.max (datum_start d) c))
    with (overlap (datum_start d) (datum_end d) c (c + week)
          + Z.max 0 (datum_end d - Z.max (datum_start d) (c + week))).
  - rewrite <- Qc_of_Z_add. unfold Qcdiv. ring.
  - unfold overlap. pose proof week_positive.
    destruct (Z.leb_spec (datum_start d) (c + week)),
             (Z.leb_spec c (datum_end d)); cbn [andb]; lia.
Qed.

Lemma rest_share_after (c : Z) (d : activity_datum) :
  datum_end d < c → rest_share c d = Q2Qc 0.
Proof.
  intros Hlt. unfold rest_share.
  replace (Z.max 0 (datum_end d - Z.max (datum_start d) c)) with 0 by lia.
  rewrite Qc_of_Z_0. unfold Qcdiv. ring.
Qed.

Lemma rest_share_before (c : Z) (d : activity_datum) :
  usable d → c ≤ datum_start d → rest_share c d = datum_qty d.
Proof.
  intros (_ & _ & Hlt & _) Hle. unfold rest_share.
  replace (Z.max 0 (datum_end d - Z.max (datum_start d) c))
    with (datum_end d - datum_start d) by lia.
  rewrite <- (Qcmult_1_r (datum_qty d)) at 2. f_equal.
  unfold Qcdiv. apply Qcmult_inv_r, Qc_of_Z_nonzero. lia.
Qed.

(** The buckets from [c] on hold, together, what lies after [c]. *)
Lemma weekly_points_total (l : list activity_datum) (E : Z) :
  Forall usable l →
  Forall (fun d => datum_end d ≤ E) l →
  ∀ (fuel : nat) (c : Z),
    fuel = weeks_left (Some E) (Some c) →
    sum_numbers (weeklyTargetQty <$> weekly_points fuel l (Some E) (Some c)) =
    Num (Qc_sum (rest_share c <$> l)).
Proof.
  intros Hl HE fuel. induction fuel as [|fuel IH]; intros c Hfuel.
  - symmetry in Hfuel. apply weeks_left_zero in Hfuel.
    cbn [weekly_points fmap list_fmap]. rewrite Qc_sum_zero.
    + by rewrite <- Qc_of_Z_0.
    + eapply list.Forall_impl; [exact HE|]. intros d Hd. cbv beta in Hd. apply rest_share_after. lia.
  - symmetry in Hfuel. apply weeks_left_succ in Hfuel as [Hle Hfuel].
    cbn [weekly_points]. cbn [getTime]. rewrite num_le_of_Z.
    destruct (Z.leb_spec c E); [|lia].
    change (num_add (num_of_Z c) weekInMs)
      with (num_add (getTime (Some c)) weekInMs).
    rewrite next_week. cbn [fmap list_fmap].
    rewrite sum_numbers_cons, (IH (c + week)) by done.
    rewrite week_point_qty by done. cbn [num_add]. f_equal.
    apply Qc_sum_pointwise. apply list.Forall_forall. intros d _. apply share_step.
Qed.

(** The loop leaves through its guard: more fuel changes nothing. *)
Lemma weekly_points_fuel (l : list activity_datum) (E c : time) (extra : nat) :
  weekly_points (weeks_left E c + extra) l E c =
  weekly_points (weeks_left E c) l E c.
Proof.
  destruct E as [E|], c as [c|]; try by destruct extra.
  remember (weeks_left (Some E) (Some c)) as fuel eqn:Hfuel.
  revert c Hfuel. induction fuel as [|fuel IH]; intros c Hfuel.
  - symmetry in Hfuel. apply weeks_left_zero in Hfuel.
    destruct extra as [|extra]; [done|].
    cbn [Nat.add weekly_points getTime]. rewrite num_le_of_Z.
    by destruct (Z.leb_spec c E); [lia|].
  - symmetry in Hfuel. apply weeks_left_succ in Hfuel as [Hle Hfuel].
    cbn [Nat.add weekly_points getTime]. rewrite num_le_of_Z.
    destruct (Z.leb_spec c E); [|lia].
    change (num_add (num_of_Z c) weekInMs)
      with (num_add (getTime (Some c)) weekInMs).
    rewrite next_week. f_equal. by apply IH.
Qed.

Lemma insert_sorted_perm (a : activity_datum) (l : list activity_datum) :
  insert_sorted a l ≡ₚ a :: l.
Proof.
  induction l as [|b l IH]; cbn [insert_sorted]; [done|].
  destruct (sorts_after a b); [|done].
  rewrite IH. apply Permutation_swap.
Qed.

Lemma sort_by_start_perm (l : list activity_datum) : sort_by_start l ≡ₚ l.
Proof.
  unfold sort_by_start. induction l as [|a l IH]; cbn [foldr]; [done|].
  by rewrite insert_sorted_perm, IH.
Qed.

Lemma Math_min_starts (l : list activity_datum) :
  l ≠ [] → Forall usable l →
  ∃ P, Math_min ((fun a => getTime (startDate a)) <$> l) = num_of_Z P
       ∧ Forall (fun d => P ≤ datum_start d) l.
Proof.
  intros Hne Hl. induction Hl as [|d l (Hs & _) Hl IH]; [done|].
  cbn [fmap list_fmap]. unfold Math_min. cbn [foldr]. fold (Math_min).
  rewrite Hs. cbn [getTime].
  destruct l as [|d' l'].
  - exists (datum_start d). split; [done|]. constructor; [lia|constructor].
  - destruct IH as (P & HP & Hall); [done|].
    unfold Math_min in HP. rewrite HP, num_min_of_Z.
    exists (Z.min (datum_start d) P). split; [done|].
    constructor; [lia|].
    eapply list.Forall_impl; [exact Hall|]. intros x Hx. cbv beta in Hx. lia.
Qed.

Lemma Math_max_ends (l : list activity_datum) :
  l ≠ [] → Forall usable l →
  ∃ E, Math_max ((fun a => getTime (endDate a)) <$> l) = num_of_Z E
       ∧ Forall (fun d => datum_end d ≤ E) l.
Proof.
  intros Hne Hl. induction Hl as [|d l (_ & He & _) Hl IH]; [done|].
  cbn [fmap list_fmap]. unfold Math_max. cbn [foldr]. fold (Math_max).
  rewrite He. cbn [getTime].
  destruct l as [|d' l'].
  - exists (datum_end d). split; [done|]. constructor; [lia|constructor].
  - destruct IH as (E & HE & Hall); [done|].
    unfold Math_max in HE. rewrite HE, num_max_of_Z.
    exists (Z.max (datum_end d) E). split; [done|].
    constructor; [lia|].
    eapply list.Forall_impl; [exact Hall|]. intros x Hx. cbv beta in Hx. lia.
Qed.

Lemma sum_target_quantities (l : list activity_datum) :
  Forall usable l →
  sum_numbers (targetQty <$> l) = Num (Qc_sum (datum_qty <$> l)).
Proof.
  induction 1 as [|d l (_ & _ & _ & Hq) _ IH]; cbn [fmap list_fmap].
  - change (sum_numbers []) with num_zero. unfold num_zero, num_of_Z.
    by rewrite Qc_of_Z_0.
  - by rewrite sum_numbers_cons, IH, Hq, Qc_sum_cons.
Qed.

(** The sum of the weekly target quantities over a non-empty list of
    usable data, as [getResourceCurve] buckets it. *)
Lemma buckets_conserve (l : list activity_datum) :
  l ≠ [] → Forall usable l →
  let projectStartDate :=
    Date_of_number (Math_min ((fun a => getTime (startDate a)) <$> l)) in
  let projectEndDate :=
    Date_of_number (Math_max ((fun a => getTime (endDate a)) <$> l)) in
  sum_numbers
    (weeklyTargetQty <$>
       weekly_points (weeks_left projectEndDate projectStartDate) l
         projectEndDate projectStartDate) =
  sum_numbers (targetQty <$> l).
Proof.
  intros Hne Hl.
  destruct (Math_min_starts l Hne Hl) as (P & -> & HP).
  destruct (Math_max_ends l Hne Hl) as (E & -> & HE).
  rewrite !Date_of_number_of_Z. cbv zeta.
  rewrite (weekly_points_total l E Hl HE _ P eq_refl).
  rewrite sum_target_quantities by done. f_equal.
  apply Qc_sum_ext, list.Forall_forall. intros d Hd.
  apply rest_share_before.
  - by apply (proj1 (list.Forall_forall _ _) Hl).
  - by apply (proj1 (list.Forall_forall _ _) HP).
Qed.

Section CurveFacts.
Context `{Host}.

Lemma collect_activity_datum (r : Reader) (assignment activity : record)
    (s e : Z) :
  activity_of r assignment = Some activity →
  truthy (start_of activity) = true →
  truthy (end_of activity) = true →
  Date_new (start_of activity) = Some s →
  Date_new (end_of activity) = Some e →
  ∃ d, collect_activity r assignment = [d]
       ∧ startDate d = Some s ∧ endDate d = Some e
       ∧ targetQty d = convertToNumber (get assignment "target_qty").
Proof.
  intros Hact Hts Hte Hs He.
  unfold collect_activity. rewrite Hact, Hts, Hte, Hs, He. cbn [andb].
  eexists. by split.
Qed.

Lemma collect_activity_usable (r : Reader) (assignment : record) :
  contributes r assignment →
  ∃ d, collect_activity r assignment = [d] ∧ usable d
       ∧ targetQty d = convertToNumber (get assignment "target_qty").
Proof.
  intros (activity & s & e & q & Hact & Hts & Hte & Hs & He & Hlt & Hq).
  destruct (collect_activity_datum r assignment activity s e)
    as (d & Hd & Hds & Hde & Hdq); try done.
  exists d. split; [done|]. split; [|done].
  unfold usable, datum_start, datum_end, datum_qty.
  rewrite Hds, Hde, Hdq, Hq. done.
Qed.

Lemma collect_all_usable (r : Reader) (assignments : list record) :
  Forall (contributes r) assignments →
  Forall usable (assignments ≫= collect_activity r)
  ∧ targetQty <$> (assignments ≫= collect_activity r) =
    (fun a => convertToNumber (get a "target_qty")) <$> assignments.
Proof.
  induction 1 as [|a l Ha _ [IHu IHq]]; [done|].
  destruct (collect_activity_usable r a Ha) as (d & Hd & Hu & Hq).
  cbn [mbind list_bind fmap list_fmap]. rewrite Hd. cbn [app].
  split; [by constructor|].
  cbn [fmap list_fmap]. by rewrite Hq, IHq.
Qed.

(** C1. When every assignment of the resource pairs to an activity with
    usable start and end dates and a positive span, the weekly target
    quantities of the curve add up to the target quantities of the
    assignments.  Arithmetic is exact: the quantities are finite
    fractions. *)
Theorem resource_curve_conservation (r : Reader) (resourceId_ : value) :
  (∀ assignment,
     assignment ∈ getResourceAssignmentsByResource r resourceId_ →
     contributes r assignment) →
  sum_numbers (weeklyTargetQty <$> timeBasedData (getResourceCurve r resourceId_)) =
  sum_numbers ((fun a => convertToNumber (get a "target_qty")) <$>
               getResourceAssignmentsByResource r resourceId_).
Proof.
  intros Hall. apply list.Forall_forall in Hall.
  destruct (collect_all_usable r _ Hall) as [Hu Hq].
  unfold getResourceCurve. rewrite <- Hq.
  set (collected := getResourceAssignmentsByResource r resourceId_
                    ≫= collect_activity r) in *.
  pose proof (sort_by_start_perm collected) as Hperm.
  assert (Forall usable (sort_by_start collected)) as Hsorted
    by by rewrite Hperm.
  rewrite <- (sum_numbers_perm _ _ (fmap_Permutation targetQty _ _ Hperm)).
  destruct (sort_by_start collected) as [|d l] eqn:E.
  - done.
  - cbn [length Nat.eqb timeBasedData].
    by apply buckets_conserve.
Qed.

(** C5, as amended. One assignment of 70 units on an activity that spans
    exactly 14 days yields three weekly buckets, a week apart from the
    start of the activity: 35, 35, and a last bucket of 0 that starts at
    the end of the activity, because the loop includes the window end. *)
Theorem fortnight_gives_three_buckets (r : Reader) (resourceId_ : value)
    (assignment activity : record) (s : Z) :
  getResourceAssignmentsByResource r resourceId_ = [assignment] →
  activity_of r assignment = Some activity →
  truthy (start_of activity) = true →
  truthy (end_of activity) = true →
  Date_new (start_of activity) = Some s →
  Date_new (end_of activity) = Some (s + 2 * week) →
  convertToNumber (get assignment "target_qty") = num_of_Z 70 →
  (fun tp => (date tp, weekEnd tp, weeklyTargetQty tp)) <$>
    timeBasedData (getResourceCurve r resourceId_) =
  [ (Some s, Some (s + week), num_of_Z 35);
    (Some (s + week), Some (s + 2 * week), num_of_Z 35);
    (Some (s + 2 * week), Some (s + 3 * week), num_of_Z 0) ].
Proof.
  intros Hone Hact Hts Hte Hs He Hq. pose proof week_positive as Hw.
  destruct (collect_activity_datum r assignment activity s (s + 2 * week))
    as (d & Hd & Hds & Hde & Hdq); try done.
  rewrite Hq in Hdq.
  assert (usable d) as Hu.
  { unfold usable, datum_start, datum_end, datum_qty.
    rewrite Hds, Hde, Hdq. cbn [default]. unfold id.
    repeat split; try done. lia. }
  assert (datum_start d = s) as Hstart by (unfold datum_start; by rewrite Hds).
  assert (datum_end d = s + 2 * week) as Hend
    by (unfold datum_end; by rewrite Hde).
  assert (datum_qty d = Qc_of_Z 70) as Hqty
    by (unfold datum_qty; by rewrite Hdq).
  unfold getResourceCurve. rewrite Hone.
  cbn [mbind list_bind]. rewrite Hd.
  cbn [app sort_by_start foldr insert_sorted length Nat.eqb timeBasedData
       fmap list_fmap].
  rewrite Hds, Hde. cbn [getTime].
  replace (Math_min [num_of_Z s]) with (num_of_Z s) by done.
  replace (Math_max [num_of_Z (s + 2 * week)])
    with (num_of_Z (s + 2 * week)) by done.
  rewrite !Date_of_number_of_Z, weeks_left_week.
  replace (s + 2 * week - s) with (2 * week) by lia.
  change (Z.to_nat (2 * week / week + 1)) with 3%nat.
  assert (∀ c, c ≤ s + 2 * week →
            num_le (getTime (Some c)) (getTime (Some (s + 2 * week))) = true)
    as Hguard.
  { intros c Hc. cbn [getTime]. rewrite num_le_of_Z. by apply Z.leb_le. }
  cbn [weekly_points]. rewrite !next_week.
  rewrite !Hguard by lia.
  cbn [fmap list_fmap].
  rewrite !(proj1 (week_point_dates _ _ _)), !(proj2 (week_point_dates _ _ _)).
  rewrite !week_point_qty by (constructor; [done|constructor]).
  cbn [fmap list_fmap]. unfold Qc_sum, week_share. cbn [foldr].
  rewrite Hstart, Hend, Hqty.
  replace (s + 2 * week - s) with (2 * week) by lia.
  replace (overlap s (s + 2 * week) s (s + week)) with week
    by (unfold overlap;
        destruct (Z.leb_spec s (s + week)), (Z.leb_spec s (s + 2 * week));
        cbn [andb]; lia).
  replace (overlap s (s + 2 * week) (s + week) (s + week + week)) with week
    by (unfold overlap;
        destruct (Z.leb_spec s (s + week + week)),
                 (Z.leb_spec (s + week) (s + 2 * week)); cbn [andb]; lia).
  replace (overlap s (s + 2 * week) (s + week + week) (s + week + week + week))
    with 0
    by (unfold overlap;
        destruct (Z.leb_spec s (s + week + week + week)),
                 (Z.leb_spec (s + week + week) (s + 2 * week)); cbn [andb]; lia).
  replace (s + week + week + week) with (s + 3 * week) by lia.
  replace (s + week + week) with (s + 2 * week) by lia.
  assert ((Qc_of_Z 70 * (Qc_of_Z week / Qc_of_Z (2 * week)) + Q2Qc 0)%Qc
          = Qc_of_Z 35) as -> by (by apply Qc_is_canon).
  assert ((Qc_of_Z 70 * (Qc_of_Z 0 / Qc_of_Z (2 * week)) + Q2Qc 0)%Qc
          = Qc_of_Z 0) as -> by (by apply Qc_is_canon).
  done.
Qed.

End CurveFacts.


(** ** The properties on concrete schedules *)

(** Closes an equation whose two sides compute to the same value. *)
Ltac same_value :=
  match goal with |- _ = ?y => vm_cast_no_check (@eq_refl _ y) end.

Lemma forallb_elem_of {A} (p : A → bool) (l : list A) :
  forallb p l = true → ∀ x, x ∈ l → p x = true.
Proof.
  intros Hall x Hx. apply list_elem_of_In in Hx.
  by apply (proj1 (forallb_forall p l) Hall).
Qed.

Lemma convertTypes_schema_typed_witness :
  sample_assignment_row !! "target_qty" = Some (VStr "n/a")
  ∧ ∃ n, @convertTypes decimal_host sample_assignment_row (Some SCHEMAS_TASKRSRC)
           !! "target_qty" = Some (VNum n) ∧ n = num_zero.
Proof.
  split; [reflexivity|].
  destruct (@convertTypes_schema_typed decimal_host sample_assignment_row
              SCHEMAS_TASKRSRC "target_qty" (VStr "n/a") eq_refl) as [Hn _].
  destruct (Hn {| type := "number" |} eq_refl eq_refl) as (n & Hl & _ & Hz).
  exists n. split; [exact Hl|]. apply Hz. right; right; right. reflexivity.
Defined.

Lemma getCriticalActivities_iff_witness :
  activities float_reader !! 0%nat = Some (row_at 0 (activities float_reader))
  ∧ get (row_at 0 (activities float_reader)) "total_float_hr_cnt"
    = VNum (num_of_Z (-5))
  ∧ get (row_at 0 (activities float_reader)) "driving_path_flag" ≠ VStr "Y"
  ∧ row_at 0 (activities float_reader)
    ∉ @getCriticalActivities decimal_host float_reader.
Proof.
  assert (get (row_at 0 (activities float_reader)) "total_float_hr_cnt"
          = VNum (num_of_Z (-5))) as Hfloat by by_computation.
  assert (get (row_at 0 (activities float_reader)) "driving_path_flag"
          ≠ VStr "Y") as Hflag by (vm_compute; discriminate).
  split; [same_value|].
  split; [exact Hfloat|]. split; [exact Hflag|].
  exact (proj2 (@getCriticalActivities_iff decimal_host float_reader)
           _ Hfloat Hflag).
Defined.

Lemma missing_float_is_critical_witness :
  activities no_float_reader !! 1%nat
    = Some (row_at 1 (activities no_float_reader))
  ∧ row_at 1 (activities no_float_reader) !! "total_float_hr_cnt" = None
  ∧ row_at 1 (activities no_float_reader)
    ∈ @getCriticalActivities decimal_host no_float_reader.
Proof.
  assert (activities no_float_reader !! 1%nat
          = Some (row_at 1 (activities no_float_reader))) as Hrow by same_value.
  assert (row_at 1 (activities no_float_reader) !! "total_float_hr_cnt" = None)
    as Hnone by (vm_compute; reflexivity).
  split; [exact Hrow|]. split; [exact Hnone|].
  apply (@missing_float_is_critical decimal_host).
  - by apply list_elem_of_lookup_2 with (i := 1%nat).
  - by left.
Defined.

Lemma getSummaryStats_durationStats_witness :
  (∀ a, a ∈ activities milestone_reader →
        num_gt (@convertToNumber decimal_host (get a "target_drtn_hr_cnt"))
               num_zero = false)
  ∧ length (activities milestone_reader) = 2%nat
  ∧ durationStats (@getSummaryStats decimal_host milestone_reader) = None.
Proof.
  assert (∀ a, a ∈ activities milestone_reader →
        num_gt (@convertToNumber decimal_host (get a "target_drtn_hr_cnt"))
               num_zero = false) as Hall.
  { intros a Ha. apply negb_true_iff.
    revert a Ha. apply forallb_elem_of. vm_compute. reflexivity. }
  split; [exact Hall|]. split; [vm_compute; reflexivity|].
  by apply (@getSummaryStats_durationStats decimal_host).
Defined.

Lemma short_row_is_truncated_witness :
  ∃ rec,
    parse_lines initial_state (content_lines short_row_file) =
      Normal {| data := {[ "TASK" := [rec] ]};
                currentTable := Some "TASK";
                currentFields := ["task_id"; "task_name"; "status_code"] |}
    ∧ rec !! "task_id" = Some (VStr "1")
    ∧ rec !! "task_name" = None.
Proof.
  destruct (short_row_is_truncated
              {| data := {[ "TASK" := [] ]}; currentTable := Some "TASK";
                 currentFields := ["task_id"; "task_name"; "status_code"] |}
              (xer_line "%R" ["1"]) "TASK" [])
    as (rec & Hline & Hpaired & Habsent); [reflexivity | reflexivity | by vm_compute |].
  exists rec. split; [|split].
  - change (content_lines short_row_file)
      with ([xer_line "%T" ["TASK"];
             xer_line "%F" ["task_id"; "task_name"; "status_code"]]
            ++ [xer_line "%R" ["1"]]).
    rewrite parse_lines_app.
    change (parse_lines initial_state
              [xer_line "%T" ["TASK"];
               xer_line "%F" ["task_id"; "task_name"; "status_code"]])
      with (Normal {| data := ({[ "TASK" := [] ]} : tables);
                      currentTable := Some "TASK";
                      currentFields := ["task_id"; "task_name"; "status_code"] |}).
    cbn [bind parse_lines]. rewrite Hline. reflexivity.
  - apply (Hpaired 0%nat "task_id" "1"); try done.
    intros j Hj. vm_compute in Hj. lia.
  - apply Habsent. vm_compute. intros Hin.
    apply list_elem_of_singleton in Hin. discriminate.
Defined.

(** C4 fails as stated: a row with one value under three fields yields a
    record with the first field only; the two trailing fields are absent
    rather than bound to the empty string. *)
Lemma short_row_not_padded :
  parseContent short_row_file = Normal (tables_of (parseContent short_row_file))
  ∧ length (default [] (tables_of (parseContent short_row_file) !! "TASK")) = 1%nat
  ∧ short_row_record !! "task_id" = Some (VStr "1")
  ∧ short_row_record !! "task_name" = None
  ∧ get short_row_record "task_name" ≠ VStr ""
  ∧ short_row_record !! "status_code" = None
  ∧ get short_row_record "status_code" ≠ VStr "".
Proof.
  split; [same_value|].
  repeat split; try (vm_compute; reflexivity); vm_compute; discriminate.
Qed.

Lemma parseContent_never_throws_witness :
  Forall (fun l => startsWith l marker_T = false) []
  ∧ startsWith (xer_line "%R" ["1"; "2"]) marker_R = true
  ∧ parse_lines initial_state orphan_row_lines =
      Normal {| data := {[ "TASK" := [ {[ "task_id" := VStr "7" ]} ] ]};
                currentTable := Some "TASK";
                currentFields := ["task_id"] |}.
Proof.
  split; [constructor|]. split; [reflexivity|].
  destruct parseContent_never_throws as (_ & _ & Horphan & _).
  etrans.
  - apply (Horphan [] (xer_line "%R" ["1"; "2"])
             ["ERMHDR 8.0"; xer_line "%T" ["TASK"]; xer_line "%F" ["task_id"];
              xer_line "%R" ["7"]]); [constructor | reflexivity].
  - same_value.
Defined.

Lemma assessment_score_and_grade_witness :
  count_pass (points (@runDCMA14Assessment decimal_host sound_app)) = 14%nat
  ∧ score (summary (@runDCMA14Assessment decimal_host sound_app)) = num_of_Z 100
  ∧ grade (summary (@runDCMA14Assessment decimal_host sound_app)) = "A".
Proof.
  assert (count_pass (points (@runDCMA14Assessment decimal_host sound_app))
          = 14%nat) as HN by (vm_compute; reflexivity).
  split; [exact HN|].
  by apply (@assessment_score_and_grade decimal_host).
Defined.

Lemma no_relationships_checks_pass_witness :
  relationships (currentReader no_relationships_app) = []
  ∧ ∃ leads lags types,
      points (@runDCMA14Assessment decimal_host no_relationships_app) !! 1%nat
        = Some leads
      ∧ points (@runDCMA14Assessment decimal_host no_relationships_app) !! 2%nat
        = Some lags
      ∧ points (@runDCMA14Assessment decimal_host no_relationships_app) !! 3%nat
        = Some types
      ∧ status leads = "pass" ∧ status lags = "pass" ∧ status types = "pass"
      ∧ details types =
          [("fsRelationships", VNum num_zero); ("totalRelationships", VNum num_zero);
           ("percentage", VStr "100.0")].
Proof.
  assert (relationships (currentReader no_relationships_app) = []) as Hnone
    by (vm_compute; reflexivity).
  split; [exact Hnone|].
  destruct (@no_relationships_checks_pass decimal_host no_relationships_app Hnone)
    as (leads & lags & types & H1 & H2 & H3 & _ & Hs1 & _ & _ & Hs2 & _
        & _ & Hs3 & Hd3).
  exists leads, lags, types. repeat split; try done.
Defined.

(** C5 fails as stated: for one assignment of 70 units on an activity that
    spans exactly 14 days the curve has three buckets, not two; the third
    starts at the end of the activity and holds 0. *)
Lemma fortnight_has_three_buckets :
  getResourceAssignmentsByResource fortnight_reader (VStr "R1")
    = [fortnight_assignment]
  ∧ activity_of fortnight_reader fortnight_assignment = Some fortnight_activity
  ∧ start_of fortnight_activity = VDate (Some 1704067200000)
  ∧ end_of fortnight_activity
    = VDate (Some (1704067200000 + 14 * 24 * 60 * 60 * 1000))
  ∧ @convertToNumber decimal_host (get fortnight_assignment "target_qty")
    = num_of_Z 70
  ∧ length (timeBasedData fortnight_curve) = 3%nat
  ∧ weeklyTargetQty <$> timeBasedData fortnight_curve =
      [num_of_Z 35; num_of_Z 35; num_of_Z 0].
Proof.
  split; [same_value|].
  split; [same_value|].
  split; [vm_compute; reflexivity|].
  split; [vm_compute; reflexivity|].
  split; [by_computation|].
  split; [vm_compute; reflexivity|].
  by_computation.
Qed.

Lemma fortnight_gives_three_buckets_witness :
  (fun tp => (date tp, weekEnd tp, weeklyTargetQty tp)) <$>
    timeBasedData fortnight_curve =
  [ (Some 1704067200000, Some (1704067200000 + week), num_of_Z 35);
    (Some (1704067200000 + week), Some (1704067200000 + 2 * week), num_of_Z 35);
    (Some (1704067200000 + 2 * week), Some (1704067200000 + 3 * week),
     num_of_Z 0) ].
Proof.
  unfold fortnight_curve.
  apply (@fortnight_gives_three_buckets decimal_host fortnight_reader
           (VStr "R1") fortnight_assignment fortnight_activity 1704067200000).
  - same_value.
  - same_value.
  - vm_compute. reflexivity.
  - vm_compute. reflexivity.
  - vm_compute. reflexivity.
  - vm_compute. reflexivity.
  - by_computation.
Defined.

Lemma contributes_intro (r : Reader) (assignment : record) (s e : Z) (q : Qc) :
  activity_of r assignment
    = Some (default ∅ (activity_of r assignment)) →
  truthy (start_of (default ∅ (activity_of r assignment))) = true →
  truthy (end_of (default ∅ (activity_of r assignment))) = true →
  @Date_new decimal_host (start_of (default ∅ (activity_of r assignment)))
    = Some s →
  @Date_new decimal_host (end_of (default ∅ (activity_of r assignment)))
    = Some e →
  (s <? e) = true →
  @convertToNumber decimal_host (get assignment "target_qty") = Num q →
  @contributes decimal_host r assignment.
Proof.
  intros Hact Hts Hte Hs He Hlt Hq.
  exists (default ∅ (activity_of r assignment)), s, e, q.
  repeat split; try done. by apply Z.ltb_lt.
Qed.

Lemma resource_curve_conservation_witness :
  Forall (@contributes decimal_host two_activity_reader) two_activity_assignments
  ∧ length two_activity_assignments = 2%nat
  ∧ sum_numbers
      (weeklyTargetQty <$>
         timeBasedData (@getResourceCurve decimal_host two_activity_reader
                          (VStr "R1")))
    = Num (Q2Qc (201 # 2)).
Proof.
  assert (two_activity_assignments
          = [row_at 0 two_activity_assignments;
             row_at 1 two_activity_assignments]) as Hrows by same_value.
  assert (Forall (@contributes decimal_host two_activity_reader)
            two_activity_assignments) as Hall.
  { rewrite Hrows. repeat constructor.
    - apply (contributes_intro _ _ 1704067200000 1705276800000 (Qc_of_Z 70));
        [same_value | vm_compute; reflexivity .. | by_computation].
    - apply (contributes_intro _ _ 1704844800000 1706918400000 (Q2Qc (61 # 2)));
        [same_value | vm_compute; reflexivity .. | by_computation]. }
  split; [exact Hall|]. split; [vm_compute; reflexivity|].
  etrans.
  - apply (@resource_curve_conservation decimal_host two_activity_reader
             (VStr "R1")).
    apply list.Forall_forall. exact Hall.
  - by_computation.
Defined.

(** * Further properties of the code *)

Lemma parseContent_total (content : string) :
  ∃ raw, parseContent content = Normal raw.
Proof.
  unfold parseContent.
  destruct (parse_lines_total initial_state (content_lines content)
              initial_state_table_present) as (st & -> & _).
  cbn [bind]. eauto.
Qed.

Section ReaderModel.
Context `{Host}.

Lemma convertToDate_range (v : value) :
  convertToDate v = VNull ∨ ∃ t, convertToDate v = VDate (Some t).
Proof.
  unfold convertToDate. destruct (_ || _); [by left|].
  destruct (Date_new v) as [t|]; cbn [getTime isNaN]; [right; by exists t|].
  by left.
Qed.

Lemma get_convertTypes (rec : record) (sch : schema) (field : string) :
  get (convertTypes rec (Some sch)) field =
  match rec !! field, sch !! field with
  | Some v, Some fieldSchema => convert_value (type fieldSchema) v
  | Some v, None => v
  | None, _ => VUndefined
  end.
Proof.
  unfold get. rewrite convertTypes_lookup.
  destruct (rec !! field); [|done]. by destruct (sch !! field).
Qed.

Lemma convertTypes_number (rec : record) (sch : schema) (field : string)
    (fieldSchema : field_schema) :
  sch !! field = Some fieldSchema →
  type fieldSchema = "number" →
  typed_number (get (convertTypes rec (Some sch)) field).
Proof.
  intros Hsch Htype. rewrite get_convertTypes, Hsch.
  destruct (rec !! field) as [v|]; [|by left]. rewrite Htype.
  right. exists (convertToNumber v). split; [done|].
  apply convertToNumber_not_NaN.
Qed.

(** After the projection through a schema, a number-typed property holds
    a number that is not NaN and a date-typed property holds null or a
    valid Date, never an Invalid Date; a property the row lacks stays
    undefined. *)
Theorem convertTypes_typed (rec : record) (sch : schema) (field : string)
    (fieldSchema : field_schema) :
  sch !! field = Some fieldSchema →
  (type fieldSchema = "number" →
     typed_number (get (convertTypes rec (Some sch)) field))
  ∧ (type fieldSchema = "date" →
     typed_date (get (convertTypes rec (Some sch)) field)).
Proof.
  intros Hsch. rewrite get_convertTypes, Hsch.
  destruct (rec !! field) as [v|]; [|by split; left].
  split; intros ->.
  - right. exists (convertToNumber v). split; [done|].
    apply convertToNumber_not_NaN.
  - rewrite convert_value_date.
    destruct (convertToDate_range v) as [->|[t ->]].
    + right. by left.
    + right. right. by exists t.
Qed.

Lemma build_collection_lookup (raw : tables) (table : string) (sch : schema)
    (old : list record) :
  build_collection raw table sch old =
  match raw !! table with
  | Some rows => (fun rec => convertTypes rec (Some sch)) <$> rows
  | None => old
  end.
Proof. done. Qed.


End ReaderModel.

Lemma convertTypes_typed_witness :
  SCHEMAS_TASKRSRC !! "target_qty" = Some {| type := "number" |}
  ∧ typed_number
      (get (@convertTypes decimal_host sample_assignment_row
              (Some SCHEMAS_TASKRSRC)) "target_qty").
Proof.
  split; [reflexivity|].
  by apply (@convertTypes_typed decimal_host sample_assignment_row
              SCHEMAS_TASKRSRC "target_qty" {| type := "number" |}).
Defined.


(** ** The projection and the critical activities *)

Lemma filterb_ext_in {A} (p q : A → bool) (l : list A) :
  (∀ x, x ∈ l → p x = q x) → filterb p l = filterb q l.
Proof.
  unfold filterb. induction l as [|x l IH]; intros Hpq; [done|].
  rewrite !filter_cons, (Hpq x) by apply list_elem_of_here.
  rewrite IH; [done|]. intros y Hy. apply Hpq. by apply list_elem_of_further.
Qed.

Section ProjectionAndCritical.
Context `{Host}.

Lemma convertToNumber_idempotent (v : value) :
  convertToNumber (VNum (convertToNumber v)) = convertToNumber v.
Proof. apply convertToNumber_number, convertToNumber_not_NaN. Qed.

Lemma SCHEMAS_TASK_float :
  SCHEMAS_TASK !! "total_float_hr_cnt" = Some {| type := "number" |}.
Proof. reflexivity. Qed.

Lemma SCHEMAS_TASK_flag :
  SCHEMAS_TASK !! "driving_path_flag" = Some {| type := "string" |}.
Proof. reflexivity. Qed.

(** Projecting a task row through the TASK schema does not change whether
    it is critical: the float is coerced the same way before and after,
    and the driving-path flag is passed through. *)
Theorem projection_keeps_critical (raw : record) :
  is_critical (convertTypes raw (Some SCHEMAS_TASK)) = is_critical raw.
Proof.
  unfold is_critical.
  rewrite !get_convertTypes, SCHEMAS_TASK_float, SCHEMAS_TASK_flag.
  unfold get. cbn [type].
  destruct (raw !! "total_float_hr_cnt") as [v|],
           (raw !! "driving_path_flag") as [w|]; cbn [default];
    rewrite ?convert_value_number, ?convert_value_string,
            ?convertToNumber_idempotent; done.
Qed.

Lemma parseFloat_or0_typed (v : value) :
  typed_number v → parseFloat_or0 v = convertToNumber v.
Proof.
  intros [-> | (n & -> & Hn)]; [done|].
  unfold parseFloat_or0, js_or. rewrite convertToNumber_number by done.
  destruct n as [|s|q]; try done.
  cbn [truthy]. destruct (Qc_eqb q (Q2Qc 0)) eqn:E; cbn [negb parseFloat]; [|done].
  apply Qc_eqb_true in E as ->. unfold num_zero, num_of_Z.
  by rewrite Qc_of_Z_0.
Qed.

Lemma activities_typed (content : string) (r : Reader) (a : record) :
  Reader_parseContent new_Reader content = Normal r →
  a ∈ activities r →
  typed_number (get a "total_float_hr_cnt").
Proof.
  unfold Reader_parseContent.
  destruct (parseContent content) as [raw|]; [|done]. cbn [bind].
  intros [= <-]. cbn [buildCollections activities rawData].
  rewrite build_collection_lookup.
  destruct (raw !! "TASK") as [rows|]; cbn [activities new_Reader].
  - intros (rec & -> & _)%list_elem_of_fmap.
    by apply (convertTypes_number rec SCHEMAS_TASK _ _ SCHEMAS_TASK_float).
  - by intros ?%not_elem_of_nil.
Qed.

(** On the activities that [Reader.parseContent] builds, the critical test
    of the integrity check 12 ([parseFloat(float || 0) === 0]) and the one
    of [getCriticalActivities] ([convertToNumber(float) === 0]) agree, so
    the check counts exactly the critical activities. *)
Theorem checkCriticalPath_counts_critical (content : string) (r : Reader) :
  Reader_parseContent new_Reader content = Normal r →
  (∀ a, a ∈ activities r → check_is_critical a = is_critical a)
  ∧ details (checkCriticalPath (activities r)) !! 0%nat =
      Some ("criticalActivities", vlen (getCriticalActivities r)).
Proof.
  intros Hr.
  assert (∀ a, a ∈ activities r → check_is_critical a = is_critical a) as Hsame.
  { intros a Ha. unfold check_is_critical, is_critical.
    by rewrite (parseFloat_or0_typed _ (activities_typed content r a Hr Ha)). }
  split; [exact Hsame|].
  unfold checkCriticalPath. cbn [details lookup list_lookup]. do 3 f_equal.
  fold (filterb is_critical (activities r)).
  by apply (filterb_ext_in check_is_critical is_critical).
Qed.

End ProjectionAndCritical.

Lemma reader_of_spec (h : Host) (content : string) :
  @Reader_parseContent h new_Reader content = Normal (reader_of h content).
Proof.
  unfold reader_of, Reader_parseContent.
  destruct (parseContent_total content) as [raw ->]. reflexivity.
Qed.

Lemma checkCriticalPath_counts_critical_witness :
  @Reader_parseContent decimal_host new_Reader tasks_with_float
    = Normal float_reader
  ∧ details (@checkCriticalPath decimal_host (activities float_reader)) !! 0%nat
    = Some ("criticalActivities",
            vlen (@getCriticalActivities decimal_host float_reader))
  ∧ length (@getCriticalActivities decimal_host float_reader) = 2%nat.
Proof.
  pose proof (reader_of_spec decimal_host tasks_with_float) as Hr.
  split; [exact Hr|]. split; [|vm_compute; reflexivity].
  exact (proj2 (@checkCriticalPath_counts_critical decimal_host
                  tasks_with_float float_reader Hr)).
Defined.

(** ** The assessment as a whole *)

Section AssessmentFacts.
Context `{Host}.

Lemma status_at_most_5_10_known (p : number) :
  known_status (status_at_most_5_10 p).
Proof.
  unfold status_at_most_5_10, known_status.
  destruct (num_le p (num_of_Z 5)); [by left|].
  destruct (num_le p (num_of_Z 10)); [right; by right | right; by left].
Qed.

Lemma run_checks_known (app : App) :
  Forall (fun point => known_status (status point)) (run_checks app).
Proof.
  unfold run_checks.
  repeat first [apply List.Forall_nil | apply List.Forall_cons];
    unfold checkLogic, checkLeads, checkLags, checkRelationshipTypes,
      checkHardConstraints, checkHighFloat, checkNegativeFloat,
      checkHighDuration, checkInvalidDates, checkResources,
      checkIncompleteActivities, checkCriticalPath, checkCD1, checkCD234;
    cbv zeta; cbn [status];
    try apply status_at_most_5_10_known; unfold known_status;
    repeat match goal with
           | |- context [if ?b then _ else _] => destruct b
           end; auto.
Qed.

Lemma count_point_known (s : assessment_summary) (point : check_result) :
  known_status (status point) →
  (passedPoints (count_point s point) + failedPoints (count_point s point)
   + warningPoints (count_point s point)
   = S (passedPoints s + failedPoints s + warningPoints s))%nat.
Proof.
  unfold count_point. intros [-> | [-> | ->]]; cbn; lia.
Qed.

Lemma counted_known (l : list check_result) (s : assessment_summary) :
  Forall (fun point => known_status (status point)) l →
  (passedPoints (foldl count_point s l) + failedPoints (foldl count_point s l)
   + warningPoints (foldl count_point s l)
   = passedPoints s + failedPoints s + warningPoints s + length l)%nat.
Proof.
  intros Hl. revert s. induction Hl as [|point l Hp _ IH]; intros s; cbn [foldl length].
  - lia.
  - rewrite IH, (count_point_known s point Hp). lia.
Qed.

(** Every check returns one of the statuses pass, fail and warning, so the
    three counts of the summary add up to the 14 points, which are numbered
    1 to 14 in order. *)
Theorem assessment_counts_add_up (app : App) :
  let a := runDCMA14Assessment app in
  Forall (fun point => known_status (status point)) (points a)
  ∧ (passedPoints (summary a) + failedPoints (summary a)
     + warningPoints (summary a) = 14)%nat
  ∧ totalPoints (summary a) = 14%nat
  ∧ number_ <$> points a = seq 1 14.
Proof.
  cbv zeta. split; [apply run_checks_known|].
  split; [|split; [|done]].
  - unfold runDCMA14Assessment, summarize. cbn [summary passedPoints failedPoints warningPoints].
    rewrite (counted_known _ _ (run_checks_known app)). done.
  - unfold runDCMA14Assessment, summarize. cbn [summary totalPoints].
    apply counted_passed.
Qed.

(** The checks 3 (Lags) and 12 (Critical Path Test) never fail and the
    checks 13 and 14 always pass, so at least 2 points pass and at most 10
    fail, whatever the model. *)
Lemma count_point_failed (s : assessment_summary) (point : check_result) :
  (failedPoints (count_point s point) ≤ failedPoints s + fail_bit point)%nat.
Proof.
  unfold count_point, fail_bit.
  destruct (String.eqb_spec (status point) "pass") as [->|Hp]; cbn; [lia|].
  destruct (String.eqb (status point) "fail"); cbn; [lia|].
  destruct (String.eqb (status point) "warning"); cbn; lia.
Qed.

Lemma counted_failed (l : list check_result) (s : assessment_summary) :
  (failedPoints (foldl count_point s l)
   ≤ failedPoints s + foldr (fun point n => fail_bit point + n) 0 l)%nat.
Proof.
  revert s. induction l as [|point l IH]; intros s; cbn [foldl foldr].
  - lia.
  - pose proof (IH (count_point s point)).
    pose proof (count_point_failed s point). lia.
Qed.

Lemma fail_bit_le_1 (point : check_result) : (fail_bit point ≤ 1)%nat.
Proof. unfold fail_bit. destruct (String.eqb _ _); lia. Qed.

Lemma fail_bit_0 (point : check_result) :
  status point ≠ "fail" → fail_bit point = 0%nat.
Proof.
  unfold fail_bit. by destruct (String.eqb_spec (status point) "fail").
Qed.

Lemma count_pass_app (l1 l2 : list check_result) :
  count_pass (l1 ++ l2) = (count_pass l1 + count_pass l2)%nat.
Proof. unfold count_pass. by rewrite list.filter_app, length_app. Qed.

Lemma checkLags_not_fail (relationships_ : list record) :
  status (checkLags relationships_) ≠ "fail".
Proof. unfold checkLags. cbv zeta. cbn [status]. by destruct (num_le _ _). Qed.

Lemma checkCriticalPath_not_fail (activities_ : list record) :
  status (checkCriticalPath activities_) ≠ "fail".
Proof.
  unfold checkCriticalPath. cbv zeta. cbn [status]. by destruct (_ && _).
Qed.

(** The checks 3 (Lags) and 12 (Critical Path Test) never fail and the
    checks 13 and 14 always pass, so at least 2 points pass and at most 10
    fail, whatever the model. *)
Theorem assessment_never_all_fail (app : App) :
  let a := runDCMA14Assessment app in
  (∀ relationships_, status (checkLags relationships_) ≠ "fail")
  ∧ (∀ activities_, status (checkCriticalPath activities_) ≠ "fail")
  ∧ status checkCD1 = "pass" ∧ status checkCD234 = "pass"
  ∧ (2 ≤ passedPoints (summary a))%nat
  ∧ (failedPoints (summary a) ≤ 10)%nat.
Proof.
  cbv zeta. split; [apply checkLags_not_fail|].
  split; [apply checkCriticalPath_not_fail|]. split; [done|]. split; [done|].
  unfold runDCMA14Assessment, summarize.
  cbn [summary passedPoints failedPoints].
  split.
  - rewrite (proj1 (counted_passed _ _)). cbn [passedPoints Nat.add].
    change (run_checks app)
      with (take 12 (run_checks app) ++ [checkCD1; checkCD234]).
    rewrite count_pass_app.
    change (count_pass [checkCD1; checkCD234]) with 2%nat. lia.
  - etrans; [apply counted_failed|]. cbn [failedPoints Nat.add].
    unfold run_checks. cbn [foldr].
    rewrite (fail_bit_0 (checkLags _)) by apply checkLags_not_fail.
    rewrite (fail_bit_0 (checkCriticalPath _)) by apply checkCriticalPath_not_fail.
    rewrite (fail_bit_0 checkCD1), (fail_bit_0 checkCD234) by done.
    repeat match goal with
           | |- context [fail_bit ?p] =>
               generalize (fail_bit_le_1 p); generalize (fail_bit p); intros ? ?
           end.
    lia.
Qed.

End AssessmentFacts.


Section MoreAssessmentFacts.
Context `{Host}.

Lemma filterb_all {A} (p : A → bool) (l : list A) :
  (∀ x, p x = true) → filterb p l = l.
Proof.
  intros Hp. unfold filterb. induction l as [|x l IH]; [done|].
  by rewrite filter_cons_True, IH by apply Hp.
Qed.

Lemma filterb_none {A} (p : A → bool) (l : list A) :
  (∀ x, x ∈ l → p x = false) → filterb p l = [].
Proof.
  unfold filterb. induction l as [|x l IH]; intros Hp; [done|].
  rewrite filter_cons_False.
  - apply IH. intros y Hy. apply Hp. by apply list_elem_of_further.
  - rewrite (Hp x) by apply list_elem_of_here. done.
Qed.

(** The Logic check (point 1) fails on every model without relationships,
    on every model without activities, and whenever no activity has a zero
    or absent duration: it needs a start and a finish milestone and no
    activity without any link. *)
Theorem checkLogic_fails_without_links :
  (∀ activities_, status (checkLogic activities_ []) = "fail")
  ∧ (∀ relationships_, status (checkLogic [] relationships_) = "fail")
  ∧ (∀ activities_ relationships_,
       (∀ a, a ∈ activities_ → no_duration a = false) →
       status (checkLogic activities_ relationships_) = "fail").
Proof.
  split; [|split].
  - intros activities_. unfold checkLogic. cbv zeta. cbn [status fmap list_fmap].
    destruct activities_ as [|a l]; [done|].
    rewrite (filterb_all (fun a0 => negb (set_has [] (get a0 "task_id"))
                                    && negb (set_has [] (get a0 "task_id"))))
      by done.
    done.
  - intros relationships_. unfold checkLogic. cbv zeta. cbn [status].
    unfold filterb. rewrite !filter_nil. done.
  - intros activities_ relationships_ Hall. unfold checkLogic. cbv zeta.
    cbn [status].
    rewrite (filterb_none (fun a =>
               negb (set_has ((fun rel => get rel "task_id") <$> relationships_)
                             (get a "task_id")) && no_duration a)).
    + cbn [length]. by rewrite andb_false_r.
    + intros a Ha. rewrite (Hall a Ha). apply andb_false_r.
Qed.

(** On a model with no activities, no relationships and no assignments the
    Logic check fails, the Critical Path Test warns and the other twelve
    checks pass: the score is 86 and the grade B. *)
Theorem assessment_of_empty_model (app : App) :
  allActivities app = [] →
  relationships (currentReader app) = [] →
  activityResources (currentReader app) = [] →
  status <$> points (runDCMA14Assessment app) =
    ["fail"; "pass"; "pass"; "pass"; "pass"; "pass"; "pass"; "pass"; "pass";
     "pass"; "pass"; "warning"; "pass"; "pass"]
  ∧ passedPoints (summary (runDCMA14Assessment app)) = 12%nat
  ∧ failedPoints (summary (runDCMA14Assessment app)) = 1%nat
  ∧ warningPoints (summary (runDCMA14Assessment app)) = 1%nat
  ∧ score (summary (runDCMA14Assessment app)) = num_of_Z 86
  ∧ grade (summary (runDCMA14Assessment app)) = "B".
Proof.
  intros Ha Hr Hs.
  unfold runDCMA14Assessment. unfold run_checks. rewrite Ha, Hr, Hs.
  split; [reflexivity|]. split; [reflexivity|]. split; [reflexivity|].
  split; [reflexivity|]. split; [|reflexivity].
  unfold summarize. cbn [summary score].
  match goal with
  | |- Math_round (num_mul (num_div (num_of_nat ?p) (num_of_nat ?t)) _) = _ =>
      change p with 12%nat; change t with 14%nat
  end.
  by_computation.
Qed.

End MoreAssessmentFacts.

Lemma checkLogic_fails_without_links_witness :
  (∀ a, a ∈ linked_work_only → no_duration a = false)
  ∧ status (@checkLogic decimal_host linked_work_only one_link) = "fail".
Proof.
  assert (∀ a, a ∈ linked_work_only → no_duration a = false) as Hall.
  { intros a Ha. apply negb_true_iff. revert a Ha.
    apply forallb_elem_of. vm_compute. reflexivity. }
  split; [exact Hall|].
  by apply (proj2 (proj2 (@checkLogic_fails_without_links decimal_host))).
Defined.

Lemma assessment_of_empty_model_witness :
  allActivities empty_app = []
  ∧ relationships (currentReader empty_app) = []
  ∧ activityResources (currentReader empty_app) = []
  ∧ score (summary (@runDCMA14Assessment decimal_host empty_app)) = num_of_Z 86.
Proof.
  assert (allActivities empty_app = []) as Ha by (vm_compute; reflexivity).
  assert (relationships (currentReader empty_app) = []) as Hr
    by (vm_compute; reflexivity).
  assert (activityResources (currentReader empty_app) = []) as Hs
    by (vm_compute; reflexivity).
  split; [exact Ha|]. split; [exact Hr|]. split; [exact Hs|].
  by apply (@assessment_of_empty_model decimal_host empty_app Ha Hr Hs).
Defined.


(** ** The schedule analyzer *)

Section AnalyzerFacts.
Context `{Host}.

(** [calculateHealthScore] returns one of 100, 90, 85, 80, 75, 70 and 65,
    whatever it is given: so the score lies between 65 and 100 and the
    final [Math.max(0, score)] never applies. *)
Theorem calculateHealthScore_range (notStarted : value)
    (criticalCount totalActivities_ : number) :
  ∃ z, calculateHealthScore notStarted criticalCount totalActivities_ = num_of_Z z
       ∧ 65 ≤ z ≤ 100.
Proof.
  unfold calculateHealthScore. cbv zeta.
  change num_zero with (num_of_Z 0).
  repeat match goal with
         | |- context [if ?b then _ else _] => destruct b
         end;
    rewrite ?num_sub_of_Z, Math_max_pair; eexists; (split; [reflexivity|]);
    vm_compute; split; discriminate.
Qed.

(** With no activities both percentages of the health score are 0/0, the
    comparisons with NaN fail, and the health score is 100; the critical
    percentage that [analyzeCriticalPath] reports is NaN. *)
Theorem analysis_of_no_activities (r : Reader) :
  activities r = [] →
  healthScore (analyzeScheduleHealth r) = num_of_Z 100
  ∧ isNaN (criticalPercentage (analyzeCriticalPath r)) = true
  ∧ cp_activities (analyzeCriticalPath r) = [].
Proof.
  intros Hnone.
  unfold analyzeScheduleHealth, analyzeCriticalPath, getCriticalActivities.
  rewrite Hnone. cbn [healthScore criticalPercentage cp_activities].
  rewrite filter_nil. repeat split.
Qed.

Lemma earned_value_accumulators (l : list record) (pv ev : number) :
  ∃ pv' ev', foldl add_earned_value (pv, ev, ev) l = (pv', ev', ev').
Proof.
  revert pv ev. induction l as [|a l IH]; intros pv ev; cbn [foldl].
  - by eauto.
  - apply IH.
Qed.

Lemma Qc_of_Z_1 : Qc_of_Z 1 = Q2Qc 1.
Proof. by apply Qc_is_canon. Qed.

(** [getEarnedValueMetrics] accumulates the actual cost with the same
    expression as the earned value: the two are always equal, so a finite
    earned value gives a cost variance of 0 and a cost performance index
    of 1 when something is earned and 0 otherwise. *)
Theorem earned_value_has_no_cost_variance (r : Reader) :
  actualCost_ (getEarnedValueMetrics r) = earnedValue (getEarnedValueMetrics r)
  ∧ (∀ q, earnedValue (getEarnedValueMetrics r) = Num q →
       costVariance (getEarnedValueMetrics r) = num_zero
       ∧ costPerformanceIndex (getEarnedValueMetrics r) =
           (if Qc_ltb (Q2Qc 0) q then num_of_Z 1 else num_zero)).
Proof.
  unfold getEarnedValueMetrics.
  destruct (earned_value_accumulators (activities r) num_zero num_zero)
    as (pv & ev & ->).
  cbn [actualCost_ earnedValue costVariance costPerformanceIndex].
  split; [done|]. intros q ->. split.
  - unfold num_sub, num_zero, num_of_Z. cbn [num_neg num_add].
    by rewrite Qcplus_opp_r, Qc_of_Z_0.
  - unfold num_gt, num_zero, num_of_Z. cbn [num_lt].
    rewrite Qc_of_Z_0.
    destruct (Qc_ltb (Q2Qc 0) q) eqn:Hpos; [|done].
    cbn [num_div].
    assert (q ≠ Q2Qc 0) as Hq.
    { apply Qc_ltb_true, Qclt_not_eq in Hpos. congruence. }
    rewrite (Qc_eqb_false q) by done.
    unfold Qcdiv. by rewrite Qcmult_inv_r, Qc_of_Z_1.
Qed.

End AnalyzerFacts.

Lemma analysis_of_no_activities_witness :
  activities (currentReader empty_app) = []
  ∧ healthScore (@analyzeScheduleHealth decimal_host (currentReader empty_app))
    = num_of_Z 100.
Proof.
  assert (activities (currentReader empty_app) = []) as Hnone
    by (vm_compute; reflexivity).
  split; [exact Hnone|].
  by apply (@analysis_of_no_activities decimal_host).
Defined.

Lemma earned_value_has_no_cost_variance_witness :
  earnedValue (@getEarnedValueMetrics decimal_host progress_reader)
    = Num (Qc_of_Z 40)
  ∧ plannedValue (@getEarnedValueMetrics decimal_host progress_reader)
    = Num (Qc_of_Z 60)
  ∧ costVariance (@getEarnedValueMetrics decimal_host progress_reader) = num_zero
  ∧ costPerformanceIndex (@getEarnedValueMetrics decimal_host progress_reader)
    = num_of_Z 1.
Proof.
  assert (earnedValue (@getEarnedValueMetrics decimal_host progress_reader)
          = Num (Qc_of_Z 40)) as Hev by by_computation.
  split; [exact Hev|]. split; [by_computation|].
  exact (proj2 (@earned_value_has_no_cost_variance decimal_host progress_reader)
           (Qc_of_Z 40) Hev).
Defined.


(** ** Lines and cells *)

Lemma trimStart_white (w : string) :
  all_white_space w = true → trimStart w = "".
Proof.
  induction w as [|c r IH]; [done|]. cbn [all_white_space trimStart].
  intros [-> Hr]%andb_true_iff. by apply IH.
Qed.

Lemma trimEnd_white (w : string) :
  all_white_space w = true → trimEnd w = "".
Proof.
  induction w as [|c r IH]; [done|]. cbn [all_white_space trimEnd].
  intros [-> Hr]%andb_true_iff. by rewrite IH.
Qed.

Lemma append_cons (c : ascii) (r w : string) :
  String c r +:+ w = String c (r +:+ w).
Proof. reflexivity. Qed.

Lemma append_nil (w : string) : "" +:+ w = w.
Proof. reflexivity. Qed.

Lemma trimEnd_app_white (s w : string) :
  all_white_space w = true → trimEnd (s +:+ w) = trimEnd s.
Proof.
  intros Hw. induction s as [|c r IH].
  - rewrite append_nil. by apply trimEnd_white.
  - rewrite append_cons. cbn [trimEnd]. by rewrite IH.
Qed.

Lemma trimStart_app_white (s w : string) :
  all_white_space w = true →
  trimStart (s +:+ w) = trimStart s +:+ (if all_white_space s then "" else w).
Proof.
  intros Hw. induction s as [|c r IH].
  - rewrite append_nil. by apply trimStart_white.
  - rewrite append_cons. cbn [trimStart all_white_space].
    destruct (is_white_space c); cbn [andb]; [apply IH | done].
Qed.

Lemma append_empty_r (s : string) : s +:+ "" = s.
Proof. induction s as [|c r IH]; [done|]. by rewrite append_cons, IH. Qed.

Lemma trim_app_white (s w : string) :
  all_white_space w = true → trim (s +:+ w) = trim s.
Proof.
  intros Hw. unfold trim. rewrite trimStart_app_white by done.
  destruct (all_white_space s).
  - by rewrite append_empty_r.
  - by apply trimEnd_app_white.
Qed.

Lemma trimEnd_head (c : ascii) (r : string) :
  is_white_space c = false → ∃ r', trimEnd (String c r) = String c r'.
Proof. intros Hc. cbn [trimEnd]. rewrite Hc. cbn [andb]. eauto. Qed.

Lemma trimStart_head (s : string) :
  trimStart s = ""
  ∨ ∃ c r, trimStart s = String c r ∧ is_white_space c = false.
Proof.
  induction s as [|c r IH]; [by left|]. cbn [trimStart].
  destruct (is_white_space c) eqn:Hc; [exact IH|]. right. eauto.
Qed.

Lemma trimEnd_idempotent (s : string) : trimEnd (trimEnd s) = trimEnd s.
Proof.
  induction s as [|c r IH]; [done|]. cbn [trimEnd].
  destruct (is_white_space c && String.eqb (trimEnd r) "") eqn:E; [done|].
  cbn [trimEnd]. by rewrite IH, E.
Qed.

Lemma trim_idempotent (s : string) : trim (trim s) = trim s.
Proof.
  unfold trim.
  destruct (trimStart_head s) as [-> | (c & r & -> & Hc)]; [done|].
  destruct (trimEnd_head c r Hc) as [r' Hr']. rewrite Hr'.
  cbn [trimStart]. rewrite Hc, <- Hr'. apply trimEnd_idempotent.
Qed.

(** Every line that [parseContent] reads is non-empty and carries no white
    space at either end. *)
Theorem content_lines_trimmed (content : string) :
  Forall (fun line => line ≠ "" ∧ trim line = line) (content_lines content).
Proof.
  unfold content_lines. apply list.Forall_forall. intros line Hline.
  apply list_elem_of_filter in Hline as [Hne (s & -> & _)%list_elem_of_fmap].
  split; [done|]. apply trim_idempotent.
Qed.

(** A table-start line gives the table an empty list of rows, also when the
    table had rows before, and clears the field list: the data rows that
    follow are dropped until a field-list line arrives. *)
Theorem table_start_resets (st : parser_state) (tline rline : string) :
  startsWith tline marker_T = true →
  startsWith rline marker_R = true →
  ∃ st1,
    parse_line st tline = Normal st1
    ∧ currentTable st1 = Some (substring_from 3 tline)
    ∧ data st1 !! substring_from 3 tline = Some []
    ∧ (∀ t, t ≠ substring_from 3 tline → data st1 !! t = data st !! t)
    ∧ currentFields st1 = []
    ∧ parse_line st1 rline = Normal st1.
Proof.
  intros HT HR. destruct (marker_R_exclusive _ HR) as [HRT HRF].
  eexists. split.
  { unfold parse_line. rewrite HT. reflexivity. }
  cbn [currentTable data currentFields].
  split; [done|]. split; [apply lookup_insert_eq|].
  split; [intros t Ht; by apply lookup_insert_ne|]. split; [done|].
  unfold parse_line, row_accepted. rewrite HRT, HRF, HR.
  cbn [currentTable currentFields length]. 
  by rewrite andb_false_r.
Qed.

Lemma table_start_resets_witness :
  startsWith (xer_line "%T" ["TASK"]) marker_T = true
  ∧ startsWith (xer_line "%R" ["9"]) marker_R = true
  ∧ ∃ st1,
      parse_line
        {| data := {[ "TASK" := [ {[ "task_id" := VStr "7" ]} ] ]};
           currentTable := Some "TASK"; currentFields := ["task_id"] |}
        (xer_line "%T" ["TASK"]) = Normal st1
      ∧ data st1 !! "TASK" = Some []
      ∧ parse_line st1 (xer_line "%R" ["9"]) = Normal st1.
Proof.
  split; [reflexivity|]. split; [reflexivity|].
  destruct (table_start_resets
              {| data := {[ "TASK" := [ {[ "task_id" := VStr "7" ]} ] ]};
                 currentTable := Some "TASK"; currentFields := ["task_id"] |}
              (xer_line "%T" ["TASK"]) (xer_line "%R" ["9"]) eq_refl eq_refl)
    as (st1 & Hline & _ & Hrows & _ & _ & Hdrop).
  exists st1. split; [exact Hline|]. split; [exact Hrows|]. exact Hdrop.
Defined.


Lemma marker_F_not_T (line : string) :
  startsWith line marker_F = true → startsWith line marker_T = false.
Proof.
  unfold startsWith, marker_T, marker_F, marker.
  destruct line as [|a [|b line]]; cbn -[ascii_dec]; try done.
  - by destruct (ascii_dec "%" a).
  - destruct (ascii_dec "%" a); [|done].
    destruct (ascii_dec "F" b) as [<-|]; [|done]. done.
Qed.

Lemma split_not_nil (sep : ascii) (s : string) : split sep s ≠ [].
Proof.
  induction s as [|c r IH]; [done|]. cbn [split].
  destruct (Ascii.eqb c sep); [done|]. by destruct (split sep r).
Qed.

(** The name on a trimmed table-start line is never empty. *)
Lemma table_name_not_empty (line : string) :
  startsWith line marker_T = true → trim line = line →
  substring_from 3 line ≠ "".
Proof.
  unfold startsWith, marker_T, marker.
  destruct line as [|a [|b [|c rest]]]; cbn -[ascii_dec]; try done.
  - by destruct (ascii_dec "%" a).
  - destruct (ascii_dec "%" a); [|done]. by destruct (ascii_dec "T" b).
  - destruct (ascii_dec "%" a) as [<-|]; [|done].
    destruct (ascii_dec "T" b) as [<-|]; [|done].
    destruct (ascii_dec TAB c) as [<-|]; [|done].
    intros _ Htrim ->. by vm_compute in Htrim.
Qed.

(** The rows that follow a field list in the current table. *)
Lemma rows_appended (st : parser_state) (table : string) (rows : list string)
    (old : list record) :
  row_accepted st = Some table →
  data st !! table = Some old →
  Forall (fun row => startsWith row marker_R = true) rows →
  ∃ st',
    parse_lines st rows = Normal st'
    ∧ data st' !! table =
        Some (old ++ ((fun row => fill_record (currentFields st)
                                    (split TAB (substring_from 3 row)) ∅) <$> rows))
    ∧ (∀ t, t ≠ table → data st' !! t = data st !! t)
    ∧ currentTable st' = currentTable st
    ∧ currentFields st' = currentFields st.
Proof.
  intros Hacc Hold Hrows. revert st old Hacc Hold.
  induction Hrows as [|row rows HR _ IH]; intros st old Hacc Hold.
  - exists st. cbn [parse_lines fmap list_fmap]. by rewrite app_nil_r.
  - destruct (marker_R_exclusive _ HR) as [HT HF].
    cbn [parse_lines]. unfold parse_line at 1.
    rewrite HT, HF, HR, Hacc. unfold push_row. rewrite Hold. cbn [bind].
    edestruct (IH {| data := <[table := old ++ [fill_record (currentFields st)
                               (split TAB (substring_from 3 row)) ∅]]> (data st);
                     currentTable := currentTable st;
                     currentFields := currentFields st |}
                 (old ++ [fill_record (currentFields st)
                               (split TAB (substring_from 3 row)) ∅]))
      as (st' & Hparse & Hdata & Hother & Htable & Hfields).
    + unfold row_accepted in *. cbn [currentTable currentFields]. exact Hacc.
    + cbn [data]. apply lookup_insert_eq.
    + exists st'. split; [exact Hparse|]. cbn [currentFields] in Hdata.
      split; [by rewrite Hdata, <- app_assoc|].
      split; [|by split].
      intros t Ht. rewrite (Hother t Ht). cbn [data].
      by apply lookup_insert_ne.
Qed.

(** A table-start line, a field-list line and data rows, read in this
    order from trimmed lines, give the table exactly one record per data
    row, in the order of the rows, each filled from the field list; the
    other tables are untouched. *)
Theorem table_block_parsed (st : parser_state) (tline fline : string)
    (rows : list string) :
  startsWith tline marker_T = true → trim tline = tline →
  startsWith fline marker_F = true →
  Forall (fun row => startsWith row marker_R = true) rows →
  ∃ st',
    parse_lines st (tline :: fline :: rows) = Normal st'
    ∧ data st' !! substring_from 3 tline =
        Some ((fun row => fill_record (split TAB (substring_from 3 fline))
                            (split TAB (substring_from 3 row)) ∅) <$> rows)
    ∧ (∀ t, t ≠ substring_from 3 tline → data st' !! t = data st !! t).
Proof.
  intros HT Htrim HF Hrows.
  pose proof (table_name_not_empty _ HT Htrim) as Hname.
  pose proof (marker_F_not_T _ HF) as HFT.
  cbn [parse_lines]. unfold parse_line at 1. rewrite HT. cbn [bind].
  unfold parse_line at 1. rewrite HFT, HF. cbn [bind data currentTable].
  edestruct (rows_appended
               {| data := <[substring_from 3 tline := []]> (data st);
                  currentTable := Some (substring_from 3 tline);
                  currentFields := split TAB (substring_from 3 fline) |}
               (substring_from 3 tline) rows [])
    as (st' & Hparse & Hdata & Hother & _); [| |exact Hrows|].
  - unfold row_accepted. cbn [currentTable currentFields].
    destruct (String.eqb_spec (substring_from 3 tline) "") as [E|_]; [done|].
    destruct (split TAB (substring_from 3 fline)) eqn:Es; [|done].
    by apply split_not_nil in Es.
  - cbn [data]. apply lookup_insert_eq.
  - exists st'. split; [exact Hparse|]. split; [exact Hdata|].
    intros t Ht. rewrite (Hother t Ht). cbn [data]. by apply lookup_insert_ne.
Qed.

Lemma table_block_parsed_witness :
  ∃ st',
    parse_lines initial_state
      [xer_line "%T" ["RSRC"]; xer_line "%F" ["rsrc_id"; "rsrc_name"];
       xer_line "%R" ["R1"; "Crane"]; xer_line "%R" ["R2"; "Crew"]] = Normal st'
    ∧ length (default [] (data st' !! "RSRC")) = 2%nat.
Proof.
  destruct (table_block_parsed initial_state (xer_line "%T" ["RSRC"])
              (xer_line "%F" ["rsrc_id"; "rsrc_name"])
              [xer_line "%R" ["R1"; "Crane"]; xer_line "%R" ["R2"; "Crew"]])
    as (st' & Hparse & Hdata & _); try reflexivity.
  { repeat constructor. }
  exists st'. split; [exact Hparse|].
  change (substring_from 3 (xer_line "%T" ["RSRC"])) with "RSRC" in Hdata.
  rewrite Hdata. reflexivity.
Defined.


(** ** More on the resource curve *)

Lemma weekly_points_grid (l : list activity_datum) (E : Z) (fuel : nat) :
  ∀ c, fuel = weeks_left (Some E) (Some c) →
    length (weekly_points fuel l (Some E) (Some c)) = fuel
    ∧ ∀ i tp, weekly_points fuel l (Some E) (Some c) !! i = Some tp →
        date tp = Some (c + Z.of_nat i * week)
        ∧ weekEnd tp = Some (c + (Z.of_nat i + 1) * week)
        ∧ c + Z.of_nat i * week ≤ E.
Proof.
  induction fuel as [|fuel IH]; intros c Hfuel.
  - split; [done|]. by intros i tp.
  - symmetry in Hfuel. apply weeks_left_succ in Hfuel as [Hle Hfuel].
    cbn [weekly_points getTime]. rewrite num_le_of_Z.
    destruct (Z.leb_spec c E); [|lia].
    change (num_add (num_of_Z c) weekInMs)
      with (num_add (getTime (Some c)) weekInMs).
    rewrite next_week.
    destruct (IH (c + week) (eq_sym Hfuel)) as [Hlen Hgrid].
    split; [cbn [length]; by rewrite Hlen|].
    intros [|i] tp; cbn [lookup list_lookup].
    + intros [= <-]. destruct (week_point_dates (Some c) (Some (c + week)) l)
        as [-> ->].
      split; [f_equal; lia|]. split; [f_equal; lia|lia].
    + intros Htp. destruct (Hgrid i tp Htp) as (-> & -> & Hi).
      split; [f_equal; lia|]. split; [f_equal; lia|lia].
Qed.

Lemma sort_by_start_nil (l : list activity_datum) :
  sort_by_start l = [] ↔ l = [].
Proof.
  split; [|by intros ->]. intros Hnil.
  apply Permutation_nil_r. rewrite <- Hnil. symmetry. apply sort_by_start_perm.
Qed.

Section MoreCurveFacts.
Context `{Host}.

(** When no assignment of the resource pairs to an activity with both
    dates, [getResourceCurve] returns early: the curve has no buckets and
    also no data points, whatever the assignments are.  Otherwise it has
    one data point per assignment whose activity exists. *)
Theorem curve_without_dates_is_empty (r : Reader) (resourceId_ : value) :
  let assignments := getResourceAssignmentsByResource r resourceId_ in
  (assignments ≫= collect_activity r = [] →
     timeBasedData (getResourceCurve r resourceId_) = []
     ∧ dataPoints (getResourceCurve r resourceId_) = [])
  ∧ (assignments ≫= collect_activity r ≠ [] →
     dataPoints (getResourceCurve r resourceId_) =
       assignments ≫= collect_data_point r).
Proof.
  cbv zeta. unfold getResourceCurve. split.
  - intros ->. done.
  - intros Hne.
    destruct (sort_by_start _) as [|d l] eqn:E; [|done].
    by apply (proj1 (sort_by_start_nil _)) in E.
Qed.




Lemma weekly_points_all (P : time_point → Prop) (l : list activity_datum)
    (fuel : nat) (E c : time) :
  (∀ ws we, P (week_point l ws we)) →
  Forall P (weekly_points fuel l E c).
Proof.
  intros HP. revert c. induction fuel as [|fuel IH]; intros c; cbn [weekly_points].
  - constructor.
  - destruct (num_le _ _); constructor; [apply HP | apply IH].
Qed.


Lemma Qc_of_Z_ratio (a b : Z) :
  0 ≤ a ≤ b → 0 < b →
  (Q2Qc 0 <= Qc_of_Z a / Qc_of_Z b)%Qc ∧ (Qc_of_Z a / Qc_of_Z b <= Q2Qc 1)%Qc.
Proof.
  intros Hab Hb.
  assert (0 < inject_Z b)%Q as Hb'.
  { change 0%Q with (inject_Z 0). rewrite <- Zlt_Qlt. lia. }
  unfold Qcle, Qcdiv, Qcmult, Qcinv, Qc_of_Z. cbn [this Q2Qc].
  rewrite !Qred_correct. split.
  - apply Qle_shift_div_l; [done|]. rewrite Qmult_0_l.
    change 0%Q with (inject_Z 0). rewrite <- Zle_Qle. lia.
  - apply Qle_shift_div_r; [done|]. rewrite Qmult_1_l.
    rewrite <- Zle_Qle. lia.
Qed.

Lemma unit_ratio_zero : unit_ratio num_zero.
Proof. exists (Qc_of_Z 0). by split. Qed.

Lemma add_activity_ratio (ws we : time) (tp : time_point) (d : activity_datum) :
  ratios_in_unit tp → ratios_in_unit (add_activity ws we tp d).
Proof.
  intros Htp. unfold add_activity.
  destruct (_ && _) eqn:Hactive; [|done].
  unfold ratios_in_unit. cbn [activeActivities].
  apply Forall_app. split; [done|]. apply Forall_singleton. cbn [overlapRatio].
  destruct (startDate d) as [s|], (endDate d) as [e|], ws as [c|], we as [c'|];
    try (by (cbn in Hactive; rewrite ?andb_false_r in Hactive)).
  cbn [getTime].
  rewrite Math_max_pair, Math_min_pair, !Date_of_number_of_Z.
  cbn [getTime]. rewrite !num_sub_of_Z.
  change num_zero with (num_of_Z 0). rewrite Math_max_pair, num_gt_of_Z.
  destruct (Z.ltb_spec 0 (e - s)); [|apply unit_ratio_zero].
  rewrite num_div_of_Z by lia.
  eexists. split; [done|]. apply Qc_of_Z_ratio; lia.
Qed.

Lemma week_point_ratio (ws we : time) (l : list activity_datum) :
  ratios_in_unit (week_point l ws we).
Proof.
  unfold week_point.
  set (tp0 := {| date := ws |}).
  assert (ratios_in_unit tp0) as Htp by constructor.
  revert Htp. generalize tp0.
  induction l as [|d l IH]; intros tp Htp; cbn [foldl]; [done|].
  by apply IH, add_activity_ratio.
Qed.

(** The overlap ratio of every active activity of every bucket of a
    resource curve is a number between 0 and 1, whatever the data: the
    overlap is cut to the span of the activity, an activity without a valid
    date is never active, and one of no or negative span has the ratio 0. *)
Theorem overlap_ratio_between_0_and_1 (r : Reader) (resourceId_ : value) :
  Forall ratios_in_unit (timeBasedData (getResourceCurve r resourceId_)).
Proof.
  unfold getResourceCurve.
  destruct (Nat.eqb _ 0); cbn [timeBasedData]; [constructor|].
  apply weekly_points_all. intros ws we. apply week_point_ratio.
Qed.

End MoreCurveFacts.


Lemma curve_without_dates_is_empty_witness :
  getResourceAssignmentsByResource undated_reader (VStr "R1")
    ≫= @collect_activity decimal_host undated_reader = []
  ∧ dataPoints (@getResourceCurve decimal_host undated_reader (VStr "R1")) = []
  ∧ length (getResourceAssignmentsByResource undated_reader (VStr "R1")) = 1%nat.
Proof.
  assert (getResourceAssignmentsByResource undated_reader (VStr "R1")
            ≫= @collect_activity decimal_host undated_reader = []) as Hnone
    by (vm_compute; reflexivity).
  split; [exact Hnone|]. split; [|vm_compute; reflexivity].
  exact (proj2 (proj1 (@curve_without_dates_is_empty decimal_host
                         undated_reader (VStr "R1")) Hnone)).
Defined.



Lemma Math_min_dated (l : list activity_datum) :
  l ≠ [] → Forall dated l →
  ∃ P, Math_min ((fun a => getTime (startDate a)) <$> l) = num_of_Z P
       ∧ (∃ d, d ∈ l ∧ datum_start d = P)
       ∧ (∀ d, d ∈ l → P ≤ datum_start d).
Proof.
  intros Hne Hl. induction Hl as [|d l (Hs & _) Hl IH]; [done|].
  cbn [fmap list_fmap]. unfold Math_min. cbn [foldr]. fold (Math_min).
  rewrite Hs. cbn [getTime].
  destruct l as [|d' l'].
  - exists (datum_start d). split; [done|]. split.
    + exists d. split; [apply list_elem_of_here|done].
    + intros x ->%list_elem_of_singleton. lia.
  - destruct IH as (P & HP & (d0 & Hd0 & Hmin) & Hall); [done|].
    unfold Math_min in HP. rewrite HP, num_min_of_Z.
    exists (Z.min (datum_start d) P). split; [done|]. split.
    + destruct (Z.le_ge_cases (datum_start d) P).
      * exists d. split; [apply list_elem_of_here|lia].
      * exists d0. split; [by apply list_elem_of_further|lia].
    + intros x [->|Hx]%elem_of_cons; [lia|]. specialize (Hall x Hx). lia.
Qed.

Lemma Math_max_dated (l : list activity_datum) :
  l ≠ [] → Forall dated l →
  ∃ E, Math_max ((fun a => getTime (endDate a)) <$> l) = num_of_Z E
       ∧ (∃ d, d ∈ l ∧ datum_end d = E)
       ∧ (∀ d, d ∈ l → datum_end d ≤ E).
Proof.
  intros Hne Hl. induction Hl as [|d l (_ & He) Hl IH]; [done|].
  cbn [fmap list_fmap]. unfold Math_max. cbn [foldr]. fold (Math_max).
  rewrite He. cbn [getTime].
  destruct l as [|d' l'].
  - exists (datum_end d). split; [done|]. split.
    + exists d. split; [apply list_elem_of_here|done].
    + intros x ->%list_elem_of_singleton. lia.
  - destruct IH as (E & HE & (d0 & Hd0 & Hmax) & Hall); [done|].
    unfold Math_max in HE. rewrite HE, num_max_of_Z.
    exists (Z.max (datum_end d) E). split; [done|]. split.
    + destruct (Z.le_ge_cases (datum_end d) E).
      * exists d0. split; [by apply list_elem_of_further|lia].
      * exists d. split; [apply list_elem_of_here|lia].
    + intros x [->|Hx]%elem_of_cons; [lia|]. specialize (Hall x Hx). lia.
Qed.

Lemma window_of_perm (l l' : list activity_datum) (P E : Z) :
  l ≡ₚ l' → window_of l P E → window_of l' P E.
Proof.
  intros Hperm ((d & Hd & Hmin) & Hlo & (d' & Hd' & Hmax) & Hhi).
  repeat split.
  - exists d. by rewrite <- Hperm.
  - intros x Hx. apply Hlo. by rewrite Hperm.
  - exists d'. by rewrite <- Hperm.
  - intros x Hx. apply Hhi. by rewrite Hperm.
Qed.

Lemma datedb_spec (d : activity_datum) : datedb d = true → dated d.
Proof.
  unfold datedb, dated, datum_start, datum_end.
  destruct (startDate d); [|done]. by destruct (endDate d).
Qed.

Section CurveWindow.
Context `{Host}.

(** The buckets of a resource curve, when the dated activities of the
    resource (there is one at least) have valid dates: with [P] the
    earliest start and [E] the latest end among them, there are
    floor((E - P) / 7 days) + 1 buckets if [P <= E] and none otherwise;
    bucket [i] runs from [P + 7 i] days to [P + 7 (i + 1)] days and starts
    no later than [E], and the last bucket ends after [E]. *)
Theorem curve_buckets_are_weekly (r : Reader) (resourceId_ : value) :
  let collected :=
    getResourceAssignmentsByResource r resourceId_ ≫= collect_activity r in
  let buckets := timeBasedData (getResourceCurve r resourceId_) in
  collected ≠ [] →
  Forall dated collected →
  ∃ P E,
    window_of collected P E
    ∧ length buckets = Z.to_nat ((E - P) / week + 1)
    ∧ (P ≤ E → E < P + Z.of_nat (length buckets) * week)
    ∧ (E < P → buckets = [])
    ∧ (∀ i tp, buckets !! i = Some tp →
         date tp = Some (P + Z.of_nat i * week)
         ∧ weekEnd tp = Some (P + (Z.of_nat i + 1) * week)
         ∧ P + Z.of_nat i * week ≤ E).
Proof.
  cbv zeta. intros Hne Hdated. pose proof week_positive as Hw.
  unfold getResourceCurve.
  set (collected := getResourceAssignmentsByResource r resourceId_
                    ≫= collect_activity r) in *.
  pose proof (sort_by_start_perm collected) as Hperm.
  assert (Forall dated (sort_by_start collected)) as Hsorted
    by by rewrite Hperm.
  assert (sort_by_start collected ≠ []) as Hne'
    by (intros Hnil; by apply (proj1 (sort_by_start_nil _)) in Hnil).
  set (sorted := sort_by_start collected) in *.
  destruct (Nat.eqb_spec (length sorted) 0) as [Hlen|_].
  { by apply nil_length_inv in Hlen. }
  cbn [timeBasedData].
  destruct (Math_min_dated sorted Hne' Hsorted) as (P & -> & HP & HPmin).
  destruct (Math_max_dated sorted Hne' Hsorted) as (E & -> & HE & HEmax).
  rewrite !Date_of_number_of_Z.
  destruct (weekly_points_grid sorted E (weeks_left (Some E) (Some P)) P eq_refl)
    as [Hlen Hgrid].
  exists P, E. split.
  { apply (window_of_perm sorted); [done|]. by repeat split. }
  rewrite weeks_left_week in Hlen, Hgrid |- *. rewrite Hlen.
  split; [done|]. split; [|split; [|done]].
  - intros Hle.
    assert (0 ≤ (E - P) / week) by (apply Z.div_pos; lia).
    rewrite Z2Nat.id by lia.
    pose proof (Z.mul_succ_div_gt (E - P) week Hw). lia.
  - intros Hlt. apply nil_length_inv. rewrite Hlen.
    assert ((E - P) / week < 0) by (apply Z.div_lt_upper_bound; lia). lia.
Qed.

End CurveWindow.

Lemma curve_buckets_are_weekly_witness :
  getResourceAssignmentsByResource fortnight_reader (VStr "R1")
    ≫= @collect_activity decimal_host fortnight_reader ≠ []
  ∧ length (timeBasedData
              (@getResourceCurve decimal_host fortnight_reader (VStr "R1")))
    = 3%nat
  ∧ ∃ P E,
      window_of (getResourceAssignmentsByResource fortnight_reader (VStr "R1")
                   ≫= @collect_activity decimal_host fortnight_reader) P E
      ∧ length (timeBasedData
                  (@getResourceCurve decimal_host fortnight_reader (VStr "R1")))
        = Z.to_nat ((E - P) / week + 1).
Proof.
  assert (getResourceAssignmentsByResource fortnight_reader (VStr "R1")
            ≫= @collect_activity decimal_host fortnight_reader ≠ []) as Hne.
  { intros Hnil. apply (f_equal length) in Hnil. vm_compute in Hnil.
    discriminate Hnil. }
  assert (Forall dated
            (getResourceAssignmentsByResource fortnight_reader (VStr "R1")
               ≫= @collect_activity decimal_host fortnight_reader)) as Hdated.
  { apply list.Forall_forall. intros d Hd. apply datedb_spec.
    revert d Hd. apply forallb_elem_of. vm_compute. reflexivity. }
  split; [exact Hne|]. split; [vm_compute; reflexivity|].
  destruct (@curve_buckets_are_weekly decimal_host fortnight_reader (VStr "R1")
              Hne Hdated) as (P & E & Hwin & Hlen & _).
  exists P, E. split; [exact Hwin | exact Hlen].
Defined.


(** ** Files and their lines *)

Lemma append_assoc (a b c : string) : (a +:+ b) +:+ c = a +:+ (b +:+ c).
Proof. induction a as [|x a IH]; [done|]. by rewrite !append_cons, IH. Qed.

Lemma fold_join_app (sep : ascii) (a b : string) (l : list string) :
  foldl (fun acc t => acc +:+ String sep t) (a +:+ b) l =
  a +:+ foldl (fun acc t => acc +:+ String sep t) b l.
Proof.
  revert b. induction l as [|t l IH]; intros b; cbn [foldl]; [done|].
  by rewrite append_assoc, IH.
Qed.

Lemma join_with_cons (sep : ascii) (s t : string) (l : list string) :
  join_with sep (s :: t :: l) = s +:+ String sep (join_with sep (t :: l)).
Proof.
  unfold join_with. cbn [foldl]. rewrite fold_join_app. f_equal.
  change (String sep t) with (String sep "" +:+ t).
  by rewrite fold_join_app.
Qed.

Lemma split_app_sep (sep : ascii) (s r : string) :
  free_of sep s = true → split sep (s +:+ String sep r) = s :: split sep r.
Proof.
  induction s as [|c s IH]; intros Hs.
  - rewrite append_nil. cbn [split]. by rewrite Ascii.eqb_refl.
  - cbn [free_of] in Hs. apply andb_true_iff in Hs as [Hc Hs].
    apply negb_true_iff in Hc. rewrite append_cons. cbn [split].
    by rewrite Hc, IH.
Qed.

Lemma split_free (sep : ascii) (s : string) :
  free_of sep s = true → split sep s = [s].
Proof.
  induction s as [|c s IH]; intros Hs; [done|].
  cbn [free_of] in Hs. apply andb_true_iff in Hs as [Hc Hs].
  apply negb_true_iff in Hc. cbn [split]. by rewrite Hc, IH.
Qed.

Lemma split_join (sep : ascii) (l : list string) :
  l ≠ [] → Forall (fun s => free_of sep s = true) l →
  split sep (join_with sep l) = l.
Proof.
  intros Hne Hl. induction Hl as [|s l Hs Hl IH]; [done|].
  destruct l as [|t l].
  - by apply split_free.
  - rewrite join_with_cons, split_app_sep by done. f_equal. by apply IH.
Qed.

Lemma free_of_app (c : ascii) (a b : string) :
  free_of c (a +:+ b) = free_of c a && free_of c b.
Proof.
  induction a as [|x a IH]; [done|].
  rewrite append_cons. cbn [free_of]. by rewrite IH, andb_assoc.
Qed.

Lemma content_lines_xer_file (lines : list string) :
  Forall (fun s => free_of LF s = true) lines →
  content_lines (xer_file lines) =
  filter (fun line => line ≠ "") (trim <$> lines).
Proof.
  intros Hl. unfold content_lines, xer_file.
  destruct lines as [|s l]; [done|]. by rewrite split_join.
Qed.

(** White space at the end of the lines of a file changes nothing: the
    lines that the parser reads are the trimmed, non-empty lines, and the
    parse is that of the file without the white space.  This holds for the
    carriage returns of CR LF line ends, and also for the tabs that end a
    row whose last cells are empty. *)
Theorem trailing_white_space_is_ignored (lines : list (string * string)) :
  Forall padded_line lines →
  content_lines (xer_file ((fun p => p.1 +:+ p.2) <$> lines)) =
    filter (fun line => line ≠ "") (trim <$> (fst <$> lines))
  ∧ parseContent (xer_file ((fun p => p.1 +:+ p.2) <$> lines)) =
    parseContent (xer_file (fst <$> lines)).
Proof.
  intros Hl.
  assert (content_lines (xer_file ((fun p => p.1 +:+ p.2) <$> lines)) =
          filter (fun line => line ≠ "") (trim <$> (fst <$> lines))) as Hsame.
  { rewrite content_lines_xer_file.
    - f_equal. rewrite <- !list_fmap_compose. apply list.Forall_fmap_ext_1.
      eapply list.Forall_impl; [exact Hl|]. intros p (_ & _ & Hw). cbn.
      by apply trim_app_white.
    - apply list.Forall_fmap. eapply list.Forall_impl; [exact Hl|].
      intros p (H1 & H2 & _). cbn. by rewrite free_of_app, H1, H2. }
  split; [exact Hsame|].
  unfold parseContent. rewrite Hsame, content_lines_xer_file; [done|].
  apply list.Forall_fmap. eapply list.Forall_impl; [exact Hl|].
  by intros p (H1 & _).
Qed.

Lemma trailing_white_space_is_ignored_witness :
  Forall padded_line crlf_lines
  ∧ parseContent (xer_file ((fun p => p.1 +:+ p.2) <$> crlf_lines)) =
    parseContent (xer_file (fst <$> crlf_lines))
  ∧ content_lines (xer_file ((fun p => p.1 +:+ p.2) <$> crlf_lines)) =
    fst <$> crlf_lines.
Proof.
  assert (Forall padded_line crlf_lines) as Hl.
  { repeat first [apply List.Forall_nil | apply List.Forall_cons];
      repeat split; reflexivity. }
  split; [exact Hl|]. split.
  - exact (proj2 (trailing_white_space_is_ignored crlf_lines Hl)).
  - rewrite (proj1 (trailing_white_space_is_ignored crlf_lines Hl)).
    reflexivity.
Defined.
